(** * ai_briefing: news clustering, scoring, link selection, backfill, dedup

    A shallow embedding of the ranking core of the repository
    ([ai_briefing/ranker/news.py], [ai_briefing/ranker/repo.py],
    [ai_briefing/briefing/dedup.py]) and of the code around it (the
    bookmark and attribution lists of [ai_briefing/outputs.py] and
    [ai_briefing/output_builder.py], the dedup of the candidates in
    [main.py]), together with the properties the specification states
    about it and further properties of the code.

    Conventions.
    - Python [str] values are [string]s holding the UTF-8 bytes of the text;
      substring search on the bytes of two well-formed UTF-8 strings agrees
      with substring search on their code points.
    - Python [int]s are [Z]; timestamps are [Z] microseconds since the epoch.
    - Python [float]s of the news ranker are exact rationals [Q]; those of the
      repo ranker, which takes a square root, are reals [R]. Rounding of the
      IEEE doubles is outside the model.
    - PostgreSQL tables with an [id] primary key are [gmap Z row]; nullable
      columns are [option]s.
    - The window of a query, [NOW() - (h || ' hours')::interval], is
      computed on [Z]. PostgreSQL raises when the interval or the
      timestamp leaves its range: the model of the dedup gate has that
      failure; the models of the news ranker take the window to be one
      that the server evaluates. *)

From Stdlib Require Import ZArith QArith Qminmax String Ascii List Lia Sorted.
From Stdlib Require Import Lqa.
From Stdlib Require Import Reals Lra.
From stdpp Require Import base gmap sets list strings pretty.

Set Warnings "-clear-no-such-hyp".

Local Open Scope string_scope.
Local Open Scope list_scope.
Local Open Scope Z_scope.

(* ===================================================================== *)
(** * Python and library primitives                                       *)
(* ===================================================================== *)

Module Py.

(** The library functions the ranker calls but does not define. Every
    theorem below holds for all of them. *)
Record Runtime := {
  (** [str.strip()] *)
  str_strip : string -> string;
  (** [str.lower()] *)
  str_lower : string -> string;
  (** [urllib.parse.urlsplit(url).netloc]; [None] when [urlsplit] raises *)
  urlsplit_netloc : string -> option string;
  (** [int(hashlib.md5(bytes).hexdigest(), 16)] *)
  md5_int : string -> Z;
  (** [rapidfuzz.fuzz.token_set_ratio] *)
  token_set_ratio : string -> string -> Q;
}.

(** Values stored in the dictionaries handed to the link selector. *)
Inductive value :=
| None_
| Str (s : string)
| Int (n : Z)
| Bool (b : bool).

#[global] Instance value_eq_dec : EqDecision value.
Proof. solve_decision. Defined.

(** [d.get(k) or str()] for a value that is a string or [None]. *)
Definition get_or_empty (d : gmap string value) (k : string) : string :=
  match d !! k with
  | Some (Str s) => s
  | _ => EmptyString
  end.

(** [x in l] for a list of strings. *)
Definition mem (x : string) (l : list string) : bool :=
  existsb (String.eqb x) l.

(** [needle in hay] for two strings. *)
Fixpoint contains (needle hay : string) : bool :=
  String.prefix needle hay
  || match hay with
     | EmptyString => false
     | String _ hay' => contains needle hay'
     end.

(** [len(l)] *)
Definition len {A} (l : list A) : Z := Z.of_nat (length l).

(** [l[:n]], also for a negative [n]. *)
Definition slice_to {A} (l : list A) (n : Z) : list A :=
  if 0 <=? n then take (Z.to_nat n) l
  else take (Z.to_nat (len l + n)) l.

(** [sorted(l, key=key)] for keys that are pairs of integers: the stable
    sort, which is what Python guarantees. *)
Definition key_le (k1 k2 : Z * Z) : bool :=
  (k1.1 <? k2.1) || ((k1.1 =? k2.1) && (k1.2 <=? k2.2)).

Fixpoint insert_sorted {A} (key : A -> Z * Z) (x : A) (l : list A) : list A :=
  match l with
  | [] => [x]
  | y :: l' =>
      if key_le (key x) (key y) then x :: l
      else y :: insert_sorted key x l'
  end.

Definition sorted {A} (key : A -> Z * Z) (l : list A) : list A :=
  foldr (insert_sorted key) [] l.

(** [x] may stand before [y] in a list sorted by [key]. *)
Definition key_order {A} (key : A -> Z * Z) (x y : A) : Prop :=
  key_le (key x) (key y) = true.

(** [sep.join(l)] *)
Fixpoint join (sep : string) (l : list string) : string :=
  match l with
  | [] => EmptyString
  | [x] => x
  | x :: l' => (x ++ sep ++ join sep l')%string
  end.

End Py.

(* ===================================================================== *)
(** * ranker/news.py                                                      *)
(* ===================================================================== *)

Module News.
Import Py.

Definition SIMILARITY_THRESHOLD : Q := 70.

(** The table keeps the insertion order of the Python dict. *)
Definition VALUE_SIGNALS : list (string * (Q * list string)) :=
  [ ("monetization", (3.5%Q,
      ["变现"; "赚钱"; "盈利"; "营收"; "订阅"; "付费"; "价格"; "pricing";
       "revenue"; "monetiz"; "roi"]));
    ("productivity", (3%Q,
      ["效率"; "自动化"; "workflow"; "agent"; "copilot"; "节省时间"; "降本";
       "提效"; "automation"]));
    ("learning", (2.5%Q,
      ["学习"; "教程"; "课程"; "指南"; "教学"; "education"; "guide";
       "tutorial"; "course"]));
    ("consumer_value", (2.5%Q,
      ["工具"; "app"; "应用"; "插件"; "个人"; "家庭"; "生活"; "体验";
       "product"; "tool"; "assistant"; "开源"; "open-source"; "open source";
       "免费"; "free"]));
    ("safety_compliance", (2%Q,
      ["安全"; "隐私"; "合规"; "security"; "privacy"; "compliance"; "风险";
       "审计"]));
    ("business_enablement", (2%Q,
      ["商业"; "创业"; "客户"; "企业"; "b2b"; "go-to-market"; "gtm";
       "growth"])) ].

Definition OFFICIAL_DOMAINS : list string :=
  ["openai.com"; "ai.googleblog.com"; "deepmind.google"; "research.google";
   "huggingface.co"; "blogs.microsoft.com"; "blogs.nvidia.com";
   "aws.amazon.com"; "ai.meta.com"; "anthropic.com"; "stability.ai"].

Definition CODE_DOMAINS : list string :=
  ["github.com"; "gitlab.com"; "bitbucket.org"].

Definition PAPER_DOMAINS : list string :=
  ["arxiv.org"; "openreview.net"; "papers.nips.cc"; "aclanthology.org"].

Definition AUTHORITY_DOMAINS : list string :=
  ["nature.com"; "science.org"; "sciencedirect.com"; "ieee.org"; "acm.org"].

Definition COMMUNITY_DOMAINS : list string :=
  ["news.ycombinator.com"; "reddit.com"; "lobste.rs"; "medium.com";
   "towardsdatascience.com"].

(** A candidate link. [priority] and [tie] are the two keys the selector
    adds to the candidate dictionaries before it sorts them. *)
Record Candidate := {
  url : string;
  domain : string;
  priority : Z;
  tie : Z;
}.

(** The dictionary returned by [_select_cluster_links]. *)
Record Links := {
  primary_link : string;
  evidence_links : list string;
  debug : gmap string value;
}.

Definition _link_priority (domain : string) : Z :=
  if mem domain OFFICIAL_DOMAINS then 4
  else if mem domain CODE_DOMAINS || mem domain PAPER_DOMAINS then 3
  else if mem domain AUTHORITY_DOMAINS then 2
  else if mem domain COMMUNITY_DOMAINS then 1
  else 1.

(** First loop of [_select_evidence_links]: one link per domain, until
    [min_count] links are collected. Returns the evidence list and the
    set of domains seen. *)
Fixpoint evidence_by_domain (min_count : Z) (candidates : list Candidate)
    (evidence : list string) (seen_domains : gset string)
    : list string * gset string :=
  match candidates with
  | [] => (evidence, seen_domains)
  | c :: rest =>
      if mem (url c) evidence then
        evidence_by_domain min_count rest evidence seen_domains
      else if bool_decide (domain c ∈ seen_domains) then
        evidence_by_domain min_count rest evidence seen_domains
      else
        let evidence := evidence ++ [url c] in
        let seen_domains := seen_domains ∪ {[domain c]} in
        if min_count <=? len evidence then (evidence, seen_domains)
        else evidence_by_domain min_count rest evidence seen_domains
  end.

(** Second loop: fill up with the remaining candidates in order. *)
Fixpoint evidence_fill (min_count : Z) (candidates : list Candidate)
    (evidence : list string) : list string :=
  match candidates with
  | [] => evidence
  | c :: rest =>
      if mem (url c) evidence then evidence_fill min_count rest evidence
      else
        let evidence := evidence ++ [url c] in
        if min_count <=? len evidence then evidence
        else evidence_fill min_count rest evidence
  end.

Definition _select_evidence_links (candidates : list Candidate)
    (min_count max_count : Z) : list string :=
  let evidence := (evidence_by_domain min_count candidates [] ∅).1 in
  let evidence :=
    if len evidence <? min_count
    then evidence_fill min_count candidates evidence
    else evidence in
  slice_to evidence max_count.

Definition priority_label (primary_priority : Z) : string :=
  if primary_priority =? 4 then "official"
  else if primary_priority =? 3 then "code_or_paper"
  else if primary_priority =? 2 then "authority"
  else if primary_priority =? 1 then "community"
  else "community".

(** For an [int] argument [int(hours)] cannot raise, so the fallback to
    72 is never taken. *)
Definition _window_hours (hours : Z) : Z := Z.max hours 6.

Section WithRuntime.
Context (rt : Runtime).

Definition _normalize_text (text : string) : string :=
  str_lower rt (str_strip rt text).

Definition _get_domain (url : string) : string :=
  if String.eqb url EmptyString then EmptyString
  else match urlsplit_netloc rt url with
       | None => EmptyString
       | Some netloc =>
           if String.eqb netloc EmptyString then EmptyString else str_lower rt netloc
       end.

Definition _stable_hash (text seed : string) : Z :=
  md5_int rt (seed ++ "|" ++ text)%string.

(** The loop that builds [candidates] from the items. *)
Fixpoint collect_candidates (items : list (gmap string value))
    : list Candidate :=
  match items with
  | [] => []
  | item :: rest =>
      let url := str_strip rt (get_or_empty item "url") in
      if String.eqb url EmptyString then collect_candidates rest
      else
        let domain :=
          let d := _get_domain url in
          if String.eqb d EmptyString
          then str_lower rt (str_strip rt (get_or_empty item "domain"))
          else d in
        if String.eqb domain EmptyString then collect_candidates rest
        else {| url := url; domain := domain; priority := 0; tie := 0 |}
             :: collect_candidates rest
  end.

Definition non_arxiv (candidates : list Candidate) : list Candidate :=
  List.filter (fun c => negb (String.eqb (domain c) "arxiv.org")) candidates.

Definition filtered (candidates : list Candidate) : list Candidate :=
  match non_arxiv candidates with
  | [] => candidates
  | l => l
  end.

(** [c["priority"] = ...; c["tie"] = ...] *)
Definition annotate (seed : string) (c : Candidate) : Candidate :=
  {| url := url c; domain := domain c;
     priority := _link_priority (domain c);
     tie := _stable_hash (url c) seed |}.

Definition sort_key (c : Candidate) : Z * Z := (- priority c, tie c).

Definition ordered (cluster_id : Z) (candidates : list Candidate)
    : list Candidate :=
  let seed := pretty cluster_id in
  sorted sort_key (map (annotate seed) (filtered candidates)).

Definition _select_cluster_links (cluster_id : Z)
    (items : list (gmap string value)) : Links :=
  let candidates := collect_candidates items in
  match candidates with
  | [] =>
      {| primary_link := EmptyString;
         evidence_links := [];
         debug := <["candidate_count" := Int 0]>
                  (<["filtered_arxiv" := Bool false]> ∅) |}
  | _ =>
      let ordered := ordered cluster_id candidates in
      let primary := match ordered with c :: _ => url c | [] => EmptyString end in
      let evidence := _select_evidence_links ordered 3 5 in
      let primary_domain :=
        match ordered with c :: _ => domain c | [] => EmptyString end in
      let primary_priority :=
        match ordered with c :: _ => priority c | [] => 0 end in
      {| primary_link := primary;
         evidence_links := evidence;
         debug :=
           <["candidate_count" := Int (len candidates)]>
           (<["filtered_arxiv" :=
                Bool (match non_arxiv candidates with [] => false | _ => true end)]>
           (<["primary_domain" := Str primary_domain]>
           (<["primary_priority" := Str (priority_label primary_priority)]>
            ∅))) |}
  end.

(** The two fields of an item that the selector reads. *)
Definition link_fields (item : gmap string value)
    : option value * option value :=
  (item !! "url", item !! "domain").

(** Whether at least one candidate is outside arxiv.org. *)
Definition has_non_arxiv (candidates : list Candidate) : bool :=
  existsb (fun c => negb (String.eqb (domain c) "arxiv.org")) candidates.

(** Whether the arxiv.org exclusion dropped a candidate. *)
Definition exclusion_removed (candidates : list Candidate) : bool :=
  len (filtered candidates) <? len candidates.

Definition fires (normalized : string) (keywords : list string) : bool :=
  existsb (fun k => contains k normalized) keywords.

Definition fires_entry (normalized : string)
    (e : string * (Q * list string)) : bool :=
  fires normalized e.2.2.

Definition _value_score (text : string) : Q :=
  let normalized := _normalize_text text in
  foldl (fun score '(_, (weight, keywords)) =>
           if fires normalized keywords then (score + weight)%Q else score)
        0%Q VALUE_SIGNALS.

Definition _value_signals (text : string) : list string :=
  let normalized := _normalize_text text in
  foldl (fun signals '(key, (_, keywords)) =>
           if fires normalized keywords then signals ++ [key] else signals)
        [] VALUE_SIGNALS.

(** [VALUE_SIGNALS[key][0]], the weight of a category. *)
Definition weight_of (key : string) : Q :=
  match List.find (fun e => String.eqb e.1 key) VALUE_SIGNALS with
  | Some e => e.2.1
  | None => 0%Q
  end.


(* ----------------------------------------------------------------- *)
(** ** The store                                                      *)

(** Rows of the tables the ranker reads and writes, with the columns
    its queries name. *)
Record ItemRow := {
  i_title : string;
  i_url : option string;
  i_summary : option string;
  i_domain : option string;
  i_source : option string;
  i_published_at : option Z;
  i_fetched_at : option Z;
  i_cluster_id : option Z;
}.

(** The explainability record [meta] that [score_clusters] persists. *)
Record Meta := {
  m_value_signals : list string;
  m_value_score : Q;
  m_source_count : Z;
  m_source_quality : string;
  m_item_count : Z;
  m_freshness_score : Q;
  m_feedback_score : Q;
  m_feedback_counts : gmap string Z;
}.

Record ClusterRow := {
  c_title : string;
  c_first_seen_at : option Z;
  c_last_seen_at : option Z;
  c_score : Q;
  c_kind : string;
  c_item_count : option Z;
  c_meta : option Meta;
}.

Record FeedbackRow := {
  f_topic_kind : option string;
  f_topic_ref_id : option Z;
  f_label : string;
  f_created_at : Z;
}.

Record DB := {
  clusters : gmap Z ClusterRow;
  items : gmap Z ItemRow;
  user_feedback : list FeedbackRow;
}.

(** [n] hours and [n] days as a number of microseconds. *)
Definition hours_us (n : Z) : Z := n * 3600 * 1000000.
Definition days_us (n : Z) : Z := n * 24 * 3600 * 1000000.

(** [ts > NOW() - (w || ' hours')::interval], false on NULL. *)
Definition within_hours (now w : Z) (ts : option Z) : bool :=
  match ts with
  | Some t => now - hours_us w <? t
  | None => false
  end.

(** [COALESCE(a, b)] *)
Definition coalesce {A} (a b : option A) : option A :=
  match a with Some _ => a | None => b end.

(** [GREATEST(a, b)], which ignores NULL arguments. *)
Definition greatest (a : option Z) (b : Z) : option Z :=
  match a with Some x => Some (Z.max x b) | None => Some b end.

Definition set_cluster_id (cid : Z) (r : ItemRow) : ItemRow :=
  {| i_title := i_title r; i_url := i_url r; i_summary := i_summary r;
     i_domain := i_domain r; i_source := i_source r;
     i_published_at := i_published_at r; i_fetched_at := i_fetched_at r;
     i_cluster_id := Some cid |}.

Definition set_last_seen_at (ts : option Z) (r : ClusterRow) : ClusterRow :=
  {| c_title := c_title r; c_first_seen_at := c_first_seen_at r;
     c_last_seen_at := ts; c_score := c_score r; c_kind := c_kind r;
     c_item_count := c_item_count r; c_meta := c_meta r |}.

Definition set_aggregate (n : Z) (ts : option Z) (r : ClusterRow) : ClusterRow :=
  {| c_title := c_title r; c_first_seen_at := c_first_seen_at r;
     c_last_seen_at := ts; c_score := c_score r; c_kind := c_kind r;
     c_item_count := Some n; c_meta := c_meta r |}.

Definition set_score (sc : Q) (m : Meta) (r : ClusterRow) : ClusterRow :=
  {| c_title := c_title r; c_first_seen_at := c_first_seen_at r;
     c_last_seen_at := c_last_seen_at r; c_score := sc; c_kind := c_kind r;
     c_item_count := c_item_count r; c_meta := Some m |}.

Definition with_clusters (db : DB) (cs : gmap Z ClusterRow) : DB :=
  {| clusters := cs; items := items db; user_feedback := user_feedback db |}.

Definition with_items (db : DB) (its : gmap Z ItemRow) : DB :=
  {| clusters := clusters db; items := its; user_feedback := user_feedback db |}.

(* ----------------------------------------------------------------- *)
(** ** cluster_news                                                   *)

(** The dictionaries of [active_clusters] and of [items]. *)
Record Active := { a_id : Z; a_title : string }.

Record Unclustered := {
  u_id : Z;
  u_title : string;
  u_source : option string;
  u_published_at : Z;
}.

Definition Qlt_bool (x y : Q) : bool := negb (Qle_bool y x).

(** The inner loop over [active_clusters]. *)
Definition best_step (item : Unclustered) (acc : option Active * Q)
    (cluster : Active) : option Active * Q :=
  let score := token_set_ratio rt (u_title item) (a_title cluster) in
  if Qlt_bool acc.2 score then (Some cluster, score) else acc.

Definition find_best (item : Unclustered) (active_clusters : list Active)
    : option Active * Q :=
  foldl (best_step item) (None, 0%Q) active_clusters.

(** [INSERT INTO clusters ... RETURNING id]: the sequence hands out an
    id that is not in the table. *)
Definition new_cluster_id (db : DB) : Z := fresh (dom (clusters db)).

(** The row inserted for a new cluster. *)
Definition new_row (item : Unclustered) : ClusterRow :=
  {| c_title := u_title item;
     c_first_seen_at := Some (u_published_at item);
     c_last_seen_at := Some (u_published_at item);
     c_score := 0; c_kind := "news";
     c_item_count := None; c_meta := None |}.

Definition create_cluster (st : DB * list Active) (item : Unclustered)
    : DB * list Active :=
  let '(db, active_clusters) := st in
  let new_cid := new_cluster_id db in
  let row := new_row item in
  let db := with_clusters db (<[new_cid := row]> (clusters db)) in
  let db := with_items db (alter (set_cluster_id new_cid) (u_id item) (items db)) in
  (db, active_clusters ++ [{| a_id := new_cid; a_title := u_title item |}]).

(** One turn of the loop over [items]. *)
Definition assign_item (similarity_threshold : Q)
    (st : DB * list Active) (item : Unclustered) : DB * list Active :=
  let '(db, active_clusters) := st in
  let '(best_match, best_score) := find_best item active_clusters in
  match best_match with
  | Some bm =>
      if Qle_bool similarity_threshold best_score then
        let db := with_items db
                    (alter (set_cluster_id (a_id bm)) (u_id item) (items db)) in
        let db := with_clusters db
                    (alter (fun r => set_last_seen_at
                                       (greatest (c_last_seen_at r)
                                                 (u_published_at item)) r)
                           (a_id bm) (clusters db)) in
        (db, active_clusters)
      else create_cluster st item
  | None => create_cluster st item
  end.

(** The similarity of an item to an active cluster, and what it means
    for [s] to be the highest similarity of an item to the active
    clusters. *)
Definition similarity (item : Unclustered) (c : Active) : Q :=
  token_set_ratio rt (u_title item) (a_title c).

Definition is_highest (item : Unclustered) (active : list Active) (s : Q)
    : Prop :=
  (exists c, c ∈ active /\ (similarity item c == s)%Q)
  /\ forall c, c ∈ active -> (similarity item c <= s)%Q.

Definition item_ts (r : ItemRow) : option Z :=
  coalesce (i_published_at r) (i_fetched_at r).

(** The first query: the clusters seen inside the window. *)
Definition select_active (now window_hours : Z) (db : DB) : list Active :=
  map (fun p => {| a_id := p.1; a_title := c_title p.2 |})
      (List.filter (fun p => within_hours now window_hours (c_last_seen_at p.2))
                   (map_to_list (clusters db))).

(** The second query: the unclustered items of the window, newest
    first. *)
Definition select_unclustered (now window_hours : Z) (db : DB)
    : list Unclustered :=
  sorted (fun u => (- u_published_at u, 0))
    (omap (fun p : Z * ItemRow =>
             match i_cluster_id p.2, item_ts p.2 with
             | None, Some ts =>
                 if now - hours_us window_hours <? ts
                 then Some {| u_id := p.1; u_title := i_title p.2;
                              u_source := coalesce (i_domain p.2) (i_source p.2);
                              u_published_at := ts |}
                 else None
             | _, _ => None
             end)
          (map_to_list (items db))).

(** The rows [cluster_id, COUNT, MAX] of the aggregating sub-query for
    one cluster; [None] when the cluster has no item. *)
Definition aggregate (db : DB) (cid : Z) : option (Z * option Z) :=
  let members :=
    List.filter (fun r => bool_decide (i_cluster_id r = Some cid))
                (map snd (map_to_list (items db))) in
  match members with
  | [] => None
  | _ => Some (len members,
               foldr (fun r acc =>
                        match item_ts r, acc with
                        | Some t, Some a => Some (Z.max t a)
                        | Some t, None => Some t
                        | None, _ => acc
                        end) None members)
  end.

Definition refresh_counts (now window_hours : Z) (db : DB) : DB :=
  with_clusters db
    (map_imap (fun cid r =>
                 Some (if within_hours now window_hours (c_last_seen_at r)
                       then match aggregate db cid with
                            | Some (n, ts) => set_aggregate n ts r
                            | None => r
                            end
                       else r))
              (clusters db)).

(** [now] is the value of [NOW()] in the transaction. *)
Definition cluster_news (now : Z) (hours : Z) (similarity_threshold : Q)
    (db : DB) : DB :=
  let window_hours := _window_hours hours in
  let active_clusters := select_active now window_hours db in
  let items := select_unclustered now window_hours db in
  let '(db, _) :=
    foldl (assign_item similarity_threshold) (db, active_clusters) items in
  refresh_counts now window_hours db.

(* ----------------------------------------------------------------- *)
(** ** score_clusters                                                 *)

(** [(now - last_seen_at).total_seconds() / 3600.0] *)
Definition hours_between (now last_seen_at : Z) : Q :=
  (inject_Z (now - last_seen_at) / 1000000 / 3600)%Q.

(** [hours_since], the elapsed hours clamped at zero. *)
Definition hours_since (now last_seen_at : Z) : Q :=
  Qmax 0 (hours_between now last_seen_at).

Definition freshness (window_hours : Z) (now : Z)
    (last_seen_at created_at : option Z) : Q :=
  let last_seen_at :=
    match coalesce last_seen_at created_at with
    | Some t => t
    | None => now
    end in
  let hours_since := hours_since now last_seen_at in
  Qmax 0 ((inject_Z window_hours - hours_since) / inject_Z window_hours)%Q.

(** [SELECT label, COUNT( * ) ... GROUP BY label] read into a dict. *)
Definition group_count (labels : list string) : gmap string Z :=
  foldr (fun l m => <[l := default 0 (m !! l) + 1]> m) ∅ labels.

Definition feedback_rows (topic_kind : string) (now : Z) (ref_id : Z)
    (fb : list FeedbackRow) : list FeedbackRow :=
  List.filter (fun r =>
                 bool_decide (f_topic_kind r = Some topic_kind)
                 && bool_decide (f_topic_ref_id r = Some ref_id)
                 && (now - days_us 30 <? f_created_at r)) fb.

Definition get_count (counts : gmap string Z) (label : string) : Z :=
  default 0 (counts !! label).

Definition feedback_score_of (counts : gmap string Z) : Q :=
  (inject_Z (get_count counts "useful") * 2
   - inject_Z (get_count counts "useless") * 2
   - inject_Z (get_count counts "skip") * 5)%Q.

(** The rows of [SELECT ... FROM items WHERE cluster_id = cid]. *)
Definition cluster_items (db : DB) (cid : Z) : list ItemRow :=
  List.filter (fun r => bool_decide (i_cluster_id r = Some cid))
              (map snd (map_to_list (items db))).

Definition item_source (r : ItemRow) : option string :=
  coalesce (i_domain r) (i_source r).

(** [set(i[2] for i in items if i[2])] *)
Definition sources_of (rows : list ItemRow) : gset string :=
  list_to_set (omap (fun r => match item_source r with
                              | Some s => if String.eqb s EmptyString then None else Some s
                              | None => None
                              end) rows).

Definition text_blob (rows : list ItemRow) : string :=
  join " " (map (fun r => (i_title r ++ " " ++ default EmptyString (i_summary r))%string) rows).

(** The body of the loop over the clusters, after the member items have
    been found non-empty: the score and the [meta] record. [db_now] is
    [NOW()], [now] is [datetime.now()]. *)
Definition score_cluster (db : DB) (db_now now window_hours : Z) (cid : Z)
    (created_at last_seen_at : option Z) (rows : list ItemRow) : Q * Meta :=
  let count := len rows in
  let sources := sources_of rows in
  let sourceCount := Z.of_nat (size sources) in
  let officialCount :=
    len (List.filter (fun s => mem s OFFICIAL_DOMAINS) (elements sources)) in
  let sourceQuality := if 0 <? officialCount then "official" else "community" in
  let sourceQuality :=
    if (0 <? officialCount) && (officialCount <? sourceCount)
    then "mixed" else sourceQuality in
  let blob := text_blob rows in
  let value_score := _value_score blob in
  let valueSignals := _value_signals blob in
  let freshness_score := freshness window_hours now last_seen_at created_at in
  let feedback_counts :=
    group_count (map f_label (feedback_rows "news" db_now cid (user_feedback db))) in
  let feedback_score := feedback_score_of feedback_counts in
  let score := (inject_Z count * 1 + inject_Z sourceCount * 2
                + value_score * 5 + freshness_score * 3)%Q in
  let score := (score + feedback_score)%Q in
  (score,
   {| m_value_signals := valueSignals; m_value_score := value_score;
      m_source_count := sourceCount; m_source_quality := sourceQuality;
      m_item_count := count; m_freshness_score := freshness_score;
      m_feedback_score := feedback_score;
      m_feedback_counts := feedback_counts |}).

(** One turn of the loop over the fetched clusters. The state carries
    the store and the number of clock readings taken so far; [clock k]
    is the [k]-th reading of [datetime.now()]. *)
Definition score_step (db_now window_hours : Z) (clock : nat -> Z)
    (st : DB * nat) (row : Z * option Z * option Z) : DB * nat :=
  let '(db, k) := st in
  let '(cid, created_at, last_seen_at) := row in
  let rows := cluster_items db cid in
  if len rows =? 0 then st
  else
    let '(score, meta) :=
      score_cluster db db_now (clock k) window_hours cid
                    created_at last_seen_at rows in
    (with_clusters db (alter (set_score score meta) cid (clusters db)), S k).

(** The row written for a cluster scored at the clock reading [now]
    from the items and the feedback of the store [db0]. *)
Definition scored_row (db0 : DB) (db_now window_hours now cid : Z)
    (created_at last_seen_at : option Z) (r : ClusterRow) : ClusterRow :=
  let sm := score_cluster db0 db_now now window_hours cid
                          created_at last_seen_at (cluster_items db0 cid) in
  set_score sm.1 sm.2 r.

Definition select_scored (db_now window_hours : Z) (db : DB)
    : list (Z * option Z * option Z) :=
  map (fun p => (p.1, c_first_seen_at p.2, c_last_seen_at p.2))
      (List.filter (fun p => within_hours db_now window_hours (c_last_seen_at p.2))
                   (map_to_list (clusters db))).

Definition score_clusters (db_now : Z) (clock : nat -> Z) (hours : Z)
    (db : DB) : DB :=
  let window_hours := _window_hours hours in
  (foldl (score_step db_now window_hours clock) (db, O)
         (select_scored db_now window_hours db)).1.

(** The figures of the specification, counted directly on the tables:
    the feedback rows of one label for a topic in the trailing 30 days,
    and the distinct non-empty sources of a list of items. *)
Definition feedback_count (topic_kind : string) (now ref_id : Z)
    (label : string) (fb : list FeedbackRow) : Z :=
  len (List.filter (fun r => String.eqb (f_label r) label)
                   (feedback_rows topic_kind now ref_id fb)).

Definition distinct_sources (rows : list ItemRow) : list string :=
  remove_dups
    (omap (fun r => match item_source r with
                    | Some s => if String.eqb s EmptyString then None else Some s
                    | None => None
                    end) rows).

End WithRuntime.

(* ------------------------------------------------------------------- *)
(** ** get_top_clusters_with_backfill                                   *)

Record Settings := {
  news_window_hours : Z;
  news_backfill_max_steps : Z;
  news_backfill_window_multiplier : Z;
  news_backfill_threshold_step : Z;
}.

Section Backfill.
(** The controller drives three operations on the store and the
    clock. [World] is everything they read and write; [Cluster] is a
    dictionary returned by [get_top_clusters]. *)
Context {World Cluster : Type}.
Context (cluster_news : Z -> Q -> World -> World).
Context (score_clusters : Z -> World -> World).
Context (get_top_clusters : Z -> Z -> World -> list Cluster * World).

(** A line written by [logger.info] in the loop: step, window,
    threshold. *)
Definition LogLine : Type := Z * Z * Q.

(** The [while] loop. [fuel] bounds the turns still allowed by
    [stepCount < news_backfill_max_steps]. *)
Fixpoint backfill_loop (settings : Settings) (limit : Z) (fuel : nat)
    (stepCount windowHours : Z) (threshold : Q)
    (results : list Cluster) (w : World) (log : list LogLine)
    : list Cluster * World * list LogLine :=
  match fuel with
  | O => (results, w, log)
  | S fuel =>
      if stepCount <? news_backfill_max_steps settings then
        let stepCount := stepCount + 1 in
        let windowHours :=
          windowHours * Z.max 1 (news_backfill_window_multiplier settings) in
        let threshold :=
          Qmax 30 (threshold - inject_Z (news_backfill_threshold_step settings)) in
        let log := log ++ [(stepCount, windowHours, threshold)] in
        let w := cluster_news windowHours threshold w in
        let w := score_clusters windowHours w in
        let '(results, w) := get_top_clusters limit windowHours w in
        if limit <=? len results then (results, w, log)
        else backfill_loop settings limit fuel stepCount windowHours
                           threshold results w log
      else (results, w, log)
  end.

(** The parameters and the result of the [k]-th pass, as the
    specification describes them: pass 0 is the run with the base
    window; each later pass widens the window by the multiplier, lowers
    the threshold by the step down to a floor of 30, and reruns
    clustering, scoring and selection on the store left by the pass
    before. *)
Fixpoint window_at (settings : Settings) (k : nat) : Z :=
  match k with
  | O => news_window_hours settings
  | S k => window_at settings k
           * Z.max 1 (news_backfill_window_multiplier settings)
  end.

Fixpoint threshold_at (settings : Settings) (k : nat) : Q :=
  match k with
  | O => SIMILARITY_THRESHOLD
  | S k => Qmax 30 (threshold_at settings k
                    - inject_Z (news_backfill_threshold_step settings))
  end.

Fixpoint pass_at (settings : Settings) (limit : Z) (w : World) (k : nat)
    : list Cluster * World :=
  match k with
  | O => get_top_clusters limit (news_window_hours settings) w
  | S k' =>
      let w := (pass_at settings limit w k').2 in
      let w := cluster_news (window_at settings k) (threshold_at settings k) w in
      let w := score_clusters (window_at settings k) w in
      get_top_clusters limit (window_at settings k) w
  end.

(** The log lines of passes [1..n]. *)
Definition log_upto (settings : Settings) (n : nat) : list LogLine :=
  map (fun k => (Z.of_nat k, window_at settings k, threshold_at settings k))
      (seq 1 n).

Definition get_top_clusters_with_backfill (settings : Settings)
    (limit : Z) (w : World) : list Cluster * World * list LogLine :=
  let windowHours := news_window_hours settings in
  let threshold := SIMILARITY_THRESHOLD in
  let stepCount := 0 in
  let '(results, w) := get_top_clusters limit windowHours w in
  if limit <=? len results then (results, w, [])
  else backfill_loop settings limit
                     (Z.to_nat (news_backfill_max_steps settings))
                     stepCount windowHours threshold results w [].

End Backfill.
End News.

(* ===================================================================== *)
(** * ranker/repo.py                                                      *)
(* ===================================================================== *)

Module Repo.
Import Py.
Local Open Scope R_scope.

(** A row of [repos], with the columns [get_top_repos] selects. *)
Record RepoRow := {
  id : Z;
  full_name : string;
  url : option string;
  description : option string;
  stars : Z;
  forks : Z;
  open_issues : Z;
  last_pushed_at : Z;
  language : option string;
}.

Record SnapshotRow := {
  s_repo_id : Z;
  s_captured_at : Z;
  s_stars : Z;
  s_forks : Z;
  s_open_issues : Z;
}.

(** The dictionary [snapshot_24h]: [stars] is always present, the other
    two keys only when a stored snapshot was found. *)
Record Snapshot := {
  snap_stars : Z;
  snap_forks : option Z;
  snap_open_issues : option Z;
}.

(** A repo dictionary after scoring. *)
Record Scored := {
  repo : RepoRow;
  score : R;
  delta_24h : Z;
  feedback_score : R;
  feedback_counts : gmap string Z;
}.

Record DB := {
  repos : list RepoRow;
  repo_snapshots : list SnapshotRow;
  user_feedback : list News.FeedbackRow;
}.

(** [(now - last_pushed).days]: whole days, rounded down. *)
Definition days_between (now last_pushed : Z) : Z :=
  ((now - last_pushed) / News.days_us 1)%Z.

(** [now] is the reading of [datetime.now()]. *)
Definition calculate_repo_score (now : Z) (repo : RepoRow)
    (snapshot_24h_ago : option Snapshot) : R :=
  let stars_now := stars repo in
  let stars_then :=
    match snapshot_24h_ago with
    | Some s => snap_stars s
    | None => 0%Z
    end in
  let delta_stars := (stars_now - stars_then)%Z in
  let days_since_push := days_between now (last_pushed_at repo) in
  let freshness_factor := 1 / Rpower (IZR (Z.max days_since_push 1)) (5 / 10) in
  let score := IZR delta_stars * 2 + IZR stars_now * (1 / 100) in
  let score := score * freshness_factor in
  let score := score + IZR (Z.min (open_issues repo) 50) * (1 / 10) in
  score.

Definition feedback_score_of (counts : gmap string Z) : R :=
  IZR (News.get_count counts "useful") * 2
  - IZR (News.get_count counts "useless") * 2
  - IZR (News.get_count counts "skip") * 5.

(** The [skip] query: the ids of the repos to leave out. *)
Definition skip_ids (db_now : Z) (db : DB) : list (option Z) :=
  map News.f_topic_ref_id
      (List.filter (fun r =>
                      bool_decide (News.f_topic_kind r = Some "repo")
                      && String.eqb (News.f_label r) "skip"
                      && (db_now - News.days_us 30 <? News.f_created_at r)%Z)
                   (user_feedback db)).

Definition in_snapshot_window (db_now : Z) (rid : Z) (s : SnapshotRow) : bool :=
  (s_repo_id s =? rid)%Z
  && (db_now - News.hours_us 30 <=? s_captured_at s)%Z
  && (s_captured_at s <=? db_now - News.hours_us 20)%Z.

(** [ORDER BY captured_at DESC LIMIT 1] over the snapshots of the
    window. *)
Definition latest_snapshot (db_now : Z) (rid : Z) (snaps : list SnapshotRow)
    : option SnapshotRow :=
  foldl (fun best s =>
           if in_snapshot_window db_now rid s then
             match best with
             | None => Some s
             | Some b => if (s_captured_at b <? s_captured_at s)%Z
                         then Some s else best
             end
           else best)
        None snaps.

(** The body of the loop over [repos]. *)
Definition score_repo (db_now now : Z) (db : DB) (repo : RepoRow) : Scored :=
  let feedback_counts :=
    News.group_count
      (map News.f_label
           (News.feedback_rows "repo" db_now (id repo) (user_feedback db))) in
  let feedback_score := feedback_score_of feedback_counts in
  let snap := latest_snapshot db_now (id repo) (repo_snapshots db) in
  let snapshot_24h :=
    match snap with
    | Some s => {| snap_stars := s_stars s; snap_forks := Some (s_forks s);
                   snap_open_issues := Some (s_open_issues s) |}
    | None => {| snap_stars := stars repo; snap_forks := None;
                 snap_open_issues := None |}
    end in
  let score := calculate_repo_score now repo (Some snapshot_24h) in
  let score := score + feedback_score in
  {| repo := repo; score := score;
     delta_24h := (stars repo - snap_stars snapshot_24h)%Z;
     feedback_score := feedback_score;
     feedback_counts := feedback_counts |}.

(** [scored_repos] before it is sorted: the [k]-th repo of the loop is
    scored at the [k]-th reading [clock k] of [datetime.now()]. *)
Definition scored_repos (db_now : Z) (clock : nat -> Z) (db : DB) : list Scored :=
  let skipped := skip_ids db_now db in
  let repos :=
    List.filter (fun r => negb (bool_decide (Some (id r) ∈ skipped))) (repos db) in
  imap (fun k r => score_repo db_now (clock k) db r) repos.

(** [l.sort(key=..., reverse=True)]: stable, largest score first. *)
Fixpoint insert_desc (x : Scored) (l : list Scored) : list Scored :=
  match l with
  | [] => [x]
  | y :: l' =>
      if Rle_dec (score y) (score x) then x :: l
      else y :: insert_desc x l'
  end.

Definition sort_desc (l : list Scored) : list Scored :=
  foldr insert_desc [] l.

Definition get_top_repos (db_now : Z) (clock : nat -> Z) (limit : Z) (db : DB)
    : list Scored :=
  slice_to (sort_desc (scored_repos db_now clock db)) limit.

End Repo.

(* ===================================================================== *)
(** * briefing/dedup.py                                                   *)
(* ===================================================================== *)

Module Dedup.
Import Py.

Record BriefRow := {
  b_kind : option string;
  b_ref_id : option Z;
  b_created_at : Z;
}.

(** What the function can do: return a set, or let the exception of
    [get_conn] or of the query escape. *)
Inductive outcome :=
| Returns (ids : gset Z)
| Raises.

(** The store as seen through [get_conn]: [None] when no connection can
    be opened, otherwise the rows of [briefs], the value of [NOW()], and
    the numbers of hours [h] for which the server answers the query:
    PostgreSQL raises instead when it cannot evaluate [NOW() - (h || '
    hours')::interval], the interval or the timestamp being outside its
    range. Where that range ends depends on the server and on [NOW()],
    so it is a component of the store. *)
Definition Conn : Type := option (list BriefRow * Z * (Z -> bool)).

Definition getRecentBriefRefIds (conn : Conn) (kind : string)
    (refIds : list Z) (hours : Z) : outcome :=
  let refIdList := refIds in
  if bool_decide (refIdList = []) || (hours <=? 0) then Returns ∅
  else match conn with
       | None => Raises
       | Some (briefs, now, evaluates) =>
           if evaluates hours then
             let rows :=
               List.filter (fun r =>
                              bool_decide (b_kind r = Some kind)
                              && match b_ref_id r with
                                 | Some i => bool_decide (i ∈ refIdList)
                                 | None => false
                                 end
                              && (now - News.hours_us hours <? b_created_at r))
                           briefs in
             Returns (list_to_set (omap b_ref_id rows))
           else Raises
       end.

End Dedup.

(* ===================================================================== *)
(** * A reference runtime                                                 *)
(* ===================================================================== *)

(** Concrete library functions, used to evaluate the model on examples.
    [strip], [lower] and [netloc] follow Python on ASCII text and on text
    whose other characters are neither spaces nor cased (such as CJK);
    [md5_int] is MD5 itself. *)
Module Ref.
Import Py.

(** MD5 (RFC 1321) on 32-bit words held in [Z]. *)
Definition w32 (x : Z) : Z := x mod 2 ^ 32.

Definition rotl (x c : Z) : Z :=
  w32 (Z.lor (Z.shiftl x c) (Z.shiftr x (32 - c))).

Definition md5_K : list Z :=
  [ 3614090360; 3905402710; 606105819; 3250441966;
    4118548399; 1200080426; 2821735955; 4249261313;
    1770035416; 2336552879; 4294925233; 2304563134;
    1804603682; 4254626195; 2792965006; 1236535329;
    4129170786; 3225465664; 643717713; 3921069994;
    3593408605; 38016083; 3634488961; 3889429448;
    568446438; 3275163606; 4107603335; 1163531501;
    2850285829; 4243563512; 1735328473; 2368359562;
    4294588738; 2272392833; 1839030562; 4259657740;
    2763975236; 1272893353; 4139469664; 3200236656;
    681279174; 3936430074; 3572445317; 76029189;
    3654602809; 3873151461; 530742520; 3299628645;
    4096336452; 1126891415; 2878612391; 4237533241;
    1700485571; 2399980690; 4293915773; 2240044497;
    1873313359; 4264355552; 2734768916; 1309151649;
    4149444226; 3174756917; 718787259; 3951481745 ].

Definition md5_S : list Z :=
  [ 7; 12; 17; 22; 7; 12; 17; 22; 7; 12; 17; 22; 7; 12; 17; 22;
    5; 9; 14; 20; 5; 9; 14; 20; 5; 9; 14; 20; 5; 9; 14; 20;
    4; 11; 16; 23; 4; 11; 16; 23; 4; 11; 16; 23; 4; 11; 16; 23;
    6; 10; 15; 21; 6; 10; 15; 21; 6; 10; 15; 21; 6; 10; 15; 21 ].

Definition bytes_of (s : string) : list Z :=
  map (fun a => Z.of_N (N_of_ascii a)) (list_ascii_of_string s).

(** [n] as [k] little-endian bytes. *)
Fixpoint le_bytes (k : nat) (n : Z) : list Z :=
  match k with
  | O => []
  | S k => (n mod 256) :: le_bytes k (n / 256)
  end.

Definition le_word (bs : list Z) : Z :=
  foldr (fun b acc => b + 256 * acc) 0 bs.

Definition md5_pad (msg : list Z) : list Z :=
  let n := Z.of_nat (length msg) in
  let zeros := Z.to_nat ((55 - n) mod 64) in
  msg ++ [128] ++ repeat 0 zeros ++ le_bytes 8 ((8 * n) mod 2 ^ 64).

Fixpoint chunks (fuel : nat) (k : nat) (l : list Z) : list (list Z) :=
  match fuel, l with
  | O, _ | _, [] => []
  | S fuel, _ => take k l :: chunks fuel k (drop k l)
  end.

Definition md5_round (M : list Z) (st : Z * Z * Z * Z) (i : Z) : Z * Z * Z * Z :=
  let '(A, B, C, D) := st in
  let not32 x := Z.lxor x (2 ^ 32 - 1) in
  let '(F, g) :=
    if i <? 16 then (Z.lor (Z.land B C) (Z.land (not32 B) D), i)
    else if i <? 32 then
      (Z.lor (Z.land D B) (Z.land (not32 D) C), (5 * i + 1) mod 16)
    else if i <? 48 then (Z.lxor B (Z.lxor C D), (3 * i + 5) mod 16)
    else (Z.lxor C (Z.lor B (not32 D)), (7 * i) mod 16) in
  let F := w32 (F + A + nth (Z.to_nat i) md5_K 0 + nth (Z.to_nat g) M 0) in
  (D, w32 (B + rotl F (nth (Z.to_nat i) md5_S 0)), B, C).

Definition md5_chunk (st : Z * Z * Z * Z) (chunk : list Z) : Z * Z * Z * Z :=
  let M := map le_word (chunks 16 4 chunk) in
  let '(a0, b0, c0, d0) := st in
  let '(A, B, C, D) := foldl (md5_round M) st (map Z.of_nat (seq 0 64)) in
  (w32 (a0 + A), w32 (b0 + B), w32 (c0 + C), w32 (d0 + D)).

Definition md5_digest (s : string) : list Z :=
  let msg := md5_pad (bytes_of s) in
  let '(a, b, c, d) :=
    foldl md5_chunk (1732584193, 4023233417, 2562383102, 271733878)
          (chunks (length msg) 64 msg) in
  le_bytes 4 a ++ le_bytes 4 b ++ le_bytes 4 c ++ le_bytes 4 d.

(** [int(hexdigest, 16)]: the digest read as a big-endian number. *)
Definition md5_int (s : string) : Z :=
  foldl (fun acc b => 256 * acc + b) 0 (md5_digest s).

Definition is_space (a : ascii) : bool :=
  let n := Z.of_N (N_of_ascii a) in
  ((9 <=? n) && (n <=? 13)) || ((28 <=? n) && (n <=? 32)).

Fixpoint lstrip (s : string) : string :=
  match s with
  | String a s' => if is_space a then lstrip s' else s
  | EmptyString => s
  end.

Fixpoint rstrip (s : string) : string :=
  match s with
  | String a s' =>
      match rstrip s' with
      | EmptyString => if is_space a then EmptyString else String a EmptyString
      | t => String a t
      end
  | EmptyString => s
  end.

Definition strip (s : string) : string := rstrip (lstrip s).

Definition lower_ascii (a : ascii) : ascii :=
  let n := N_of_ascii a in
  if ((65 <=? n) && (n <=? 90))%N then ascii_of_N (n + 32) else a.

Fixpoint lower (s : string) : string :=
  match s with
  | String a s' => String (lower_ascii a) (lower s')
  | EmptyString => s
  end.

Definition is_alpha (a : ascii) : bool :=
  let n := Z.of_N (N_of_ascii (lower_ascii a)) in (97 <=? n) && (n <=? 122).

Definition is_scheme_char (a : ascii) : bool :=
  let n := Z.of_N (N_of_ascii a) in
  is_alpha a || ((48 <=? n) && (n <=? 57))
  || (n =? 43) || (n =? 45) || (n =? 46).

(** The text before the first character satisfying [stop], and the text
    from that character on. *)
Fixpoint break_at (stop : ascii -> bool) (s : string) : string * string :=
  match s with
  | String a s' =>
      if stop a then (EmptyString, s)
      else let '(h, t) := break_at stop s' in (String a h, t)
  | EmptyString => (EmptyString, EmptyString)
  end.

Definition after_scheme (url : string) : string :=
  match break_at (Ascii.eqb ":") url with
  | (String a h, String _ rest) =>
      if is_alpha a && forallb is_scheme_char (list_ascii_of_string h)
      then rest else url
  | _ => url
  end.

(** [urlsplit(url).netloc]; [None] stands for the [ValueError] raised on
    unbalanced brackets. *)
Definition netloc (url : string) : option string :=
  match after_scheme url with
  | String "/" (String "/" rest) =>
      let n := (break_at (fun a => Ascii.eqb a "/" || Ascii.eqb a "?"
                                   || Ascii.eqb a "#") rest).1 in
      if Bool.eqb (contains "[" n) (contains "]" n) then Some n else None
  | _ => Some EmptyString
  end.

(** [token_set_ratio] read off a table of known scores; pairs that are
    not listed score 0. *)
Definition ratio_of (table : list (string * string * Q)) (a b : string) : Q :=
  match List.find (fun e => String.eqb e.1.1 a && String.eqb e.1.2 b) table with
  | Some e => e.2
  | None => 0%Q
  end.

Definition runtime (table : list (string * string * Q)) : Runtime :=
  {| str_strip := strip; str_lower := lower; urlsplit_netloc := netloc;
     Py.md5_int := md5_int; token_set_ratio := ratio_of table |}.

End Ref.

(* ===================================================================== *)
(** * Example data                                                        *)
(* ===================================================================== *)

Module Examples.
Import Py.

(** The title pairs of the examples with the scores rapidfuzz gives
    them: equal titles score 100, titles without a common word or
    character score 0. *)
Definition ratios : list (string * string * Q) :=
  [ ("GPT-5 Launch", "GPT-5 Launch", 100%Q); ("xyz", "abc", 0%Q) ].

Definition rt : Runtime := Ref.runtime ratios.

Definition item_of (fields : list (string * value)) : gmap string value :=
  list_to_map fields.

(** One official link. *)
Definition one_link : list (gmap string value) :=
  [ item_of [("url", Str "https://openai.com/blog/a"); ("domain", Str "openai.com")] ].

(** Four links over three domains, with and without fields that the
    selector does not read. *)
Definition four_links : list (gmap string value) :=
  [ item_of [("url", Str "https://github.com/x/y"); ("domain", Str "github.com")];
    item_of [("url", Str " https://OpenAI.com/blog/a "); ("domain", None_)];
    item_of [("url", Str "https://www.nature.com/articles/1")];
    item_of [("url", Str "https://github.com/x/z"); ("domain", Str "github.com")] ].

Definition four_links_titled : list (gmap string value) :=
  [ item_of [("url", Str "https://github.com/x/y"); ("domain", Str "github.com");
             ("title", Str "y")];
    item_of [("url", Str " https://OpenAI.com/blog/a "); ("domain", None_);
             ("title", Str "a")];
    item_of [("url", Str "https://www.nature.com/articles/1"); ("title", None_)];
    item_of [("url", Str "https://github.com/x/z"); ("domain", Str "github.com")] ].

(** Three domains, one of them arxiv.org. *)
Definition arxiv_links : list (gmap string value) :=
  [ item_of [("url", Str "https://sitea.com/1")];
    item_of [("url", Str "https://sitea.com/2")];
    item_of [("url", Str "https://siteb.com/1")];
    item_of [("url", Str "https://arxiv.org/abs/1")] ].

(** URLs without a host, whose domain is taken from the item: the same
    URL comes with two domains. *)
Definition bare_links : list (gmap string value) :=
  [ item_of [("url", Str "paper-1"); ("domain", Str "a.org")];
    item_of [("url", Str "paper-1"); ("domain", Str "b.org")];
    item_of [("url", Str "paper-2"); ("domain", Str "c.org")];
    item_of [("url", Str "paper-3"); ("domain", Str "a.org")] ].

(** A store with one cluster, two member items, one unclustered item
    and some feedback. Times are in microseconds; [now] is hour 1000. *)
Definition hour : Z := 3600000000.
Definition now : Z := 1000 * hour.

Definition cluster_row : News.ClusterRow :=
  {| News.c_title := "GPT-5 Launch";
     News.c_first_seen_at := Some (now - 30 * hour);
     News.c_last_seen_at := Some (now - 12 * hour);
     News.c_score := 0; News.c_kind := "news";
     News.c_item_count := Some 2; News.c_meta := None |}.

Definition news_db : News.DB :=
  {| News.clusters := {[ 1 := cluster_row ]};
     News.items :=
       list_to_map
         [ (10, {| News.i_title := "GPT-5 Launch";
                   News.i_url := Some "https://openai.com/blog/a";
                   News.i_summary := Some "pricing and agent workflow";
                   News.i_domain := Some "openai.com"; News.i_source := None;
                   News.i_published_at := Some (now - 30 * hour);
                   News.i_fetched_at := Some (now - 29 * hour);
                   News.i_cluster_id := Some 1 |});
           (11, {| News.i_title := "GPT-5 Launch";
                   News.i_url := Some "https://news.ycombinator.com/item?id=1";
                   News.i_summary := None;
                   News.i_domain := None; News.i_source := Some "hn";
                   News.i_published_at := Some (now - 12 * hour);
                   News.i_fetched_at := Some (now - 11 * hour);
                   News.i_cluster_id := Some 1 |});
           (12, {| News.i_title := "xyz";
                   News.i_url := None; News.i_summary := None;
                   News.i_domain := None; News.i_source := Some "blog";
                   News.i_published_at := None;
                   News.i_fetched_at := Some (now - 2 * hour);
                   News.i_cluster_id := None |}) ];
     News.user_feedback :=
       [ {| News.f_topic_kind := Some "news"; News.f_topic_ref_id := Some 1;
            News.f_label := "useful"; News.f_created_at := now - 50 * hour |};
         {| News.f_topic_kind := Some "news"; News.f_topic_ref_id := Some 1;
            News.f_label := "useful"; News.f_created_at := now - 5 * hour |};
         {| News.f_topic_kind := Some "news"; News.f_topic_ref_id := Some 1;
            News.f_label := "skip"; News.f_created_at := now - 900 * hour |};
         {| News.f_topic_kind := Some "repo"; News.f_topic_ref_id := Some 1;
            News.f_label := "useless"; News.f_created_at := now - 5 * hour |} ] |}.

Definition active_one : list News.Active :=
  [ {| News.a_id := 1; News.a_title := "abc" |} ].

Definition active_gpt : list News.Active :=
  [ {| News.a_id := 1; News.a_title := "GPT-5 Launch" |} ].

Definition item_xyz : News.Unclustered :=
  {| News.u_id := 12; News.u_title := "xyz"; News.u_source := Some "blog";
     News.u_published_at := now - 2 * hour |}.

Definition item_gpt : News.Unclustered :=
  {| News.u_id := 12; News.u_title := "GPT-5 Launch"; News.u_source := Some "blog";
     News.u_published_at := now - 2 * hour |}.

(** A repo with 1000 stars and 60 open issues, pushed four days and
    five hours ago, whose only snapshot is forty hours old. *)
Definition repo_row : Repo.RepoRow :=
  {| Repo.id := 3; Repo.full_name := "org/tool"; Repo.url := None;
     Repo.description := None; Repo.stars := 1000; Repo.forks := 10;
     Repo.open_issues := 60; Repo.last_pushed_at := now - 101 * hour;
     Repo.language := None |}.

Definition repo_db : Repo.DB :=
  {| Repo.repos := [repo_row];
     Repo.repo_snapshots :=
       [ {| Repo.s_repo_id := 3; Repo.s_captured_at := now - 40 * hour;
            Repo.s_stars := 900; Repo.s_forks := 9; Repo.s_open_issues := 50 |} ];
     Repo.user_feedback := [] |}.

(** A toy world for the backfill controller: the world is the number of
    clustering runs so far, and each run makes one more cluster
    available. A step of 25 brings the threshold from 70 to 45 and then to
    the floor. *)
Definition toy_cluster_news (hours : Z) (threshold : Q) (w : nat) : nat := S w.
Definition toy_score_clusters (hours : Z) (w : nat) : nat := w.
Definition toy_get_top_clusters (limit hours : Z) (w : nat) : list nat * nat :=
  (take (Z.to_nat limit) (seq 0 w), w).

Definition toy_settings : News.Settings :=
  {| News.news_window_hours := 72; News.news_backfill_max_steps := 2;
     News.news_backfill_window_multiplier := 2;
     News.news_backfill_threshold_step := 25 |}.

(** The lowest timestamp of PostgreSQL, the start of the year 4713 BC
    of its calendar, in microseconds from the epoch; a server refuses a
    window that starts before it. *)
Definition oldest_timestamp : Z := -210866803200000000.

Definition in_range (now hours : Z) : bool :=
  oldest_timestamp <=? now - News.hours_us hours.

(** A store in which brief 7 of kind [news] was published ten hours
    ago. *)
Definition dedup_store : Dedup.Conn :=
  Some ([ {| Dedup.b_kind := Some "news"; Dedup.b_ref_id := Some 7;
             Dedup.b_created_at := now - 10 * hour |} ], now, in_range now).

End Examples.

(* ===================================================================== *)
(** * Figures and relations over the store                                *)
(* ===================================================================== *)

Module Figures.
Import Py News.

(** What one feedback row of a label adds to a feedback score. *)
Definition feedback_weight (label : string) : Z :=
  if String.eqb label "useful" then 2
  else if String.eqb label "useless" then -2
  else if String.eqb label "skip" then -5
  else 0.

(** Whether a feedback row is counted for a topic: the condition of the
    feedback query. *)
Definition feedback_counted_row (topic_kind : string) (now ref_id : Z)
    (r : FeedbackRow) : bool :=
  bool_decide (f_topic_kind r = Some topic_kind)
  && bool_decide (f_topic_ref_id r = Some ref_id)
  && (now - days_us 30 <? f_created_at r).

Definition sum_Z (l : list Z) : Z := foldr Z.add 0 l.

(** Whether [cluster_news] picks an item row up: it has no cluster and
    its timestamp lies inside the window. *)
Definition item_selected (now window_hours : Z) (r : ItemRow) : bool :=
  match i_cluster_id r, item_ts r with
  | None, Some ts => now - hours_us window_hours <? ts
  | _, _ => false
  end.

(** Two item rows that differ at most in [cluster_id], the one column
    that [cluster_news] writes in [items]. *)
Definition same_item (r r' : ItemRow) : Prop :=
  i_title r' = i_title r /\ i_url r' = i_url r /\ i_summary r' = i_summary r
  /\ i_domain r' = i_domain r /\ i_source r' = i_source r
  /\ i_published_at r' = i_published_at r /\ i_fetched_at r' = i_fetched_at r.

(** Two cluster rows that agree on the columns that [cluster_news]
    never updates. *)
Definition same_cluster (r r' : ClusterRow) : Prop :=
  c_title r' = c_title r /\ c_first_seen_at r' = c_first_seen_at r
  /\ c_score r' = c_score r /\ c_kind r' = c_kind r /\ c_meta r' = c_meta r.

(** [a] is NULL or at most [b]: how [last_seen_at] moves under
    [GREATEST]. *)
Definition seen_le (a b : option Z) : Prop :=
  forall m, a = Some m -> exists m', b = Some m' /\ m <= m'.

(** Every cluster of [db] is still in [db'], with the columns that
    [cluster_news] never updates, the same item count and a
    [last_seen_at] that did not move back. *)
Definition clusters_kept (db db' : DB) : Prop :=
  forall cid r, clusters db !! cid = Some r ->
    exists r', clusters db' !! cid = Some r' /\ same_cluster r r'
               /\ c_item_count r' = c_item_count r
               /\ seen_le (c_last_seen_at r) (c_last_seen_at r').

(** Every entry of [active_clusters] names a row of the table. *)
Definition active_known (db : DB) (active : list Active) : Prop :=
  forall c, c ∈ active -> is_Some (clusters db !! a_id c).

End Figures.

(* ===================================================================== *)
(** * ranker/news.py: get_top_clusters                                    *)
(* ===================================================================== *)

Module Selection.
Import Py News.

(** What [get_top_clusters] reads and writes besides the tables of
    [DB]: the table [briefs], and the columns [primary_link],
    [evidence_links] and [link_select_debug] of [clusters], kept here as
    a map from the cluster id; a cluster without an entry has the three
    columns unset. *)
Record Store := {
  db : DB;
  briefs : list Dedup.BriefRow;
  links : gmap Z Links;
}.

(** A dictionary of [results]. [t_items] holds the rows that the
    dictionaries of [cluster['items']] are read from. *)
Record Cluster := {
  t_id : Z;
  t_title : string;
  t_score : Q;
  t_created_at : option Z;
  t_items : list ItemRow;
  t_primary_link : string;
  t_evidence_links : list string;
}.

(** [SELECT ref_id FROM briefs WHERE kind = 'news' AND created_at >
    NOW() - INTERVAL '24 HOURS'] *)
Definition sent_ids (db_now : Z) (bs : list Dedup.BriefRow) : list (option Z) :=
  map Dedup.b_ref_id
      (List.filter (fun b =>
                      bool_decide (Dedup.b_kind b = Some "news")
                      && (db_now - hours_us 24 <? Dedup.b_created_at b))
                   bs).

(** [SELECT DISTINCT topic_ref_id FROM user_feedback WHERE topic_kind =
    'news' AND label = 'skip' AND created_at > NOW() - INTERVAL '30
    DAYS'] *)
Definition skip_ids (db_now : Z) (fb : list FeedbackRow) : list (option Z) :=
  remove_dups
    (map f_topic_ref_id
         (List.filter (fun r =>
                         bool_decide (f_topic_kind r = Some "news")
                         && String.eqb (f_label r) "skip"
                         && (db_now - days_us 30 <? f_created_at r))
                      fb)).

(** [id != ANY(arr)] in SQL's three-valued logic: true when some
    element of the array differs from [id]; otherwise unknown when the
    array holds a NULL, and false when it does not. *)
Definition ne_any (i : Z) (arr : list (option Z)) : option bool :=
  if existsb (fun x => match x with
                       | Some j => negb (i =? j)
                       | None => false
                       end) arr
  then Some true
  else if existsb (fun x => match x with None => true | Some _ => false end) arr
       then None
       else Some false.

(** [if ids: base_query += " AND id != ANY(%s)"]: the clause is added
    for a non-empty list only, and a row passes it when the comparison
    is true. *)
Definition passes (i : Z) (ids : list (option Z)) : bool :=
  match ids with
  | [] => true
  | _ => match ne_any i ids with
         | Some true => true
         | _ => false
         end
  end.

(** [ORDER BY score DESC]: the stable sort, largest score first. *)
Fixpoint insert_by_score (x : Z * ClusterRow) (l : list (Z * ClusterRow))
    : list (Z * ClusterRow) :=
  match l with
  | [] => [x]
  | y :: l' =>
      if Qle_bool (c_score y.2) (c_score x.2) then x :: l
      else y :: insert_by_score x l'
  end.

Definition by_score (l : list (Z * ClusterRow)) : list (Z * ClusterRow) :=
  foldr insert_by_score [] l.

(** The rows of the main query, for a [limit] that is not negative. *)
Definition select_top (db_now window_hours limit : Z) (s : Store)
    : list (Z * ClusterRow) :=
  let sent := sent_ids db_now (briefs s) in
  let skip := skip_ids db_now (user_feedback (db s)) in
  take (Z.to_nat limit)
       (by_score
          (List.filter (fun p => within_hours db_now window_hours
                                              (c_last_seen_at p.2)
                                 && passes p.1 sent && passes p.1 skip)
                       (map_to_list (clusters (db s))))).

(** [FROM items WHERE cluster_id = cid ORDER BY COALESCE(published_at,
    fetched_at) DESC LIMIT n]: a descending order puts the rows without
    a timestamp first. *)
Definition newest_items (d : DB) (cid : Z) (n : nat) : list ItemRow :=
  take n (sorted (fun r => match item_ts r with
                           | None => (0, 0)
                           | Some t => (1, - t)
                           end)
                 (cluster_items d cid)).

Definition opt_value (x : option string) : value :=
  match x with
  | Some s => Str s
  | None => None_
  end.

(** [{"url": r[0], "domain": r[1]}] *)
Definition link_item (r : ItemRow) : gmap string value :=
  <["url" := opt_value (i_url r)]>
  (<["domain" := opt_value (item_source r)]> ∅).

Definition set_links (cid : Z) (l : Links) (s : Store) : Store :=
  {| db := db s; briefs := briefs s; links := <[cid := l]> (links s) |}.

Section WithRuntime.
Context (rt : Runtime).

(** One turn of the loop over [rows]. *)
Definition top_step (st : Store * list Cluster) (row : Z * ClusterRow)
    : Store * list Cluster :=
  let '(s, results) := st in
  let cid := row.1 in
  let items := newest_items (db s) cid 5 in
  let link_items := map link_item (newest_items (db s) cid 20) in
  let links := _select_cluster_links rt cid link_items in
  let cluster :=
    {| t_id := cid; t_title := c_title row.2; t_score := c_score row.2;
       t_created_at := c_first_seen_at row.2; t_items := items;
       t_primary_link := primary_link links;
       t_evidence_links := evidence_links links |} in
  (set_links cid links s, results ++ [cluster]).

(** The links selected for a cluster from the 20 newest of its items,
    and the dictionary built for a row of the main query. *)
Definition links_of (d : DB) (cid : Z) : Links :=
  _select_cluster_links rt cid (map link_item (newest_items d cid 20)).

Definition cluster_of (d : DB) (row : Z * ClusterRow) : Cluster :=
  {| t_id := row.1; t_title := c_title row.2; t_score := c_score row.2;
     t_created_at := c_first_seen_at row.2;
     t_items := newest_items d row.1 5;
     t_primary_link := primary_link (links_of d row.1);
     t_evidence_links := evidence_links (links_of d row.1) |}.

(** [db_now] is the value of [NOW()]. PostgreSQL rejects a negative
    [LIMIT], and the exception leaves the function before anything is
    written: the result is [None]. The window is taken to be one that
    the server evaluates. *)
Definition get_top_clusters (db_now limit hours : Z) (s : Store)
    : option (list Cluster * Store) :=
  let window_hours := _window_hours hours in
  if limit <? 0 then None
  else
    let '(s, results) :=
      foldl top_step (s, []) (select_top db_now window_hours limit s) in
    Some (results, s).

End WithRuntime.
End Selection.

(* ===================================================================== *)
(** * outputs.py and output_builder.py: the bookmark lists                *)
(* ===================================================================== *)

Module Outputs.
Import Py.

(** The [for] loop of [_build_branch1_bookmarks]. *)
Fixpoint bookmarks_loop (evidence_links bookmarks : list string)
    (max_items : Z) : list string :=
  match evidence_links with
  | [] => bookmarks
  | link :: rest =>
      if mem link bookmarks then bookmarks_loop rest bookmarks max_items
      else
        let bookmarks := bookmarks ++ [link] in
        if max_items <=? len bookmarks then bookmarks
        else bookmarks_loop rest bookmarks max_items
  end.

Definition _build_branch1_bookmarks (primary_link : string)
    (evidence_links : list string) (max_items : Z) : list string :=
  let bookmarks :=
    if String.eqb primary_link EmptyString then [] else [primary_link] in
  bookmarks_loop evidence_links bookmarks max_items.

(** The bookmark list of [build_branch1_output] in output_builder.py. *)
Definition builder_bookmarks (primary_link : string)
    (evidence_links : list string) (max_items : Z) : list string :=
  let bookmarks := slice_to evidence_links max_items in
  let bookmarks :=
    if negb (String.eqb primary_link EmptyString)
       && negb (mem primary_link bookmarks)
    then primary_link :: bookmarks else bookmarks in
  slice_to bookmarks max_items.

(** The loop that builds [attribution] in [build_branch2_output] of
    outputs.py. *)
Fixpoint attribution_loop (evidence_links attribution : list string)
    : list string :=
  match evidence_links with
  | [] => attribution
  | link :: rest =>
      if mem link attribution then attribution_loop rest attribution
      else attribution_loop rest (attribution ++ [link])
  end.

Definition attribution (primary_link : string)
    (evidence_links : list string) : list string :=
  let attribution :=
    if String.eqb primary_link EmptyString then [] else [primary_link] in
  attribution_loop evidence_links attribution.

(** The links listed under the sources heading of
    [build_branch2_output]: the primary link, then every evidence link
    that is not the primary link. *)
Definition source_links (primary_link : string)
    (evidence_links : list string) : list string :=
  (if String.eqb primary_link EmptyString then [] else [primary_link])
  ++ List.filter (fun link => negb (String.eqb link primary_link))
                 evidence_links.

End Outputs.

(* ===================================================================== *)
(** * main.py: the dedup of the candidates                                *)
(* ===================================================================== *)

Module Pipeline.
Import Py Dedup.

(** [ids = [c['id'] for c in top]; skip = getRecentBriefRefIds(settings,
    kind, ids, hours); candidates = [c for c in top if c['id'] not in
    skip]], as [run_github] and [run_news] have it. [None] when the gate
    raises. *)
Definition dedup_candidates {A} (id_of : A -> Z) (conn : Conn)
    (kind : string) (top : list A) (hours : Z) : option (list A) :=
  let ids := map id_of top in
  match getRecentBriefRefIds conn kind ids hours with
  | Returns skip =>
      Some (List.filter (fun c => negb (bool_decide (id_of c ∈ skip))) top)
  | Raises => None
  end.

End Pipeline.

(* ===================================================================== *)
(** * More example data                                                   *)
(* ===================================================================== *)

Module MoreExamples.
Import Py Examples.

(** Two links whose URLs have a host, and the same two links with
    [domain] fields that do not match the hosts. *)
Definition hosted_links : list (gmap string value) :=
  [ item_of [("url", Str "https://github.com/x/y"); ("domain", Str "github.com")];
    item_of [("url", Str "https://openai.com/blog/a"); ("domain", Str "openai.com")] ].

Definition mislabelled_links : list (gmap string value) :=
  [ item_of [("url", Str "https://github.com/x/y"); ("domain", Str "example.org")];
    item_of [("url", Str "https://openai.com/blog/a"); ("domain", None_)] ].

(** A store with three clusters, two of them under the title of the
    unclustered item 12, and the lists of active clusters read from
    it. *)
Definition tie_row (title : string) : News.ClusterRow :=
  {| News.c_title := title;
     News.c_first_seen_at := Some (now - 30 * hour);
     News.c_last_seen_at := Some (now - 12 * hour);
     News.c_score := 0; News.c_kind := "news";
     News.c_item_count := None; News.c_meta := None |}.

Definition tie_db : News.DB :=
  {| News.clusters :=
       {[ 1 := tie_row "abc"; 2 := tie_row "GPT-5 Launch";
          3 := tie_row "GPT-5 Launch" ]};
     News.items :=
       {[ 12 := {| News.i_title := "GPT-5 Launch";
                   News.i_url := None; News.i_summary := None;
                   News.i_domain := None; News.i_source := Some "blog";
                   News.i_published_at := Some (now - 2 * hour);
                   News.i_fetched_at := Some (now - 2 * hour);
                   News.i_cluster_id := None |} ]};
     News.user_feedback := [] |}.

Definition active_tie : list News.Active :=
  [ {| News.a_id := 1; News.a_title := "abc" |};
    {| News.a_id := 2; News.a_title := "GPT-5 Launch" |};
    {| News.a_id := 3; News.a_title := "GPT-5 Launch" |} ].

Definition active_two : list News.Active :=
  [ {| News.a_id := 1; News.a_title := "abc" |};
    {| News.a_id := 2; News.a_title := "def" |} ].

(** The unclustered item of [news_db]. *)
Definition item_12 : News.ItemRow :=
  {| News.i_title := "xyz";
     News.i_url := None; News.i_summary := None;
     News.i_domain := None; News.i_source := Some "blog";
     News.i_published_at := None;
     News.i_fetched_at := Some (now - 2 * hour);
     News.i_cluster_id := None |}.

(** The star count of [repo_row] a day before: 900 stars. *)
Definition repo_snapshot : Repo.Snapshot :=
  {| Repo.snap_stars := 900; Repo.snap_forks := Some 9;
     Repo.snap_open_issues := Some 50 |}.

(** A store with two clusters of the window, one item each, in which a
    brief was sent for both clusters in the last 24 hours. *)
Definition sent_row (title : string) (score : Q) : News.ClusterRow :=
  {| News.c_title := title;
     News.c_first_seen_at := Some (now - 10 * hour);
     News.c_last_seen_at := Some (now - 3 * hour);
     News.c_score := score; News.c_kind := "news";
     News.c_item_count := Some 1; News.c_meta := None |}.

Definition sent_item (url : string) (cid : Z) : News.ItemRow :=
  {| News.i_title := "t"; News.i_url := Some url; News.i_summary := None;
     News.i_domain := None; News.i_source := Some "feed";
     News.i_published_at := Some (now - 3 * hour);
     News.i_fetched_at := Some (now - 3 * hour);
     News.i_cluster_id := Some cid |}.

Definition sent_db : News.DB :=
  {| News.clusters := {[ 1 := sent_row "first" 3%Q; 2 := sent_row "second" 8%Q ]};
     News.items := {[ 10 := sent_item "https://openai.com/blog/a" 1;
                      20 := sent_item "https://github.com/x/y" 2 ]};
     News.user_feedback := [] |}.

Definition sent_brief (ref_id : Z) : Dedup.BriefRow :=
  {| Dedup.b_kind := Some "news"; Dedup.b_ref_id := Some ref_id;
     Dedup.b_created_at := now - 2 * hour |}.

(** Both clusters have been sent, and only the first one. *)
Definition both_sent : Selection.Store :=
  {| Selection.db := sent_db;
     Selection.briefs := [sent_brief 1; sent_brief 2];
     Selection.links := ∅ |}.

Definition one_sent : Selection.Store :=
  {| Selection.db := sent_db;
     Selection.briefs := [sent_brief 1];
     Selection.links := ∅ |}.

End MoreExamples.

(* ===================================================================== *)
(** * Properties                                                          *)
(* ===================================================================== *)

(** ** Strings *)

Section StringFacts.
Import Py.

Lemma append_cons (a : ascii) (p t : string) :
  (String a p ++ t)%string = String a (p ++ t)%string.
Proof. reflexivity. Qed.

Lemma append_empty (t : string) : (EmptyString ++ t)%string = t.
Proof. reflexivity. Qed.

Lemma prefix_app (p s : string) :
  String.prefix p s = true <-> exists t, s = (p ++ t)%string.
Proof.
  revert s. induction p as [|a p IH]; intros s; simpl.
  - split; [exists s; reflexivity | intros _; now destruct s].
  - destruct s as [|b s].
    + split; [discriminate | intros [t Ht]; discriminate].
    + simpl. destruct (Ascii.ascii_dec a b) as [->|Hne].
      * rewrite IH. split; intros [t Ht]; exists t;
          rewrite append_cons in *; congruence.
      * split; [discriminate | intros [t Ht]; rewrite append_cons in Ht; congruence].
Qed.

Lemma contains_empty (k : string) :
  contains k EmptyString = String.prefix k EmptyString.
Proof. unfold contains. apply orb_false_r. Qed.

Lemma contains_cons (k : string) (c : ascii) (s : string) :
  contains k (String c s) = String.prefix k (String c s) || contains k s.
Proof. reflexivity. Qed.

(** [contains] is substring search. *)
Lemma contains_app (k s : string) :
  contains k s = true <-> exists a b, s = (a ++ k ++ b)%string.
Proof.
  induction s as [|c s IH].
  - rewrite contains_empty, prefix_app. split.
    + intros [t Ht]. exists EmptyString, t. exact Ht.
    + intros [a [b Hab]]. destruct a; [eauto | discriminate].
  - rewrite contains_cons, orb_true_iff, prefix_app, IH. split.
    + intros [[t Ht] | [a [b Hab]]].
      * exists EmptyString, t. exact Ht.
      * exists (String c a), b. rewrite append_cons. congruence.
    + intros [a [b Hab]]. destruct a as [|c' a].
      * left. eauto.
      * right. exists a, b. rewrite append_cons in Hab. congruence.
Qed.

Lemma mem_elem_of (x : string) (l : list string) :
  mem x l = true <-> x ∈ l.
Proof.
  unfold mem. rewrite existsb_exists. split.
  - intros [y [Hy Heq]]. apply String.eqb_eq in Heq. subst.
    now apply list_elem_of_In.
  - intros Hx. exists x. split; [now apply list_elem_of_In | apply String.eqb_refl].
Qed.

End StringFacts.

(** ** The signal scorer *)

Section SignalScorer.
Import Py News.
Context (rt : Runtime).

Lemma score_fold normalized (tbl : list (string * (Q * list string))) (s : Q) :
  foldl (fun score '(_, (weight, keywords)) =>
           if fires normalized keywords then (score + weight)%Q else score)
        s tbl
  = foldl (fun acc e => (acc + e.2.1)%Q) s
          (List.filter (fires_entry normalized) tbl).
Proof.
  revert s. induction tbl as [|[key [w kws]] tbl IH]; intros s; simpl; [reflexivity|].
  unfold fires_entry at 1; simpl.
  destruct (fires normalized kws); simpl; apply IH.
Qed.

Lemma signals_fold normalized (tbl : list (string * (Q * list string)))
    (l : list string) :
  foldl (fun signals '(key, (_, keywords)) =>
           if fires normalized keywords then signals ++ [key] else signals)
        l tbl
  = l ++ map fst (List.filter (fires_entry normalized) tbl).
Proof.
  revert l. induction tbl as [|[key [w kws]] tbl IH]; intros l; simpl.
  - now rewrite app_nil_r.
  - unfold fires_entry at 1; simpl.
    destruct (fires normalized kws); simpl; rewrite IH; [|reflexivity].
    now rewrite <- app_assoc.
Qed.

Lemma weight_of_table :
  Forall (fun e => weight_of e.1 = e.2.1) VALUE_SIGNALS.
Proof. repeat constructor. Qed.

Lemma table_keys_NoDup : NoDup (map fst VALUE_SIGNALS).
Proof. compute_done. Qed.

Lemma fires_spec normalized keywords :
  fires normalized keywords = true
  <-> exists k a b, k ∈ keywords /\ normalized = (a ++ k ++ b)%string.
Proof.
  unfold fires. rewrite existsb_exists. split.
  - intros [k [Hk Hc]]. apply contains_app in Hc as [a [b Hab]].
    exists k, a, b. split; [now apply list_elem_of_In | exact Hab].
  - intros [k [a [b [Hk Hab]]]]. exists k. split; [now apply list_elem_of_In|].
    apply contains_app. eauto.
Qed.

(** C10. The value score of a text is the sum, in table order, of the
    weights of exactly the categories that the signal list reports; a
    category is reported iff one of its keywords is a substring of the
    stripped, lowercased text, and no category is reported twice. *)
Theorem value_score_sums_reported_signals (text : string) :
  _value_score rt text
  = foldl (fun acc key => (acc + weight_of key)%Q) 0%Q (_value_signals rt text)
  /\ (forall key,
        key ∈ _value_signals rt text
        <-> exists weight keywords,
              (key, (weight, keywords)) ∈ VALUE_SIGNALS
              /\ exists k a b,
                   k ∈ keywords
                   /\ str_lower rt (str_strip rt text) = (a ++ k ++ b)%string)
  /\ NoDup (_value_signals rt text).
Proof.
  unfold _value_score, _value_signals, _normalize_text.
  set (normalized := str_lower rt (str_strip rt text)).
  rewrite score_fold, signals_fold, app_nil_l.
  split; [|split].
  - assert (Hsub : Forall (fun e => weight_of e.1 = e.2.1)
                          (List.filter (fires_entry normalized) VALUE_SIGNALS)).
    { apply Forall_forall. intros e He.
      apply list_elem_of_In, filter_In in He as [He _].
      apply list_elem_of_In in He.
      exact (proj1 (Forall_forall _ _) weight_of_table e He). }
    revert Hsub. generalize 0%Q.
    generalize (List.filter (fires_entry normalized) VALUE_SIGNALS).
    intros l; induction l as [|e l IH]; intros q Hsub; simpl; [reflexivity|].
    inversion Hsub as [|? ? He Hl]; subst. rewrite He. now apply IH.
  - intros key. rewrite list_elem_of_In, in_map_iff. split.
    + intros [[k [w kws]] [Hk He]]. simpl in Hk. subst k.
      apply filter_In in He as [He Hf]. exists w, kws.
      split; [now apply list_elem_of_In|]. now apply fires_spec.
    + intros [w [kws [He Hf]]]. exists (key, (w, kws)). split; [reflexivity|].
      apply filter_In. split; [now apply list_elem_of_In|].
      unfold fires_entry. simpl. now apply fires_spec.
  - pose proof table_keys_NoDup as Hnd. revert Hnd.
    induction VALUE_SIGNALS as [|e l IH]; simpl; intros Hnd; [constructor|].
    apply NoDup_cons in Hnd as [Hn Hnd].
    destruct (fires_entry normalized e); simpl; [|now apply IH].
    apply NoDup_cons. split; [|now apply IH].
    intros Hin. apply Hn. apply list_elem_of_In in Hin.
    apply in_map_iff in Hin as [e' [He' Hin]]. apply filter_In in Hin as [Hin _].
    apply list_elem_of_In. apply in_map_iff. eauto.
Qed.

End SignalScorer.

(** ** The dedup gate *)

Section DedupGate.
Import Dedup.

(** C8. With no ref-id or a non-positive number of hours the gate
    returns the empty set, whatever the store holds and even when no
    connection can be opened: the store is not consulted. *)
Theorem dedup_fast_path (conn : Conn) (kind : string) (refIds : list Z)
    (hours : Z) :
  refIds = [] \/ hours <= 0 ->
  getRecentBriefRefIds conn kind refIds hours = Returns ∅.
Proof.
  intros H. unfold getRecentBriefRefIds.
  destruct H as [-> | H].
  - reflexivity.
  - apply Z.leb_le in H. rewrite H. now rewrite orb_true_r.
Qed.

Lemma dedup_fast_path_witness :
  ((([] : list Z) = [] \/ 24 <= 0)
   /\ getRecentBriefRefIds Examples.dedup_store "news" [] 24 = Returns ∅)
  /\ (([7; 8] = [] \/ 0 <= 0)
      /\ getRecentBriefRefIds Examples.dedup_store "news" [7; 8] 0 = Returns ∅).
Proof.
  split; split.
  - left. reflexivity.
  - apply (dedup_fast_path Examples.dedup_store "news" [] 24). left. reflexivity.
  - right. lia.
  - apply (dedup_fast_path Examples.dedup_store "news" [7; 8] 0). right. lia.
Defined.

(** On the slow path the gate does consult the store. *)
Example dedup_slow_path :
  getRecentBriefRefIds Examples.dedup_store "news" [7; 8] 24 = Returns {[ 7 ]}
  /\ getRecentBriefRefIds Examples.dedup_store "news" [7; 8] 5 = Returns ∅
  /\ getRecentBriefRefIds None "news" [7; 8] 24 = Raises
  /\ getRecentBriefRefIds None "news" [7; 8] (-1) = Returns ∅.
Proof. repeat split; vm_compute; reflexivity. Qed.

End DedupGate.

(** ** The backfill controller *)

Section BackfillController.
Import Py News.
Context {World Cluster : Type}.
Context (cluster_news : Z -> Q -> World -> World).
Context (score_clusters : Z -> World -> World).
Context (get_top_clusters : Z -> Z -> World -> list Cluster * World).
Context (settings : Settings) (limit : Z).

Local Abbreviation loop := (backfill_loop cluster_news score_clusters get_top_clusters
                                settings limit).
Local Abbreviation pass := (pass_at cluster_news score_clusters get_top_clusters
                          settings limit).
Local Abbreviation max_steps := (Z.to_nat (news_backfill_max_steps settings)).

Lemma log_upto_S (n : nat) :
  log_upto settings (S n)
  = log_upto settings n ++ [(Z.of_nat (S n), window_at settings (S n),
                    threshold_at settings (S n))].
Proof. unfold log_upto. now rewrite seq_S, map_app. Qed.

Lemma threshold_floor (k : nat) : (30 <= threshold_at settings (S k))%Q.
Proof. simpl. apply Q.le_max_l. Qed.

(** What holds of the loop entered after pass [j] has fallen short. *)
Lemma backfill_loop_spec (w0 : World) (fuel j : nat) :
  (j + fuel = Nat.max j max_steps)%nat ->
  (forall k, (k <= j)%nat -> len (pass w0 k).1 < limit) ->
  exists n,
    loop fuel (Z.of_nat j) (window_at settings j) (threshold_at settings j)
         (pass w0 j).1 (pass w0 j).2 (log_upto settings j)
    = ((pass w0 n).1, (pass w0 n).2, log_upto settings n)
    /\ (j <= n <= Nat.max j max_steps)%nat
    /\ (forall k, (k < n)%nat -> len (pass w0 k).1 < limit)
    /\ (limit <= len (pass w0 n).1 \/ n = Nat.max j max_steps).
Proof.
  revert j. induction fuel as [|fuel IH]; intros j Hfuel Hshort.
  - exists j. simpl. split; [reflexivity|]. split; [lia|]. split.
    + intros k Hk. apply Hshort. lia.
    + right. lia.
  - simpl.
    destruct (Z.ltb_spec (Z.of_nat j) (news_backfill_max_steps settings))
      as [Hlt | Hge]; [|lia].
    replace (Z.of_nat j + 1) with (Z.of_nat (S j)) by lia.
    rewrite <- log_upto_S.
    change (window_at settings j
            * Z.max 1 (news_backfill_window_multiplier settings))
      with (window_at settings (S j)).
    change (Qmax 30 (threshold_at settings j
                     - inject_Z (news_backfill_threshold_step settings)))
      with (threshold_at settings (S j)).
    change (get_top_clusters limit (window_at settings (S j))
              (score_clusters (window_at settings (S j))
                 (cluster_news (window_at settings (S j))
                    (threshold_at settings (S j)) (pass w0 j).2)))
      with (pass w0 (S j)).
    destruct (pass w0 (S j)) as [results w] eqn:Hpass.
    destruct (Z.leb_spec limit (len results)) as [Hdone | Hmore].
    + exists (S j). rewrite Hpass. simpl. split; [reflexivity|].
      split; [lia|]. split.
      * intros k Hk. apply Hshort. lia.
      * now left.
    + destruct (IH (S j)) as [n [Hn [Hjn [Hbefore Hstop]]]].
      * lia.
      * intros k Hk. destruct (decide (k = S j)) as [-> | Hne].
        -- now rewrite Hpass.
        -- apply Hshort. lia.
      * rewrite Hpass in Hn. cbn [fst snd] in Hn.
        exists n. rewrite Hn.
        replace (Nat.max (S j) max_steps) with (Nat.max j max_steps) in * by lia.
        split; [reflexivity|]. split; [lia|]. split; assumption.
Qed.

(** C7. The controller runs [n] widening passes with [n] at most
    [news_backfill_max_steps]; it returns the result and the store of pass
    [n], the last one computed; pass [k] used the threshold of pass [k-1]
    lowered by the step and floored at 30; no pass before [n] had reached
    the target, and the controller stopped at [n] because the target was
    reached or the step budget was used up. *)
Theorem backfill_bounded_and_stops_at_target (w : World) :
  exists n,
    get_top_clusters_with_backfill cluster_news score_clusters
      get_top_clusters settings limit w
    = ((pass w n).1, (pass w n).2, log_upto settings n)
    /\ (n <= max_steps)%nat
    /\ (forall k, (k < n)%nat ->
          threshold_at settings (S k)
          = Qmax 30 (threshold_at settings k
                     - inject_Z (news_backfill_threshold_step settings))
          /\ (30 <= threshold_at settings (S k))%Q)
    /\ (forall k, (k < n)%nat -> len (pass w k).1 < limit)
    /\ (limit <= len (pass w n).1 \/ n = max_steps).
Proof.
  unfold get_top_clusters_with_backfill.
  change (get_top_clusters limit (news_window_hours settings) w)
    with (pass w 0).
  destruct (pass w 0) as [results w1] eqn:Hpass.
  destruct (Z.leb_spec limit (len results)) as [Hdone | Hmore].
  - exists O. rewrite Hpass. simpl. split; [reflexivity|]. split; [lia|].
    split; [intros k Hk; lia|]. split; [intros k Hk; lia|]. now left.
  - destruct (backfill_loop_spec w max_steps 0) as [n [Hn [Hjn [Hbefore Hstop]]]].
    + lia.
    + intros k Hk. replace k with O by lia. now rewrite Hpass.
    + rewrite Hpass in Hn. cbn [fst snd] in Hn.
      change (Z.of_nat 0) with 0 in Hn. exists n.
      change (news_window_hours settings) with (window_at settings 0).
      change SIMILARITY_THRESHOLD with (threshold_at settings 0).
      change (@nil LogLine) with (log_upto settings 0).
      rewrite Hn. replace (Nat.max 0 max_steps) with max_steps in * by lia.
      split; [reflexivity|]. split; [lia|].
      split; [intros k Hk; split; [reflexivity | apply threshold_floor]|].
      split; assumption.
Qed.

(** The bound on the number of turns is the loop condition, not the
    fuel: more fuel changes nothing. *)
Lemma backfill_loop_fuel (fuel extra : nat) (j : nat) (wh : Z) (th : Q)
    (results : list Cluster) (w : World) (log : list LogLine) :
  (max_steps <= j + fuel)%nat ->
  loop (fuel + extra) (Z.of_nat j) wh th results w log
  = loop fuel (Z.of_nat j) wh th results w log.
Proof.
  revert j wh th results w log.
  induction fuel as [|fuel IH]; intros j wh th results w log Hle.
  - destruct extra as [|extra]; [reflexivity|]. simpl.
    destruct (Z.ltb_spec (Z.of_nat j) (news_backfill_max_steps settings));
      [lia | reflexivity].
  - simpl.
    destruct (Z.ltb_spec (Z.of_nat j) (news_backfill_max_steps settings));
      [|reflexivity].
    destruct (get_top_clusters _ _ _) as [results' w'].
    destruct (limit <=? len results'); [reflexivity|].
    replace (Z.of_nat j + 1) with (Z.of_nat (S j)) by lia.
    apply IH. lia.
Qed.

End BackfillController.

(** ** Freshness *)

Section Freshness.
Import Py News.

Lemma window_hours_ge_6 (hours : Z) : 6 <= _window_hours hours.
Proof. unfold _window_hours. lia. Qed.

Lemma hours_between_us (now h d : Z) :
  (hours_between now (now - hours_us h - d)%Z
   == inject_Z h + inject_Z d / 3600000000)%Q.
Proof.
  unfold hours_between, hours_us.
  replace (now - (now - h * 3600 * 1000000 - d)) with (h * 3600000000 + d) by lia.
  rewrite inject_Z_plus, inject_Z_mult. field.
Qed.

Lemma freshness_some (w now t : Z) (created : option Z) :
  freshness w now (Some t) created
  = Qmax 0 ((inject_Z w - hours_since now t) / inject_Z w)%Q.
Proof. reflexivity. Qed.

Lemma Qmax_0_nonneg (x : Q) : (0 <= Qmax 0 x)%Q.
Proof. apply Q.le_max_l. Qed.

(** C5. The freshness score is [max(0, (window_hours - hours_since) /
    window_hours)] with [hours_since] the hours elapsed since the cluster
    was last seen (never counted below zero); it is 1 when no time has
    elapsed, 0 when exactly [window_hours] hours have elapsed, 0 for any
    longer time, and never negative. *)
Theorem freshness_decays_to_zero (hours now t : Z) (created : option Z)
    (beyond : nat) :
  let window_hours := _window_hours hours in
  freshness window_hours now (Some t) created
  = Qmax 0 ((inject_Z window_hours - hours_since now t)
            / inject_Z window_hours)%Q
  /\ (hours_since now t == Qmax 0 (inject_Z (now - t)%Z / 3600000000))%Q
  /\ (freshness window_hours now (Some now) created == 1)%Q
  /\ (freshness window_hours now (Some (now - hours_us window_hours)%Z) created
      == 0)%Q
  /\ (freshness window_hours now
        (Some (now - hours_us window_hours - Z.of_nat beyond)%Z) created
      == 0)%Q
  /\ (0 <= freshness window_hours now (Some t) created)%Q.
Proof.
  intros w. pose proof (window_hours_ge_6 hours) as Hw. fold w in Hw.
  assert (Hwq : (0 < inject_Z w)%Q).
  { change 0%Q with (inject_Z 0). rewrite <- Zlt_Qlt. lia. }
  assert (Hbeyond : forall d : Z, 0 <= d ->
            (freshness w now (Some (now - hours_us w - d)%Z) created == 0)%Q).
  { intros d Hd. rewrite freshness_some. unfold hours_since.
    rewrite hours_between_us.
    assert (Hdq : (0 <= inject_Z d / 3600000000)%Q).
    { apply Qle_shift_div_l; [reflexivity|]. rewrite Qmult_0_l.
      change 0%Q with (inject_Z 0). rewrite <- Zle_Qle. exact Hd. }
    rewrite (Q.max_r 0 (inject_Z w + inject_Z d / 3600000000)) by Lqa.lra.
    apply Q.max_l. apply Qle_shift_div_r; [exact Hwq|]. Lqa.lra. }
  split; [reflexivity|]. split.
  { unfold hours_since, hours_between. apply Q.max_compat; [reflexivity|].
    field. }
  split.
  { rewrite freshness_some. unfold hours_since, hours_between.
    rewrite Z.sub_diag.
    assert (E0 : (inject_Z 0 / 1000000 / 3600 == 0)%Q) by reflexivity.
    rewrite E0, (Q.max_l 0 0) by apply Qle_refl.
    assert (E1 : ((inject_Z w - 0) / inject_Z w == 1)%Q) by (field; Lqa.lra).
    rewrite E1. apply Q.max_r. discriminate. }
  split.
  { rewrite <- (Z.sub_0_r (now - hours_us w)). apply Hbeyond. lia. }
  split.
  { apply Hbeyond. lia. }
  rewrite freshness_some. apply Qmax_0_nonneg.
Qed.

End Freshness.

(** ** The cluster scorer *)

Section ClusterScorer.
Import Py News.
Context (rt : Runtime).

Lemma filter_map_comm {A B} (f : A -> B) (p : B -> bool) (l : list A) :
  List.filter p (map f l) = map f (List.filter (fun x => p (f x)) l).
Proof.
  induction l as [|x l IH]; simpl; [reflexivity|].
  destruct (p (f x)); simpl; now rewrite IH.
Qed.

Lemma NoDup_map_filter {A B} (f : A -> B) (p : A -> bool) (l : list A) :
  NoDup (map f l) -> NoDup (map f (List.filter p l)).
Proof.
  induction l as [|x l IH]; simpl; intros Hnd; [constructor|].
  apply NoDup_cons in Hnd as [Hx Hnd].
  destruct (p x); simpl; [|now apply IH].
  apply NoDup_cons. split; [|now apply IH].
  intros Hin. apply Hx.
  apply list_elem_of_In, in_map_iff in Hin as [y [Hy Hin]].
  apply filter_In in Hin as [Hin _].
  apply list_elem_of_In, in_map_iff. eauto.
Qed.

Lemma group_count_cons (l : string) (labels : list string) :
  group_count (l :: labels)
  = <[l := default 0 (group_count labels !! l) + 1]> (group_count labels).
Proof. reflexivity. Qed.

(** The dict read from [GROUP BY label] counts the rows of each label. *)
Lemma group_count_lookup (labels : list string) (label : string) :
  get_count (group_count labels) label
  = len (List.filter (fun l => String.eqb l label) labels).
Proof.
  unfold get_count, len.
  induction labels as [|l labels IH]; [reflexivity|].
  rewrite group_count_cons. simpl List.filter.
  destruct (String.eqb_spec l label) as [-> | Hne].
  - rewrite lookup_insert_eq. simpl. rewrite IH. lia.
  - rewrite lookup_insert_ne by exact Hne. exact IH.
Qed.

Lemma feedback_counted (kind : string) (now cid : Z) (label : string)
    (fb : list FeedbackRow) :
  get_count (group_count (map f_label (feedback_rows kind now cid fb))) label
  = feedback_count kind now cid label fb.
Proof.
  rewrite group_count_lookup, filter_map_comm. unfold feedback_count, len.
  now rewrite length_map.
Qed.

Lemma sources_counted (rows : list ItemRow) :
  Z.of_nat (size (sources_of rows)) = len (distinct_sources rows).
Proof.
  unfold sources_of, distinct_sources, len. f_equal.
  rewrite <- (size_list_to_set (C := gset string) (remove_dups _))
    by apply NoDup_remove_dups.
  f_equal. apply set_eq. intros x.
  now rewrite !elem_of_list_to_set, elem_of_remove_dups.
Qed.

Lemma score_step_scored (db0 db : DB) (db_now w : Z) (clock : nat -> Z)
    (k : nat) (cid : Z) (created last : option Z) :
  items db = items db0 -> user_feedback db = user_feedback db0 ->
  score_step rt db_now w clock (db, k) (cid, created, last)
  = if len (cluster_items db0 cid) =? 0 then (db, k)
    else (with_clusters db
            (alter (scored_row rt db0 db_now w (clock k) cid created last)
                   cid (clusters db)), S k).
Proof.
  intros Hi Hf. unfold score_step, scored_row, cluster_items, score_cluster.
  rewrite Hi, Hf. destruct (len _ =? 0); reflexivity.
Qed.

Lemma score_fold_spec (db0 : DB) (db_now w : Z) (clock : nat -> Z)
    (l : list (Z * option Z * option Z)) :
  forall (db : DB) (k : nat),
    items db = items db0 -> user_feedback db = user_feedback db0 ->
    NoDup (map (fun x => x.1.1) l) ->
    forall cid,
      (cid ∉ map (fun x => x.1.1) l ->
       clusters (foldl (score_step rt db_now w clock) (db, k) l).1 !! cid
       = clusters db !! cid)
      /\ (forall created last,
            (cid, created, last) ∈ l -> cluster_items db0 cid <> [] ->
            exists j,
              clusters (foldl (score_step rt db_now w clock) (db, k) l).1 !! cid
              = scored_row rt db0 db_now w (clock j) cid created last
                <$> clusters db !! cid).
Proof.
  induction l as [|[[c cr] ls] l IH]; intros db k Hi Hf Hnd.
  - intros cid. split; [reflexivity|]. intros ? ? Hin. inversion Hin.
  - apply NoDup_cons in Hnd as [Hc Hnd]. simpl in Hc. cbn [foldl].
    rewrite (score_step_scored db0 db) by assumption.
    set (st1 := if len (cluster_items db0 c) =? 0 then (db, k) else _).
    assert (Hi1 : items st1.1 = items db0)
      by (subst st1; destruct (_ =? 0); assumption).
    assert (Hf1 : user_feedback st1.1 = user_feedback db0)
      by (subst st1; destruct (_ =? 0); assumption).
    assert (Hother : forall cid, cid <> c ->
              clusters st1.1 !! cid = clusters db !! cid).
    { intros cid Hne. subst st1. destruct (_ =? 0); [reflexivity|].
      simpl. now apply lookup_alter_ne. }
    destruct st1 as [db1 k1] eqn:Hst1. simpl in Hi1, Hf1, Hother.
    specialize (IH db1 k1 Hi1 Hf1 Hnd).
    intros cid. destruct (IH cid) as [IHout IHin]. split.
    + intros Hnot. apply not_elem_of_cons in Hnot as [Hne Hnot].
      rewrite IHout by exact Hnot. now apply Hother.
    + intros created last Hin Hrows.
      apply elem_of_cons in Hin as [Heq | Hin].
      * injection Heq as -> -> ->.
        rewrite (proj1 (IH c)) by exact Hc.
        exists k. subst st1.
        destruct (Z.eqb_spec (len (cluster_items db0 c)) 0) as [H0 | _].
        -- exfalso. apply Hrows. unfold len in H0.
           destruct (cluster_items db0 c); [reflexivity | simpl in H0; lia].
        -- injection Hst1 as <- <-. simpl. apply lookup_alter_eq.
      * assert (Hne : cid <> c).
        { intros ->. apply Hc. apply list_elem_of_In, in_map_iff.
          exists (c, created, last). split; [reflexivity | now apply list_elem_of_In]. }
        destruct (IHin created last Hin Hrows) as [j Hj].
        exists j. rewrite Hj. now rewrite Hother.
Qed.

Lemma select_scored_NoDup (db_now w : Z) (db : DB) :
  NoDup (map (fun x : Z * option Z * option Z => x.1.1)
             (select_scored db_now w db)).
Proof.
  unfold select_scored. rewrite map_map. simpl.
  apply (NoDup_map_filter fst). apply NoDup_fst_map_to_list.
Qed.

Lemma select_scored_elem (db_now w : Z) (db : DB) (cid : Z) (row : ClusterRow) :
  clusters db !! cid = Some row ->
  within_hours db_now w (c_last_seen_at row) = true ->
  (cid, c_first_seen_at row, c_last_seen_at row) ∈ select_scored db_now w db.
Proof.
  intros Hrow Hin. unfold select_scored.
  apply list_elem_of_In, in_map_iff. exists (cid, row). split; [reflexivity|].
  apply filter_In. split; [|exact Hin].
  apply list_elem_of_In, elem_of_map_to_list. exact Hrow.
Qed.

(** C4. A cluster of the window that has at least one item is given the
    score [item_count*1 + source_count*2 + value_score*5 +
    freshness_score*3 + feedback_score]; the figures are stored with it,
    and they are the number of member items, the number of their distinct
    non-empty sources, the value score of their texts, the freshness at
    the clock reading taken for the cluster, and [useful*2 - useless*2 -
    skip*5] over the [news] feedback rows of the cluster in the trailing
    30 days. *)
Theorem persisted_score_formula (db_now : Z) (clock : nat -> Z) (hours : Z)
    (db : DB) (cid : Z) (row : ClusterRow) :
  clusters db !! cid = Some row ->
  within_hours db_now (_window_hours hours) (c_last_seen_at row) = true ->
  cluster_items db cid <> [] ->
  exists (k : nat) (meta : Meta) (row' : ClusterRow),
    clusters (score_clusters rt db_now clock hours db) !! cid = Some row'
    /\ c_meta row' = Some meta
    /\ c_score row'
       = (inject_Z (m_item_count meta) * 1
          + inject_Z (m_source_count meta) * 2
          + m_value_score meta * 5
          + m_freshness_score meta * 3
          + m_feedback_score meta)%Q
    /\ m_item_count meta = len (cluster_items db cid)
    /\ m_source_count meta = len (distinct_sources (cluster_items db cid))
    /\ m_value_score meta = _value_score rt (text_blob (cluster_items db cid))
    /\ m_freshness_score meta
       = freshness (_window_hours hours) (clock k)
                   (c_last_seen_at row) (c_first_seen_at row)
    /\ m_feedback_score meta
       = (inject_Z (feedback_count "news" db_now cid "useful" (user_feedback db)) * 2
          - inject_Z (feedback_count "news" db_now cid "useless" (user_feedback db)) * 2
          - inject_Z (feedback_count "news" db_now cid "skip" (user_feedback db)) * 5)%Q.
Proof.
  intros Hrow Hwin Hitems. unfold score_clusters.
  pose proof (score_fold_spec db db_now (_window_hours hours) clock
                (select_scored db_now (_window_hours hours) db) db O
                eq_refl eq_refl (select_scored_NoDup _ _ _) cid) as [_ Hin].
  destruct (Hin _ _ (select_scored_elem _ _ _ _ _ Hrow Hwin) Hitems) as [k Hk].
  simpl in Hk. rewrite Hrow in Hk. simpl in Hk.
  exists k. eexists. eexists. split; [exact Hk|].
  unfold scored_row, score_cluster. simpl.
  split; [reflexivity|]. split; [reflexivity|]. split; [reflexivity|].
  split; [apply sources_counted|]. split; [reflexivity|].
  split; [reflexivity|].
  unfold feedback_score_of. now rewrite !feedback_counted.
Qed.

End ClusterScorer.

(** ** The repo scorer *)

Section RepoScorer.
Import Py Repo.
Local Open Scope R_scope.

Lemma latest_snapshot_none (db_now rid : Z) (snaps : list SnapshotRow) :
  (forall s, s ∈ snaps -> in_snapshot_window db_now rid s = false) ->
  latest_snapshot db_now rid snaps = None.
Proof.
  unfold latest_snapshot. induction snaps as [|s snaps IH]; intros H; simpl.
  - reflexivity.
  - rewrite (H s) by apply list_elem_of_here.
    apply IH. intros s' Hs'. apply H. now apply list_elem_of_further.
Qed.

(** [x ** 0.5] is the square root for the positive [x] the scorer
    raises. *)
Lemma pow_half_sqrt (n : Z) :
  Rpower (IZR (Z.max n 1)) (5 / 10) = sqrt (IZR (Z.max n 1)).
Proof.
  replace (5 / 10) with (/ 2) by lra.
  apply Rpower_sqrt. apply IZR_lt. lia.
Qed.

Lemma score_without_snapshot (now : Z) (r : RepoRow) (forks issues : option Z) :
  calculate_repo_score now r
    (Some {| snap_stars := stars r; snap_forks := forks;
             snap_open_issues := issues |})
  = (0 * 2 + IZR (stars r) * (1 / 100))
    * (1 / sqrt (IZR (Z.max (days_between now (last_pushed_at r)) 1)))
    + IZR (Z.min (open_issues r) 50) * (1 / 10).
Proof.
  unfold calculate_repo_score. simpl snap_stars.
  rewrite Z.sub_diag, pow_half_sqrt. reflexivity.
Qed.

Lemma sqrt_4 : sqrt 4 = 2.
Proof. replace 4 with (2 * 2) by lra. apply sqrt_square. lra. Qed.

(** C6. A repo that has no snapshot taken between 30 and 20 hours ago is
    scored against its own current star count: its [delta_24h] is 0 and
    its score before feedback is [(0*2 + stars*0.01) * (1 /
    sqrt(max(days_since_push, 1))) + min(open_issues, 50)*0.1]; with 1000
    stars, 60 open issues and 4 days since the last push that is 10. *)
Theorem repo_score_without_snapshot (db_now : Z) (clock : nat -> Z) (db : DB)
    (k : nat) (e : Scored) :
  scored_repos db_now clock db !! k = Some e ->
  (forall s, s ∈ repo_snapshots db ->
             in_snapshot_window db_now (id (repo e)) s = false) ->
  let days_since_push := days_between (clock k) (last_pushed_at (repo e)) in
  delta_24h e = 0%Z
  /\ score e - feedback_score e
     = (0 * 2 + IZR (stars (repo e)) * (1 / 100))
       * (1 / sqrt (IZR (Z.max days_since_push 1)))
       + IZR (Z.min (open_issues (repo e)) 50) * (1 / 10)
  /\ (stars (repo e) = 1000%Z -> open_issues (repo e) = 60%Z ->
      days_since_push = 4%Z ->
      score e - feedback_score e = 10).
Proof.
  intros Hk Hnone days. unfold scored_repos in Hk.
  rewrite list_lookup_imap in Hk.
  destruct (_ !! k) as [r|] eqn:Hr; [|discriminate].
  injection Hk as <-. simpl repo in *.
  unfold score_repo. rewrite (latest_snapshot_none _ _ _ Hnone).
  cbn [delta_24h score feedback_score snap_stars].
  rewrite score_without_snapshot. fold days.
  split; [lia|]. split; [ring|].
  intros Hs Hi Hd. rewrite Hs, Hi, Hd.
  change (Z.max 4 1) with 4%Z. change (Z.min 60 50) with 50%Z.
  rewrite sqrt_4. lra.
Qed.

Lemma sort_desc_elem (x : Scored) (l : list Scored) :
  x ∈ sort_desc l -> x ∈ l.
Proof.
  assert (Hins : forall y l', x ∈ insert_desc y l' -> x = y \/ x ∈ l').
  { intros y l'. induction l' as [|z l' IH]; simpl.
    - intros H. apply list_elem_of_singleton in H. now left.
    - destruct (Rle_dec (score z) (score y)).
      + intros H. apply elem_of_cons in H. exact H.
      + intros H. apply elem_of_cons in H as [-> | H].
        * right. apply list_elem_of_here.
        * destruct (IH H) as [-> | H']; [now left|].
          right. now apply list_elem_of_further. }
  induction l as [|y l IH]; simpl; [trivial|].
  intros H. destruct (Hins _ _ H) as [-> | H'].
  - apply list_elem_of_here.
  - apply list_elem_of_further. now apply IH.
Qed.

(** Every repo returned by [get_top_repos] is one of the scored repos. *)
Lemma get_top_repos_scored (db_now : Z) (clock : nat -> Z) (limit : Z)
    (db : DB) (e : Scored) :
  e ∈ get_top_repos db_now clock limit db ->
  exists k, scored_repos db_now clock db !! k = Some e.
Proof.
  unfold get_top_repos, slice_to. intros H.
  apply list_elem_of_lookup.
  apply sort_desc_elem.
  destruct (0 <=? limit)%Z; eapply elem_of_sublist; eauto using sublist_take.
Qed.

End RepoScorer.

(** ** Sorting *)

Section Sorting.
Import Py.
Context {A : Type} (key : A -> Z * Z).

Lemma key_le_total (k1 k2 : Z * Z) : key_le k1 k2 = false -> key_le k2 k1 = true.
Proof. unfold key_le. destruct k1, k2; simpl. lia. Qed.

Lemma key_le_trans (k1 k2 k3 : Z * Z) :
  key_le k1 k2 = true -> key_le k2 k3 = true -> key_le k1 k3 = true.
Proof. unfold key_le. destruct k1, k2, k3; simpl. lia. Qed.

Lemma insert_sorted_perm (x : A) (l : list A) : insert_sorted key x l ≡ₚ x :: l.
Proof.
  induction l as [|y l IH]; simpl; [reflexivity|].
  destruct (key_le (key x) (key y)); [reflexivity|].
  rewrite IH. apply Permutation_swap.
Qed.

(** [sorted] rearranges its argument. *)
Lemma sorted_perm (l : list A) : sorted key l ≡ₚ l.
Proof.
  induction l as [|x l IH]; simpl; [reflexivity|].
  now rewrite insert_sorted_perm, IH.
Qed.

Lemma insert_sorted_ordered (x : A) (l : list A) :
  StronglySorted (key_order key) l -> StronglySorted (key_order key) (insert_sorted key x l).
Proof.
  induction l as [|y l IH]; intros Hs; simpl.
  - repeat constructor.
  - apply StronglySorted_inv in Hs as [Hl Hy].
    destruct (key_le (key x) (key y)) eqn:Hxy.
    + constructor; [now constructor|]. constructor; [exact Hxy|].
      eapply Forall_impl; [exact Hy|]. intros z Hz.
      unfold key_order in *. eapply key_le_trans; eauto.
    + constructor; [now apply IH|].
      rewrite insert_sorted_perm. constructor; [|exact Hy].
      now apply key_le_total.
Qed.

(** [sorted] puts its argument in the order of the keys. *)
Lemma sorted_ordered (l : list A) : StronglySorted (key_order key) (sorted key l).
Proof.
  induction l as [|x l IH]; simpl; [constructor|].
  now apply insert_sorted_ordered.
Qed.

End Sorting.

(** ** The link selector *)

Section LinkSelector.
Import Py News.
Context (rt : Runtime).

Lemma collect_candidates_fields (items1 items2 : list (gmap string value)) :
  map link_fields items1 = map link_fields items2 ->
  collect_candidates rt items1 = collect_candidates rt items2.
Proof.
  revert items2. induction items1 as [|i1 items1 IH]; intros [|i2 items2] H;
    try discriminate; [reflexivity|].
  simpl in H. unfold link_fields at 1 2 in H. injection H as Hu Hd H.
  simpl. unfold get_or_empty.
  rewrite Hu, Hd, (IH items2 H). reflexivity.
Qed.

Lemma annotated (seed : string) (l : list Candidate) :
  Forall (fun c => tie c = _stable_hash rt (url c) seed
                   /\ priority c = _link_priority (domain c))
         (map (annotate rt seed) l).
Proof. apply Forall_forall. intros c Hc.
       apply list_elem_of_In, in_map_iff in Hc as [c' [<- _]]. now split. Qed.

Lemma filtered_nonempty (candidates : list Candidate) :
  candidates <> [] -> filtered candidates <> [].
Proof.
  unfold filtered. destruct (non_arxiv candidates); [trivial | discriminate].
Qed.

Lemma ordered_perm (cid : Z) (candidates : list Candidate) :
  ordered rt cid candidates
  ≡ₚ map (annotate rt (pretty cid)) (filtered candidates).
Proof. apply sorted_perm. Qed.

Lemma ordered_nonempty (cid : Z) (candidates : list Candidate) :
  candidates <> [] -> ordered rt cid candidates <> [].
Proof.
  intros H Hnil. apply (filtered_nonempty _ H).
  pose proof (Permutation_length (ordered_perm cid candidates)) as Hlen.
  rewrite Hnil, length_map in Hlen.
  destruct (filtered candidates); [reflexivity | discriminate].
Qed.

Lemma ordered_annotated (cid : Z) (candidates : list Candidate) :
  Forall (fun c => tie c = _stable_hash rt (url c) (pretty cid)
                   /\ priority c = _link_priority (domain c))
         (ordered rt cid candidates).
Proof. rewrite ordered_perm. apply annotated. Qed.

(** C1. The selector reads nothing of the items but their [url] and
    [domain]: two runs on the same cluster id and on items that agree on
    these two fields return the same primary link, evidence links and
    debug record. The candidates are put in the order of the keys
    [(-priority, tie)], where the tie of a candidate is the MD5 number of
    [str(cluster_id) + "|" + url] and its priority is the tier of its
    domain. *)
Theorem select_links_reproducible (cluster_id : Z)
    (items1 items2 : list (gmap string value)) :
  map link_fields items1 = map link_fields items2 ->
  _select_cluster_links rt cluster_id items1
  = _select_cluster_links rt cluster_id items2
  /\ Forall (fun c =>
               tie c = md5_int rt (pretty cluster_id ++ "|" ++ url c)%string
               /\ priority c = _link_priority (domain c))
            (ordered rt cluster_id (collect_candidates rt items1))
  /\ StronglySorted (key_order sort_key)
                    (ordered rt cluster_id (collect_candidates rt items1))
  /\ ordered rt cluster_id (collect_candidates rt items1)
     ≡ₚ map (annotate rt (pretty cluster_id))
            (filtered (collect_candidates rt items1)).
Proof.
  intros H. split; [|split; [|split]].
  - unfold _select_cluster_links.
    now rewrite (collect_candidates_fields _ _ H).
  - apply ordered_annotated.
  - apply sorted_ordered.
  - apply ordered_perm.
Qed.

Lemma has_non_arxiv_filter (candidates : list Candidate) :
  match non_arxiv candidates with [] => false | _ => true end
  = has_non_arxiv candidates.
Proof.
  unfold non_arxiv, has_non_arxiv.
  induction candidates as [|c l IH]; simpl; [reflexivity|].
  destruct (negb (String.eqb (domain c) "arxiv.org")); [reflexivity | exact IH].
Qed.

Lemma filter_length_le {B} (p : B -> bool) (l : list B) :
  (length (List.filter p l) <= length l)%nat.
Proof. induction l as [|x l IH]; simpl; [lia|]. destruct (p x); simpl; lia. Qed.

(** The exclusion drops a candidate exactly when the candidates hold
    both an arxiv.org link and another link. *)
Lemma exclusion_removed_iff (candidates : list Candidate) :
  exclusion_removed candidates
  = has_non_arxiv candidates
    && existsb (fun c => String.eqb (domain c) "arxiv.org") candidates.
Proof.
  unfold exclusion_removed, filtered. rewrite <- has_non_arxiv_filter.
  unfold non_arxiv, len.
  destruct (List.filter _ candidates) as [|c l] eqn:Hf.
  - simpl. apply Z.ltb_irrefl.
  - rewrite <- Hf. clear Hf c l. simpl.
    induction candidates as [|c l IH]; simpl; [reflexivity|].
    pose proof (filter_length_le
                  (fun c => negb (String.eqb (domain c) "arxiv.org")) l).
    destruct (String.eqb (domain c) "arxiv.org"); simpl.
    + apply Z.ltb_lt. lia.
    + rewrite <- IH. unfold len.
      destruct (Z.ltb_spec (Z.of_nat (length (List.filter
                 (fun c => negb (String.eqb (domain c) "arxiv.org")) l)))
                 (Z.of_nat (length l))); [apply Z.ltb_lt | apply Z.ltb_ge]; lia.
Qed.

(** C9, as the code has it. With at least one usable candidate the debug
    record holds the number of candidates, a flag telling whether some
    candidate lies outside arxiv.org (so that the exclusion was applied
    instead of falling back to all candidates), the domain of the primary
    link, and the label of the tier of that domain. With no usable
    candidate it holds the count 0 and the flag [false] only. The
    exclusion drops a candidate exactly when the flag is set and some
    candidate is an arxiv.org link. *)
Theorem debug_records (cluster_id : Z) (items : list (gmap string value)) :
  let candidates := collect_candidates rt items in
  let r := _select_cluster_links rt cluster_id items in
  debug r !! "candidate_count" = Some (Int (len candidates))
  /\ debug r !! "filtered_arxiv" = Some (Bool (has_non_arxiv candidates))
  /\ exclusion_removed candidates
     = has_non_arxiv candidates
       && existsb (fun c => String.eqb (domain c) "arxiv.org") candidates
  /\ match ordered rt cluster_id candidates with
     | p :: _ =>
         candidates <> []
         /\ primary_link r = url p
         /\ debug r !! "primary_domain" = Some (Str (domain p))
         /\ debug r !! "primary_priority"
            = Some (Str (priority_label (_link_priority (domain p))))
     | [] =>
         candidates = []
         /\ debug r !! "primary_domain" = None
         /\ debug r !! "primary_priority" = None
     end.
Proof.
  intros candidates r. subst r. unfold _select_cluster_links.
  fold candidates.
  split; [|split; [|split]].
  - destruct candidates; reflexivity.
  - destruct candidates as [|c l] eqn:Hc; [reflexivity|].
    rewrite <- Hc. cbn [debug]. rewrite has_non_arxiv_filter. reflexivity.
  - apply exclusion_removed_iff.
  - destruct candidates as [|c l] eqn:Hc.
    + cbn. repeat split.
    + rewrite <- Hc.
      assert (Hne : candidates <> []) by (subst candidates; rewrite Hc; discriminate).
      pose proof (ordered_nonempty cluster_id candidates Hne) as Hord.
      pose proof (ordered_annotated cluster_id candidates) as Hann.
      destruct (ordered rt cluster_id candidates) as [|p rest]; [contradiction|].
      apply Forall_cons in Hann as [[_ Hp] _].
      cbn [debug primary_link]. rewrite Hp.
      split; [exact Hne|]. repeat split.
Qed.

End LinkSelector.

(** ** Evidence links *)

Section EvidenceLinks.
Import Py News.

Lemma len_app_one {B} (l : list B) (x : B) : len (l ++ [x]) = len l + 1.
Proof. unfold len. rewrite length_app. simpl. lia. Qed.

(** The first loop. It extends the evidence by the URLs of some of the
    candidates, in order; their domains are new and pairwise distinct;
    and either it collects [min_count] links or every candidate has its
    URL among the evidence or its domain among those seen. *)
Lemma evidence_by_domain_spec (min_count : Z) (candidates : list Candidate) :
  forall (evidence : list string) (seen : gset string),
    NoDup evidence ->
    exists picked : list Candidate,
      picked `sublist_of` candidates
      /\ (evidence_by_domain min_count candidates evidence seen).1
         = evidence ++ map url picked
      /\ (evidence_by_domain min_count candidates evidence seen).2
         = seen ∪ list_to_set (map domain picked)
      /\ NoDup (evidence ++ map url picked)
      /\ NoDup (map domain picked)
      /\ (forall c, c ∈ picked -> domain c ∉ seen)
      /\ (len evidence < min_count ->
          len (evidence ++ map url picked) <= min_count)
      /\ (min_count <= len (evidence ++ map url picked)
          \/ forall c, c ∈ candidates ->
               url c ∈ evidence ++ map url picked
               \/ domain c ∈ seen ∪ list_to_set (map domain picked)).
Proof.
  induction candidates as [|c rest IH]; intros evidence seen Hnd.
  - exists []. simpl. rewrite app_nil_r.
    split; [constructor|]. split; [reflexivity|].
    split; [set_solver|]. split; [exact Hnd|]. split; [constructor|].
    split; [intros c Hc; now apply elem_of_nil in Hc|]. split; [lia|].
    right. intros c Hc. now apply elem_of_nil in Hc.
  - simpl. destruct (mem (url c) evidence) eqn:Hmem.
    { apply mem_elem_of in Hmem.
      destruct (IH evidence seen Hnd)
        as [picked [Hsub [Hev [Hseen [Hnd' [Hdom [Hnew [Hlen Hall]]]]]]]].
      exists picked. split; [now apply sublist_cons|].
      repeat (split; [assumption|]).
      destruct Hall as [Hfull | Hall]; [now left | right].
      intros c' Hc'. apply elem_of_cons in Hc' as [-> | Hc']; [|now apply Hall].
      left. apply elem_of_app. now left. }
    destruct (bool_decide (domain c ∈ seen)) eqn:Hseen0.
    { apply bool_decide_eq_true in Hseen0.
      destruct (IH evidence seen Hnd)
        as [picked [Hsub [Hev [Hseen [Hnd' [Hdom [Hnew [Hlen Hall]]]]]]]].
      exists picked. split; [now apply sublist_cons|].
      repeat (split; [assumption|]).
      destruct Hall as [Hfull | Hall]; [now left | right].
      intros c' Hc'. apply elem_of_cons in Hc' as [-> | Hc']; [|now apply Hall].
      right. set_solver. }
    apply bool_decide_eq_false in Hseen0.
    assert (Hurl : url c ∉ evidence).
    { intros H. apply mem_elem_of in H. congruence. }
    assert (Hnd1 : NoDup (evidence ++ [url c])).
    { apply NoDup_app. split; [exact Hnd|]. split; [|apply NoDup_singleton].
      intros x Hx Hx'. apply list_elem_of_singleton in Hx'. now subst. }
    destruct (Z.leb_spec min_count (len (evidence ++ [url c]))) as [Hfull | Hmore].
    { exists [c]. simpl.
      split; [apply sublist_skip, sublist_nil_l|].
      split; [reflexivity|]. split; [set_solver|]. split; [exact Hnd1|].
      split; [apply NoDup_singleton|].
      split; [intros c' Hc'; apply list_elem_of_singleton in Hc'; now subst|].
      split; [rewrite len_app_one; lia|]. now left. }
    destruct (IH (evidence ++ [url c]) (seen ∪ {[domain c]}) Hnd1)
      as [picked [Hsub [Hev [Hseen [Hnd' [Hdom [Hnew [Hlen Hall]]]]]]]].
    exists (c :: picked). simpl.
    rewrite <- app_assoc in Hev, Hnd', Hlen, Hall. simpl in Hev, Hnd', Hlen, Hall.
    split; [now apply sublist_skip|]. split; [exact Hev|].
    split; [rewrite Hseen; set_solver|]. split; [exact Hnd'|].
    split.
    { apply NoDup_cons. split; [|exact Hdom].
      intros Hin. apply list_elem_of_In, in_map_iff in Hin as [c' [Hc' Hin]].
      apply list_elem_of_In in Hin. apply (Hnew c' Hin). rewrite Hc'. set_solver. }
    split.
    { intros c' Hc'. apply elem_of_cons in Hc' as [-> | Hc']; [exact Hseen0|].
      intros Hin. apply (Hnew c' Hc'). set_solver. }
    split; [intros _; apply Hlen; exact Hmore|].
    destruct Hall as [Hfull | Hall]; [now left | right].
    intros c' Hc'. apply elem_of_cons in Hc' as [-> | Hc'].
    + left. set_solver.
    + destruct (Hall c' Hc') as [H | H]; [now left | right]. set_solver.
Qed.

(** The second loop only appends URLs that are not yet there. *)
Lemma evidence_fill_spec (min_count : Z) (candidates : list Candidate) :
  forall evidence : list string,
    NoDup evidence ->
    exists more : list string,
      evidence_fill min_count candidates evidence = evidence ++ more
      /\ NoDup (evidence ++ more)
      /\ (len evidence < min_count -> len (evidence ++ more) <= min_count).
Proof.
  induction candidates as [|c rest IH]; intros evidence Hnd; simpl.
  - exists []. rewrite app_nil_r. repeat split; [assumption | lia].
  - destruct (mem (url c) evidence) eqn:Hmem; [now apply IH|].
    assert (Hnd1 : NoDup (evidence ++ [url c])).
    { apply NoDup_app. split; [exact Hnd|]. split; [|apply NoDup_singleton].
      intros x Hx Hx'. apply list_elem_of_singleton in Hx'. subst.
      apply mem_elem_of in Hx. congruence. }
    destruct (Z.leb_spec min_count (len (evidence ++ [url c]))) as [Hfull | Hmore].
    + exists [url c]. repeat split; [assumption|]. rewrite len_app_one. lia.
    + destruct (IH _ Hnd1) as [more [Hfill [Hnd' Hlen]]].
      exists (url c :: more). rewrite <- app_assoc in Hfill, Hnd', Hlen.
      repeat split; [assumption.. |]. intros _. now apply Hlen.
Qed.

Lemma NoDup_map_inj {B C} (f : B -> C) (l : list B) (x y : B) :
  NoDup (map f l) -> x ∈ l -> y ∈ l -> f x = f y -> x = y.
Proof.
  induction l as [|z l IH]; simpl; intros Hnd Hx Hy Hf.
  - now apply elem_of_nil in Hx.
  - apply NoDup_cons in Hnd as [Hz Hnd].
    assert (Hin : forall w, w ∈ l -> f w ∈ map f l).
    { intros w Hw. apply list_elem_of_In, in_map, list_elem_of_In, Hw. }
    apply elem_of_cons in Hx as [-> | Hx]; apply elem_of_cons in Hy as [-> | Hy].
    + reflexivity.
    + exfalso. apply Hz. rewrite Hf. now apply Hin.
    + exfalso. apply Hz. rewrite <- Hf. now apply Hin.
    + now apply IH.
Qed.

Lemma slice_to_short {B} (l : list B) (n : Z) :
  len l <= n -> slice_to l n = l.
Proof.
  unfold slice_to, len. intros H.
  destruct (Z.leb_spec 0 n); [|lia]. apply take_ge. lia.
Qed.


Context (rt : Runtime).

Lemma ordered_of_kept (cid : Z) (candidates : list Candidate) (c : Candidate) :
  c ∈ ordered rt cid candidates ->
  exists k, k ∈ filtered candidates /\ url c = url k /\ domain c = domain k.
Proof.
  rewrite ordered_perm. intros H.
  apply list_elem_of_In, in_map_iff in H as [k [<- Hk]].
  exists k. split; [now apply list_elem_of_In | now split].
Qed.

Lemma ordered_domains (cid : Z) (candidates : list Candidate) :
  map domain (ordered rt cid candidates) ≡ₚ map domain (filtered candidates).
Proof.
  rewrite ordered_perm, map_map. simpl. reflexivity.
Qed.

Lemma evidence_by_domain_head (p : Candidate) (rest : list Candidate) :
  evidence_by_domain 3 (p :: rest) [] ∅
  = evidence_by_domain 3 rest [url p] (∅ ∪ {[domain p]}).
Proof.
  simpl. rewrite bool_decide_eq_false_2 by apply not_elem_of_empty.
  reflexivity.
Qed.

Lemma select_nonempty (cid : Z) (items : list (gmap string value)) :
  collect_candidates rt items <> [] ->
  primary_link (_select_cluster_links rt cid items)
  = match ordered rt cid (collect_candidates rt items) with
    | c :: _ => url c
    | [] => EmptyString
    end
  /\ evidence_links (_select_cluster_links rt cid items)
     = _select_evidence_links (ordered rt cid (collect_candidates rt items)) 3 5.
Proof.
  intros Hne. unfold _select_cluster_links.
  destruct (collect_candidates rt items); [contradiction | now split].
Qed.

(** C2, as the code has it. The evidence links begin with the primary
    link and hold no URL twice, so the primary link is among them exactly
    once; there are at most three of them. When every URL left after the
    arxiv.org exclusion carries one domain and these candidates span at
    least three domains, there are exactly three evidence links and any
    two of them come from different domains. *)
Theorem evidence_links_diverse (cluster_id : Z)
    (items : list (gmap string value))
    (Hne : collect_candidates rt items <> []) :
  let kept := filtered (collect_candidates rt items) in
  let r := _select_cluster_links rt cluster_id items in
  (exists rest, evidence_links r = primary_link r :: rest
                /\ primary_link r ∉ rest)
  /\ NoDup (evidence_links r)
  /\ (length (evidence_links r) <= 3)%nat
  /\ ((forall c1 c2, c1 ∈ kept -> c2 ∈ kept ->
                     url c1 = url c2 -> domain c1 = domain c2) ->
      (3 <= length (remove_dups (map domain kept)))%nat ->
      length (evidence_links r) = 3%nat
      /\ forall c1 c2, c1 ∈ kept -> c2 ∈ kept ->
            url c1 ∈ evidence_links r -> url c2 ∈ evidence_links r ->
            url c1 <> url c2 -> domain c1 <> domain c2).
Proof.
  intros kept r. subst r.
  destruct (select_nonempty cluster_id items Hne) as [-> ->].
  set (ord := ordered rt cluster_id (collect_candidates rt items)).
  pose proof (ordered_nonempty rt cluster_id _ Hne) as Hord. fold ord in Hord.
  unfold _select_evidence_links.
  destruct (evidence_by_domain_spec 3 ord [] ∅ NoDup_nil_2)
    as [picked [Hsub [Hev [Hseen [Hnd [Hdom [_ [Hlen Hall]]]]]]]].
  rewrite app_nil_l in Hev, Hnd, Hlen, Hall. rewrite Hev.
  specialize (Hlen ltac:(unfold len; simpl; lia)).
  set (E := if len (map url picked) <? 3
            then evidence_fill 3 ord (map url picked) else map url picked).
  assert (HE : exists more, E = map url picked ++ more
                            /\ NoDup E /\ len E <= 3).
  { subst E. destruct (Z.ltb_spec (len (map url picked)) 3) as [Hlt | Hge].
    - destruct (evidence_fill_spec 3 ord _ Hnd) as [more [-> [Hnd' Hlen']]].
      exists more. repeat split; [assumption|]. now apply Hlen'.
    - exists []. rewrite app_nil_r. now repeat split. }
  destruct HE as [more [HE [HndE HlenE]]].
  rewrite (slice_to_short E 5) by lia.
  assert (Hhead : exists rest, E = match ord with c :: _ => url c | [] => EmptyString end
                                   :: rest).
  { destruct ord as [|p rest0] eqn:Hordeq; [contradiction|].
    rewrite evidence_by_domain_head in Hev.
    destruct (evidence_by_domain_spec 3 rest0 [url p] (∅ ∪ {[domain p]})
                (NoDup_singleton _)) as [picked' [_ [Hev' _]]].
    rewrite Hev' in Hev. rewrite HE, <- Hev. simpl. eauto. }
  destruct Hhead as [rest Hrest].
  split.
  { exists rest. split; [exact Hrest|]. rewrite Hrest in HndE.
    now apply NoDup_cons in HndE as [? _]. }
  split; [exact HndE|].
  split; [unfold len in HlenE; lia|].
  intros Hfun Hdistinct.
  assert (Hpicked : forall p, p ∈ picked ->
            exists k, k ∈ kept /\ url p = url k /\ domain p = domain k).
  { intros p Hp. apply (ordered_of_kept cluster_id).
    eapply elem_of_sublist; eassumption. }
  assert (Hcover : forall k, k ∈ kept -> url k ∈ map url picked ->
                             domain k ∈ map domain picked).
  { intros k Hk Hin.
    apply list_elem_of_In, in_map_iff in Hin as [p [Hpu Hp]].
    apply list_elem_of_In in Hp.
    destruct (Hpicked p Hp) as [k' [Hk' [Hu Hd]]].
    rewrite (Hfun k k' Hk Hk') by congruence. rewrite <- Hd.
    apply list_elem_of_In, in_map, list_elem_of_In, Hp. }
  assert (Hthree : 3 <= len (map url picked)).
  { destruct Hall as [Hfull | Hall]; [exact Hfull|].
    assert (Hincl : remove_dups (map domain kept) ⊆ map domain picked).
    { intros d Hd. rewrite elem_of_remove_dups in Hd. unfold kept in Hd.
      apply list_elem_of_In in Hd.
      apply (Permutation_in _ (Permutation_sym (ordered_domains cluster_id _)))
        in Hd. fold ord in Hd.
      apply in_map_iff in Hd as [c [<- Hcin]].
      apply list_elem_of_In in Hcin.
      destruct (ordered_of_kept cluster_id _ c Hcin) as [k [Hk [Hu Hdk]]].
      destruct (Hall c Hcin) as [Hurl | Hdomain].
      - rewrite Hdk. apply Hcover; [exact Hk | now rewrite <- Hu].
      - apply elem_of_union in Hdomain as [Hempty | Hdomain];
          [now apply not_elem_of_empty in Hempty|].
        now apply elem_of_list_to_set in Hdomain. }
    pose proof (NoDup_submseteq _ _ (NoDup_remove_dups _) Hincl) as Hmset.
    apply submseteq_length in Hmset. unfold len.
    rewrite !length_map in *. lia. }
  assert (HEeq : E = map url picked).
  { subst E. destruct (Z.ltb_spec (len (map url picked)) 3); [lia | reflexivity]. }
  rewrite HEeq in *. split; [unfold len in *; lia|].
  intros c1 c2 Hc1 Hc2 Hu1 Hu2 Hneq Hdeq.
  apply list_elem_of_In, in_map_iff in Hu1 as [p1 [Hp1u Hp1]].
  apply list_elem_of_In, in_map_iff in Hu2 as [p2 [Hp2u Hp2]].
  apply list_elem_of_In in Hp1, Hp2.
  destruct (Hpicked p1 Hp1) as [k1 [Hk1 [Hu1 Hd1]]].
  destruct (Hpicked p2 Hp2) as [k2 [Hk2 [Hu2 Hd2]]].
  assert (Hdp : domain p1 = domain p2).
  { rewrite Hd1, Hd2.
    rewrite (Hfun k1 c1 Hk1 Hc1) by congruence.
    rewrite (Hfun k2 c2 Hk2 Hc2) by congruence. exact Hdeq. }
  apply Hneq. rewrite <- Hp1u, <- Hp2u. f_equal.
  eapply (NoDup_map_inj domain); eassumption.
Qed.

End EvidenceLinks.

(** ** The cluster assigner *)

Section ClusterAssigner.
Import Py News.
Context (rt : Runtime).

Lemma Qlt_bool_iff (x y : Q) : Qlt_bool x y = true <-> (x < y)%Q.
Proof.
  unfold Qlt_bool. rewrite negb_true_iff, <- not_true_iff_false, Qle_bool_iff.
  split; [apply Qnot_le_lt | apply Qlt_not_le].
Qed.

Lemma find_best_inv (item : Unclustered) (active : list Active) :
  forall (m : option Active) (s : Q),
    match m with
    | None => s = 0%Q
    | Some c => similarity rt item c = s /\ (0 < s)%Q
    end ->
    (s <= (foldl (best_step rt item) (m, s) active).2)%Q
    /\ (forall c, c ∈ active ->
          (similarity rt item c <= (foldl (best_step rt item) (m, s) active).2)%Q)
    /\ match (foldl (best_step rt item) (m, s) active).1 with
       | None => (foldl (best_step rt item) (m, s) active).2 = 0%Q
       | Some c => similarity rt item c = (foldl (best_step rt item) (m, s) active).2
                   /\ (0 < (foldl (best_step rt item) (m, s) active).2)%Q
                   /\ (c ∈ active \/ m = Some c)
       end.
Proof.
  induction active as [|c active IH]; intros m s Hinv; cbn [foldl].
  - cbn [fst snd].
    split; [apply Qle_refl|]. split; [intros c Hc; now apply elem_of_nil in Hc|].
    destruct m as [c|]; [|exact Hinv].
    destruct Hinv as [H1 H2]. split; [exact H1|]. split; [exact H2 | now right].
  - unfold best_step at 2 4 6 8 10 12. fold (similarity rt item c). cbn [snd].
    assert (Hs0 : (0 <= s)%Q).
    { destruct m as [c'|]; [now apply Qlt_le_weak | subst; apply Qle_refl]. }
    destruct (Qlt_bool s (similarity rt item c)) eqn:Hlt.
    + apply Qlt_bool_iff in Hlt.
      destruct (IH (Some c) (similarity rt item c)) as [Hle [Hall Hbest]].
      { split; [reflexivity|]. eapply Qle_lt_trans; eassumption. }
      destruct (foldl (best_step rt item) (Some c, similarity rt item c) active)
        as [b bs]. cbn [fst snd] in *.
      split; [eapply Qle_trans; [apply Qlt_le_weak|]; eassumption|].
      split.
      * intros c' Hc'. apply elem_of_cons in Hc' as [-> | Hc'];
          [exact Hle | now apply Hall].
      * destruct b as [b|]; [|exact Hbest].
        destruct Hbest as [H1 [H2 H3]]. split; [exact H1|]. split; [exact H2|].
        left. destruct H3 as [H3 | H3];
          [now apply list_elem_of_further | injection H3 as ->; apply list_elem_of_here].
    + apply not_true_iff_false in Hlt. rewrite Qlt_bool_iff in Hlt.
      apply Qnot_lt_le in Hlt.
      destruct (IH m s Hinv) as [Hle [Hall Hbest]].
      destruct (foldl (best_step rt item) (m, s) active) as [b bs].
      cbn [fst snd] in *.
      split; [exact Hle|]. split.
      * intros c' Hc'. apply elem_of_cons in Hc' as [-> | Hc'];
          [eapply Qle_trans; eassumption | now apply Hall].
      * destruct b as [b|]; [|exact Hbest].
        destruct Hbest as [H1 [H2 H3]]. split; [exact H1|]. split; [exact H2|].
        destruct H3 as [H3 | H3]; [left; now apply list_elem_of_further | now right].
Qed.

(** The inner loop finds the first active cluster of the highest
    similarity, provided that similarity is positive. *)
Lemma find_best_spec (item : Unclustered) (active : list Active) :
  (forall c, c ∈ active -> (similarity rt item c <= (find_best rt item active).2)%Q)
  /\ match (find_best rt item active).1 with
     | None => (find_best rt item active).2 = 0%Q
     | Some c => c ∈ active
                 /\ similarity rt item c = (find_best rt item active).2
                 /\ (0 < (find_best rt item active).2)%Q
     end.
Proof.
  destruct (find_best_inv item active None 0%Q eq_refl) as [_ [Hall Hbest]].
  fold (find_best rt item active) in Hall, Hbest.
  split; [exact Hall|].
  destruct ((find_best rt item active).1) as [c|]; [|exact Hbest].
  destruct Hbest as [H1 [H2 [H3 | H3]]]; [now repeat split | discriminate].
Qed.

Lemma create_cluster_spec (db : DB) (active : list Active) (item : Unclustered) :
  create_cluster (db, active) item
  = (with_items
       (with_clusters db (<[new_cluster_id db := new_row item]> (clusters db)))
       (alter (set_cluster_id (new_cluster_id db)) (u_id item) (items db)),
     active ++ [{| a_id := new_cluster_id db; a_title := u_title item |}]).
Proof. reflexivity. Qed.

Lemma new_cluster_id_fresh (db : DB) : clusters db !! new_cluster_id db = None.
Proof. apply not_elem_of_dom. unfold new_cluster_id. apply is_fresh. Qed.

Lemma assign_item_active (thr : Q) (st : DB * list Active) (item : Unclustered) :
  st.2 `prefix_of` (assign_item rt thr st item).2.
Proof.
  destruct st as [db active]. unfold assign_item.
  destruct (find_best rt item active) as [[bm|] bs].
  - destruct (Qle_bool thr bs); [reflexivity|].
    rewrite create_cluster_spec. now apply prefix_app_r.
  - rewrite create_cluster_spec. now apply prefix_app_r.
Qed.

(** The list of active clusters only grows during a pass. *)
Lemma assign_items_active (thr : Q) (later : list Unclustered) :
  forall st, st.2 `prefix_of` (foldl (assign_item rt thr) st later).2.
Proof.
  induction later as [|item later IH]; intros st; cbn [foldl]; [reflexivity|].
  etransitivity; [apply assign_item_active | apply IH].
Qed.

(** The match of the inner loop stands in the list after clusters that
    are all strictly less similar to the item: of several most similar
    clusters the loop keeps the first. *)
Lemma find_best_prefix (item : Unclustered) (active : list Active) :
  match (find_best rt item active).1 with
  | Some c =>
      exists before after,
        active = before ++ c :: after
        /\ forall c', c' ∈ before ->
             (similarity rt item c' < similarity rt item c)%Q
  | None => True
  end.
Proof.
  induction active as [|x active IH] using rev_ind; [exact I|].
  unfold find_best in *. rewrite foldl_app. cbn [foldl].
  fold (find_best rt item active) in *.
  destruct (find_best_spec item active) as [Hall Hbest].
  destruct (find_best rt item active) as [m s]. cbn [fst snd] in *.
  unfold best_step. cbn [snd]. fold (similarity rt item x).
  destruct (Qlt_bool s (similarity rt item x)) eqn:Hlt; cbn [fst].
  - apply Qlt_bool_iff in Hlt. exists active, []. split; [reflexivity|].
    intros c' Hc'. eapply Qle_lt_trans; [now apply Hall | exact Hlt].
  - destruct m as [c|]; [|exact I].
    destruct IH as [before [after [-> Hb]]].
    exists before, (after ++ [x]). split; [now rewrite <- app_assoc | exact Hb].
Qed.

(** C3, as the code has it. When the highest similarity [s] of the item
    to the active clusters is positive and at least the threshold, the
    item is assigned to the first active cluster of similarity [s]: every
    cluster before it in the list is strictly less similar. The item's
    row then names that cluster and is otherwise as it was, no other item
    row changes, the cluster's [last_seen_at] becomes the greater of its
    value and the item's timestamp (the item's timestamp when it had
    none) while its other columns stay, no other cluster row changes,
    and no cluster is created. In every other case a cluster with a new
    id is inserted with the item's title, both timestamps equal to the
    item's timestamp, score 0 and kind [news]; the item's row names it;
    nothing else changes; and the new cluster is in the list of active
    clusters for every later item of the pass. *)
Theorem assign_item_spec (thr : Q) (db : DB) (active : list Active)
    (item : Unclustered) :
  let st' := assign_item rt thr (db, active) item in
  (forall s, is_highest rt item active s -> (0 < s)%Q -> (thr <= s)%Q ->
     exists before c after,
       active = before ++ c :: after
       /\ (similarity rt item c == s)%Q
       /\ (forall c', c' ∈ before -> (similarity rt item c' < s)%Q)
       /\ items st'.1 = alter (set_cluster_id (a_id c)) (u_id item) (items db)
       /\ (forall r, items db !! u_id item = Some r ->
             exists r', items st'.1 !! u_id item = Some r'
                        /\ i_cluster_id r' = Some (a_id c)
                        /\ Figures.same_item r r')
       /\ (forall id, id <> u_id item -> items st'.1 !! id = items db !! id)
       /\ clusters st'.1
          = alter (fun r => set_last_seen_at
                              (greatest (c_last_seen_at r) (u_published_at item)) r)
                  (a_id c) (clusters db)
       /\ (forall r,
             clusters db !! a_id c = Some r ->
             exists r',
               clusters st'.1 !! a_id c = Some r'
               /\ c_last_seen_at r'
                  = Some (match c_last_seen_at r with
                          | Some seen => Z.max seen (u_published_at item)
                          | None => u_published_at item
                          end)
               /\ Figures.same_cluster r r'
               /\ c_item_count r' = c_item_count r)
       /\ (forall cid, cid <> a_id c ->
             clusters st'.1 !! cid = clusters db !! cid)
       /\ st'.2 = active)
  /\ ((forall s, is_highest rt item active s -> ~ ((0 < s)%Q /\ (thr <= s)%Q)) ->
      let new_cid := new_cluster_id db in
      clusters db !! new_cid = None
      /\ clusters st'.1 = <[new_cid := new_row item]> (clusters db)
      /\ (exists row,
            clusters st'.1 !! new_cid = Some row
            /\ c_title row = u_title item
            /\ c_first_seen_at row = Some (u_published_at item)
            /\ c_last_seen_at row = Some (u_published_at item)
            /\ c_score row = 0%Q /\ c_kind row = "news"
            /\ c_item_count row = None /\ c_meta row = None)
      /\ (forall cid, cid <> new_cid ->
            clusters st'.1 !! cid = clusters db !! cid)
      /\ items st'.1 = alter (set_cluster_id new_cid) (u_id item) (items db)
      /\ (forall r, items db !! u_id item = Some r ->
            exists r', items st'.1 !! u_id item = Some r'
                       /\ i_cluster_id r' = Some new_cid
                       /\ Figures.same_item r r')
      /\ (forall id, id <> u_id item -> items st'.1 !! id = items db !! id)
      /\ st'.2 = active ++ [{| a_id := new_cid; a_title := u_title item |}]
      /\ forall later,
           {| a_id := new_cid; a_title := u_title item |}
           ∈ (foldl (assign_item rt thr) st' later).2).
Proof.
  intros st'. subst st'. unfold assign_item.
  pose proof (find_best_prefix item active) as Hfirst.
  destruct (find_best_spec item active) as [Hall Hbest].
  destruct (find_best rt item active) as [bm bs].
  cbn [fst snd] in Hall, Hbest, Hfirst.
  split.
  - intros s [[c0 [Hc0 Hs0]] Hmax] Hpos Hthr.
    assert (Hsb : (s <= bs)%Q) by (rewrite <- Hs0; now apply Hall).
    destruct bm as [c|].
    2:{ subst bs. exfalso. eapply Qlt_not_le; eassumption. }
    destruct Hbest as [Hc [Hsim Hbpos]].
    assert (Hbs : (bs <= s)%Q) by (rewrite <- Hsim; now apply Hmax).
    assert (Heq : (similarity rt item c == s)%Q)
      by (rewrite Hsim; now apply Qle_antisym).
    assert (Hle : Qle_bool thr bs = true).
    { apply Qle_bool_iff. eapply Qle_trans; eassumption. }
    rewrite Hle. destruct Hfirst as [before [after [Hactive Hbefore]]].
    exists before, c, after.
    cbn [fst snd items clusters with_items with_clusters].
    split; [exact Hactive|]. split; [exact Heq|].
    split; [intros c' Hc'; rewrite <- Heq; now apply Hbefore|].
    split; [reflexivity|]. split.
    { intros r Hr. rewrite lookup_alter_eq, Hr. cbn. eexists.
      split; [reflexivity|]. split; [reflexivity | repeat split]. }
    split; [intros id Hid; now apply lookup_alter_ne|].
    split; [reflexivity|]. split.
    { intros r Hr. rewrite lookup_alter_eq, Hr. cbn. eexists.
      split; [reflexivity|]. split; [now destruct (c_last_seen_at r)|].
      split; [repeat split | reflexivity]. }
    split; [intros cid Hcid; now apply lookup_alter_ne | reflexivity].
  - intros Hno. cbv zeta.
    assert (Hcreate :
      match bm with
      | Some bm =>
          if Qle_bool thr bs
          then (with_clusters
                  (with_items db (alter (set_cluster_id (a_id bm)) (u_id item)
                                        (items db)))
                  (alter (fun r => set_last_seen_at
                                     (greatest (c_last_seen_at r)
                                               (u_published_at item)) r)
                         (a_id bm)
                         (clusters (with_items db
                                      (alter (set_cluster_id (a_id bm))
                                             (u_id item) (items db))))),
                active)
          else create_cluster (db, active) item
      | None => create_cluster (db, active) item
      end = create_cluster (db, active) item).
    { destruct bm as [c|]; [|reflexivity].
      destruct Hbest as [Hc [Hsim Hbpos]].
      destruct (Qle_bool thr bs) eqn:Hle; [|reflexivity].
      exfalso. apply (Hno bs).
      - split; [exists c; split; [exact Hc | now rewrite Hsim] | exact Hall].
      - split; [exact Hbpos | now apply Qle_bool_iff]. }
    rewrite Hcreate, create_cluster_spec.
    cbn [fst snd items clusters with_items with_clusters].
    split; [apply new_cluster_id_fresh|]. split; [reflexivity|].
    split.
    { exists (new_row item). split; [apply lookup_insert_eq|]. now repeat split. }
    split; [intros cid Hcid; apply lookup_insert_ne; congruence|].
    split; [reflexivity|]. split.
    { intros r Hr. rewrite lookup_alter_eq, Hr. cbn. eexists.
      split; [reflexivity|]. split; [reflexivity | repeat split]. }
    split; [intros id Hid; now apply lookup_alter_ne|].
    split; [reflexivity|].
    intros later.
    eapply elem_of_prefix; [|apply assign_items_active].
    cbn [snd]. apply elem_of_app. right. apply list_elem_of_here.
Qed.

End ClusterAssigner.

(** ** The properties on the example data *)

Section OnExamples.
Import Py News Examples.

Example reference_runtime_values :
  Ref.md5_int EmptyString = 281949768489412648962353822266799178366
  /\ Ref.md5_int "abc" = 191415658344158766168031473277922803570
  /\ Ref.netloc "https://OpenAI.com/blog?x=1" = Some "OpenAI.com"
  /\ Ref.netloc "openai.com/x" = Some EmptyString
  /\ Ref.strip "  a b  " = "a b"
  /\ Ref.lower "GitHub.COM" = "github.com".
Proof. repeat split; vm_compute; reflexivity. Qed.

Example value_score_example :
  _value_signals rt " Pricing guide 教程 " = ["monetization"; "learning"]
  /\ (_value_score rt " Pricing guide 教程 " == 6)%Q.
Proof. split; vm_compute; reflexivity. Qed.

Lemma select_links_reproducible_witness :
  map link_fields four_links_titled = map link_fields four_links
  /\ _select_cluster_links rt 7 four_links_titled
     = _select_cluster_links rt 7 four_links.
Proof.
  assert (H : map link_fields four_links_titled = map link_fields four_links)
    by (vm_compute; reflexivity).
  split; [exact H|].
  exact (proj1 (select_links_reproducible rt 7 four_links_titled four_links H)).
Defined.

Lemma functional_check (l : list Candidate) :
  forallb (fun c1 =>
             forallb (fun c2 => implb (String.eqb (url c1) (url c2))
                                      (String.eqb (domain c1) (domain c2))) l) l
  = true ->
  forall c1 c2, c1 ∈ l -> c2 ∈ l -> url c1 = url c2 -> domain c1 = domain c2.
Proof.
  intros H c1 c2 H1 H2 Hu.
  rewrite forallb_forall in H. apply list_elem_of_In in H1, H2.
  specialize (H c1 H1). rewrite forallb_forall in H. specialize (H c2 H2).
  apply String.eqb_eq in Hu. rewrite Hu in H. now apply String.eqb_eq.
Qed.

Lemma evidence_links_diverse_witness :
  collect_candidates rt four_links <> []
  /\ NoDup (evidence_links (_select_cluster_links rt 7 four_links))
  /\ length (evidence_links (_select_cluster_links rt 7 four_links)) = 3%nat.
Proof.
  assert (Hne : collect_candidates rt four_links <> [])
    by (vm_compute; discriminate).
  destruct (evidence_links_diverse rt 7 four_links Hne) as [_ [Hnd [_ Hdom]]].
  split; [exact Hne|]. split; [exact Hnd|].
  apply Hdom.
  - apply functional_check. vm_compute. reflexivity.
  - vm_compute. lia.
Defined.

(** C2 as stated fails: with a single official link the evidence is
    that very link. *)
Lemma evidence_contains_primary_counterexample :
  collect_candidates rt one_link <> []
  /\ primary_link (_select_cluster_links rt 7 one_link)
     = "https://openai.com/blog/a"
  /\ evidence_links (_select_cluster_links rt 7 one_link)
     = ["https://openai.com/blog/a"]
  /\ ~ (primary_link (_select_cluster_links rt 7 one_link)
        ∉ evidence_links (_select_cluster_links rt 7 one_link)).
Proof.
  assert (Hp : primary_link (_select_cluster_links rt 7 one_link)
               = "https://openai.com/blog/a") by (vm_compute; reflexivity).
  assert (He : evidence_links (_select_cluster_links rt 7 one_link)
               = ["https://openai.com/blog/a"]) by (vm_compute; reflexivity).
  split; [vm_compute; discriminate|]. split; [exact Hp|]. split; [exact He|].
  rewrite Hp, He. intros H. apply H. apply list_elem_of_here.
Qed.

(** Why the domains are counted after the exclusion: here the candidates
    span three domains, arxiv.org among them, and two of the three
    evidence links are from sitea.com. *)
Example evidence_after_exclusion :
  length (remove_dups (map domain (collect_candidates rt arxiv_links))) = 3%nat
  /\ length (remove_dups (map domain (filtered (collect_candidates rt arxiv_links))))
     = 2%nat
  /\ evidence_links (_select_cluster_links rt 7 arxiv_links)
     = ["https://sitea.com/1"; "https://siteb.com/1"; "https://sitea.com/2"].
Proof. repeat split; vm_compute; reflexivity. Qed.

(** Why every URL must carry one domain: here the first loop skips the
    second [paper-1] for its URL and [paper-3] for its domain, finds two
    links only, and the second loop adds [paper-3], of the domain of
    [paper-1]. *)
Example evidence_bare_urls :
  map (fun c => (url c, domain c)) (ordered rt 7 (collect_candidates rt bare_links))
  = [("paper-1", "a.org"); ("paper-1", "b.org"); ("paper-3", "a.org");
     ("paper-2", "c.org")]
  /\ evidence_links (_select_cluster_links rt 7 bare_links)
     = ["paper-1"; "paper-2"; "paper-3"].
Proof. split; vm_compute; reflexivity. Qed.

(** C9 as stated fails: with a single official link nothing is dropped
    by the exclusion, and the flag is set all the same. *)
Lemma debug_flag_counterexample :
  filtered (collect_candidates rt one_link) = collect_candidates rt one_link
  /\ exclusion_removed (collect_candidates rt one_link) = false
  /\ debug (_select_cluster_links rt 7 one_link) !! "filtered_arxiv"
     = Some (Bool true)
  /\ debug (_select_cluster_links rt 7 one_link) !! "filtered_arxiv"
     <> Some (Bool (exclusion_removed (collect_candidates rt one_link))).
Proof.
  assert (Hf : debug (_select_cluster_links rt 7 one_link) !! "filtered_arxiv"
               = Some (Bool true)) by (vm_compute; reflexivity).
  assert (Hr : exclusion_removed (collect_candidates rt one_link) = false)
    by (vm_compute; reflexivity).
  split; [vm_compute; reflexivity|]. split; [exact Hr|]. split; [exact Hf|].
  rewrite Hf, Hr. discriminate.
Qed.

Lemma highest_of_one (item : Unclustered) (c : Active) (s : Q) :
  is_highest rt item [c] s <-> (similarity rt item c == s)%Q.
Proof.
  unfold is_highest. split.
  - intros [[c' [Hc' Hs]] _]. apply list_elem_of_singleton in Hc'. now subst.
  - intros Hs. split.
    + exists c. split; [apply list_elem_of_here | exact Hs].
    + intros c' Hc'. apply list_elem_of_singleton in Hc'. subst.
      rewrite Hs. apply Qle_refl.
Qed.

Lemma assign_item_spec_witness :
  (is_highest rt item_gpt MoreExamples.active_tie 100
   /\ exists c,
        a_id c = 2
        /\ items (assign_item rt 70 (MoreExamples.tie_db,
                                     MoreExamples.active_tie) item_gpt).1
           = alter (set_cluster_id (a_id c)) 12 (items MoreExamples.tie_db)
        /\ (assign_item rt 70 (MoreExamples.tie_db, MoreExamples.active_tie)
                        item_gpt).2
           = MoreExamples.active_tie)
  /\ (assign_item rt 70 (MoreExamples.tie_db, MoreExamples.active_two)
                  item_xyz).2
     = MoreExamples.active_two
       ++ [{| a_id := new_cluster_id MoreExamples.tie_db; a_title := "xyz" |}].
Proof.
  split.
  - assert (Hs : is_highest rt item_gpt MoreExamples.active_tie 100).
    { split.
      - exists {| a_id := 2; a_title := "GPT-5 Launch" |}.
        split; [apply list_elem_of_further, list_elem_of_here|].
        vm_compute. reflexivity.
      - intros c Hc. unfold MoreExamples.active_tie in Hc.
        apply elem_of_cons in Hc as [-> | Hc]; [vm_compute; discriminate|].
        apply elem_of_cons in Hc as [-> | Hc]; [vm_compute; discriminate|].
        apply list_elem_of_singleton in Hc. subst c. vm_compute. discriminate. }
    split; [exact Hs|].
    destruct (proj1 (assign_item_spec rt 70 MoreExamples.tie_db
                       MoreExamples.active_tie item_gpt)
                100%Q Hs ltac:(reflexivity) ltac:(discriminate))
      as [before [c [after [Hact [Hsim [Hbefore [Hitems [_ [_ [_ [_ [_ Hst]]]]]]]]]]]].
    exists c. split; [|split; [exact Hitems | exact Hst]].
    unfold MoreExamples.active_tie in Hact.
    destruct before as [|x [|y [|z before]]]; cbn [app] in Hact.
    + injection Hact as <- _. exfalso. vm_compute in Hsim. discriminate.
    + injection Hact as _ <- _. reflexivity.
    + injection Hact as _ Hy _. exfalso.
      assert (Hlt : (similarity rt item_gpt y < 100)%Q).
      { apply Hbefore. apply list_elem_of_further, list_elem_of_here. }
      rewrite <- Hy in Hlt. vm_compute in Hlt. discriminate.
    + injection Hact as _ _ _ Hnil. exfalso.
      destruct before; discriminate.
  - assert (Hno : forall s, is_highest rt item_xyz MoreExamples.active_two s ->
                            ~ ((0 < s)%Q /\ (70 <= s)%Q)).
    { intros s [[c [Hc Hs]] _] [Hpos _].
      unfold MoreExamples.active_two in Hc.
      apply elem_of_cons in Hc as [-> | Hc].
      - rewrite <- Hs in Hpos. vm_compute in Hpos. discriminate.
      - apply list_elem_of_singleton in Hc. subst c.
        rewrite <- Hs in Hpos. vm_compute in Hpos. discriminate. }
    destruct (proj2 (assign_item_spec rt 70 MoreExamples.tie_db
                       MoreExamples.active_two item_xyz) Hno)
      as [_ [_ [_ [_ [_ [_ [_ [Hact _]]]]]]]].
    exact Hact.
Defined.

(** C3 as stated fails at a threshold of 0: the highest similarity, 0,
    is at least the threshold, and yet the item opens a new cluster
    instead of joining cluster 1. *)
Lemma assign_zero_threshold_counterexample :
  is_highest rt item_xyz active_one 0
  /\ (0 <= 0)%Q
  /\ (assign_item rt 0 (news_db, active_one) item_xyz).2
     = active_one ++ [{| a_id := new_cluster_id news_db; a_title := "xyz" |}]
  /\ i_cluster_id
     <$> items (assign_item rt 0 (news_db, active_one) item_xyz).1 !! 12
     = Some (Some (new_cluster_id news_db))
  /\ new_cluster_id news_db <> 1.
Proof.
  split; [apply highest_of_one; vm_compute; reflexivity|].
  split; [apply Qle_refl|].
  split; [vm_compute; reflexivity|].
  split; [vm_compute; reflexivity|].
  vm_compute. discriminate.
Qed.

(** The controller on the toy world: with a target of 5 it gives up after
    its two steps and returns the two clusters of the last pass; with a
    target of 1 it stops after the first step. *)
Example backfill_runs :
  get_top_clusters_with_backfill toy_cluster_news toy_score_clusters
    toy_get_top_clusters toy_settings 5 O
  = ([0; 1]%nat, 2%nat, [(1, 144, 45%Q); (2, 288, 30%Q)])
  /\ get_top_clusters_with_backfill toy_cluster_news toy_score_clusters
       toy_get_top_clusters toy_settings 1 O
     = ([0]%nat, 1%nat, [(1, 144, 45%Q)])
  /\ get_top_clusters_with_backfill toy_cluster_news toy_score_clusters
       toy_get_top_clusters toy_settings 0 O
     = ([], O, []).
Proof. repeat split; vm_compute; reflexivity. Qed.

(** A whole pass of [cluster_news] on the example store: the unclustered
    item opens cluster 2, and the counts are refreshed. *)
Example cluster_news_pass :
  i_cluster_id <$> items (cluster_news rt now 24 70 news_db) !! 12
  = Some (Some 2)
  /\ c_title <$> clusters (cluster_news rt now 24 70 news_db) !! 2 = Some "xyz"
  /\ c_item_count <$> clusters (cluster_news rt now 24 70 news_db) !! 2
     = Some (Some 1)
  /\ c_item_count <$> clusters (cluster_news rt now 24 70 news_db) !! 1
     = Some (Some 2).
Proof. repeat split; vm_compute; reflexivity. Qed.

Lemma persisted_score_formula_witness :
  clusters news_db !! 1 = Some cluster_row
  /\ within_hours now (_window_hours 72) (c_last_seen_at cluster_row) = true
  /\ cluster_items news_db 1 <> []
  /\ exists row' meta,
       clusters (score_clusters rt now (fun _ => now) 72 news_db) !! 1 = Some row'
       /\ c_meta row' = Some meta
       /\ m_item_count meta = 2
       /\ m_source_count meta = 2
       /\ (m_value_score meta == 6.5)%Q
       /\ (m_freshness_score meta == 60 # 72)%Q
       /\ (m_feedback_score meta == 4)%Q
       /\ (c_score row' == 2 + 4 + 32.5 + 2.5 + 4)%Q.
Proof.
  assert (H1 : clusters news_db !! 1 = Some cluster_row)
    by (vm_compute; reflexivity).
  assert (H2 : within_hours now (_window_hours 72) (c_last_seen_at cluster_row)
               = true) by (vm_compute; reflexivity).
  assert (H3 : cluster_items news_db 1 <> []) by (vm_compute; discriminate).
  destruct (persisted_score_formula rt now (fun _ => now) 72 news_db 1
              cluster_row H1 H2 H3)
    as [k [meta [row' [Hrow [Hmeta [Hscore [Hn [Hs [Hv [Hf Hfb]]]]]]]]]].
  split; [exact H1|]. split; [exact H2|]. split; [exact H3|].
  exists row', meta. split; [exact Hrow|]. split; [exact Hmeta|].
  assert (Hn2 : m_item_count meta = 2) by (rewrite Hn; vm_compute; reflexivity).
  assert (Hs2 : m_source_count meta = 2) by (rewrite Hs; vm_compute; reflexivity).
  assert (Hv2 : (m_value_score meta == 6.5)%Q)
    by (rewrite Hv; vm_compute; reflexivity).
  assert (Hf2 : (m_freshness_score meta == 60 # 72)%Q)
    by (rewrite Hf; vm_compute; reflexivity).
  assert (Hfb2 : (m_feedback_score meta == 4)%Q)
    by (rewrite Hfb; vm_compute; reflexivity).
  split; [exact Hn2|]. split; [exact Hs2|]. split; [exact Hv2|].
  split; [exact Hf2|]. split; [exact Hfb2|].
  rewrite Hscore, Hn2, Hs2, Hv2, Hf2, Hfb2. vm_compute. reflexivity.
Defined.

Lemma repo_score_without_snapshot_witness :
  Repo.scored_repos now (fun _ => now) repo_db !! 0%nat
  = Some (Repo.score_repo now now repo_db repo_row)
  /\ (forall s, s ∈ Repo.repo_snapshots repo_db ->
                Repo.in_snapshot_window now 3 s = false)
  /\ Repo.delta_24h (Repo.score_repo now now repo_db repo_row) = 0
  /\ (Repo.score (Repo.score_repo now now repo_db repo_row)
      - Repo.feedback_score (Repo.score_repo now now repo_db repo_row)
      = 10)%R.
Proof.
  assert (H1 : Repo.scored_repos now (fun _ => now) repo_db !! 0%nat
               = Some (Repo.score_repo now now repo_db repo_row))
    by reflexivity.
  assert (H2 : forall s, s ∈ Repo.repo_snapshots repo_db ->
                         Repo.in_snapshot_window now 3 s = false).
  { intros s Hs. apply list_elem_of_singleton in Hs. subst s.
    vm_compute. reflexivity. }
  destruct (repo_score_without_snapshot now (fun _ => now) repo_db 0
              (Repo.score_repo now now repo_db repo_row) H1 H2)
    as [Hd [_ Hten]].
  split; [exact H1|]. split; [exact H2|]. split; [exact Hd|].
  apply Hten; vm_compute; reflexivity.
Defined.

End OnExamples.

(* ===================================================================== *)
(** * Further properties of the code                                      *)
(* ===================================================================== *)

(** ** The link selector, continued *)

Section LinkSelectorMore.
Import Py News.
Context (rt : Runtime).

Lemma candidates_usable (items : list (gmap string value)) :
  Forall (fun c => url c <> EmptyString /\ domain c <> EmptyString
                   /\ exists item, item ∈ items
                        /\ url c = str_strip rt (get_or_empty item "url"))
         (collect_candidates rt items).
Proof.
  induction items as [|item items IH]; simpl; [constructor|].
  assert (IH' : Forall (fun c => url c <> EmptyString /\ domain c <> EmptyString
                   /\ exists it, it ∈ item :: items
                        /\ url c = str_strip rt (get_or_empty it "url"))
                  (collect_candidates rt items)).
  { eapply Forall_impl; [exact IH|]. intros c [Hu [Hd [it [Hit Heq]]]].
    split; [exact Hu|]. split; [exact Hd|]. exists it.
    split; [now apply list_elem_of_further | exact Heq]. }
  destruct (String.eqb_spec (str_strip rt (get_or_empty item "url")) EmptyString)
    as [Hu | Hu]; [exact IH'|].
  match goal with |- context [String.eqb ?d EmptyString] =>
    destruct (String.eqb_spec d EmptyString) as [Hd | Hd] end; [exact IH'|].
  constructor; [|exact IH']. simpl.
  split; [exact Hu|]. split; [exact Hd|]. exists item.
  split; [apply list_elem_of_here | reflexivity].
Qed.

Lemma ordered_elem (cid : Z) (candidates : list Candidate) (c : Candidate) :
  c ∈ ordered rt cid candidates
  <-> exists k, k ∈ filtered candidates /\ c = annotate rt (pretty cid) k.
Proof.
  rewrite ordered_perm, list_elem_of_In, in_map_iff.
  split; intros [k [H1 H2]]; exists k.
  - split; [now apply list_elem_of_In | now symmetry].
  - split; [now symmetry | now apply list_elem_of_In].
Qed.

Lemma filtered_elem (candidates : list Candidate) (c : Candidate) :
  c ∈ filtered candidates -> c ∈ candidates.
Proof.
  unfold filtered, non_arxiv.
  destruct (List.filter _ candidates) eqn:Hf; [trivial|].
  rewrite <- Hf. intros H. apply list_elem_of_In, filter_In in H as [H _].
  now apply list_elem_of_In.
Qed.

(** The second loop adds URLs of candidates only, and stops at
    [min_count] links or takes in the URL of every candidate. *)
Lemma evidence_fill_complete (min_count : Z) (candidates : list Candidate) :
  forall evidence : list string,
    NoDup evidence ->
    exists more : list string,
      evidence_fill min_count candidates evidence = evidence ++ more
      /\ NoDup (evidence ++ more)
      /\ (len evidence < min_count -> len (evidence ++ more) <= min_count)
      /\ (forall u, u ∈ more -> u ∈ map url candidates)
      /\ (min_count <= len (evidence ++ more)
          \/ forall c, c ∈ candidates -> url c ∈ evidence ++ more).
Proof.
  induction candidates as [|c rest IH]; intros evidence Hnd; simpl.
  - exists []. rewrite app_nil_r.
    split; [reflexivity|]. split; [exact Hnd|]. split; [lia|].
    split; [intros u Hu; now apply elem_of_nil in Hu|].
    right. intros c Hc. now apply elem_of_nil in Hc.
  - destruct (mem (url c) evidence) eqn:Hmem.
    + apply mem_elem_of in Hmem.
      destruct (IH evidence Hnd) as [more [Hfill [Hnd' [Hlen [Hin Hall]]]]].
      exists more. split; [exact Hfill|]. split; [exact Hnd'|].
      split; [exact Hlen|].
      split; [intros u Hu; apply list_elem_of_further; now apply Hin|].
      destruct Hall as [Hfull | Hall]; [now left | right].
      intros c' Hc'. apply elem_of_cons in Hc' as [-> | Hc']; [|now apply Hall].
      apply elem_of_app. now left.
    + assert (Hurl : url c ∉ evidence).
      { intros H. apply mem_elem_of in H. congruence. }
      assert (Hnd1 : NoDup (evidence ++ [url c])).
      { apply NoDup_app. split; [exact Hnd|]. split; [|apply NoDup_singleton].
        intros x Hx Hx'. apply list_elem_of_singleton in Hx'. now subst. }
      destruct (Z.leb_spec min_count (len (evidence ++ [url c]))) as [Hfull | Hmore].
      * exists [url c]. split; [reflexivity|]. split; [exact Hnd1|].
        split; [rewrite len_app_one; lia|].
        split; [|now left].
        intros u Hu. apply list_elem_of_singleton in Hu. subst.
        apply list_elem_of_here.
      * destruct (IH _ Hnd1) as [more [Hfill [Hnd' [Hlen [Hin Hall]]]]].
        exists (url c :: more).
        rewrite <- app_assoc in Hfill, Hnd', Hlen, Hall.
        split; [exact Hfill|]. split; [exact Hnd'|].
        split; [intros _; now apply Hlen|].
        split.
        { intros u Hu. apply elem_of_cons in Hu as [-> | Hu];
            [apply list_elem_of_here | apply list_elem_of_further; now apply Hin]. }
        destruct Hall as [Hfull | Hall]; [now left | right].
        intros c' Hc'. apply elem_of_cons in Hc' as [-> | Hc']; [|now apply Hall].
        apply elem_of_app. right. apply list_elem_of_here.
Qed.

(** What [_select_evidence_links] returns with its default counts: no URL
    twice, at most three URLs, all of them URLs of candidates, the URL of
    the first candidate first, and the URL of every candidate when there
    are fewer than three. *)
Lemma select_evidence_spec (candidates : list Candidate) :
  NoDup (_select_evidence_links candidates 3 5)
  /\ (length (_select_evidence_links candidates 3 5) <= 3)%nat
  /\ (forall u, u ∈ _select_evidence_links candidates 3 5 ->
                u ∈ map url candidates)
  /\ ((length (_select_evidence_links candidates 3 5) < 3)%nat ->
      forall c, c ∈ candidates -> url c ∈ _select_evidence_links candidates 3 5)
  /\ head (_select_evidence_links candidates 3 5) = url <$> head candidates.
Proof.
  unfold _select_evidence_links.
  destruct (evidence_by_domain_spec 3 candidates [] ∅ NoDup_nil_2)
    as [picked [Hsub [Hev [_ [Hnd [_ [_ [Hlen _]]]]]]]].
  rewrite app_nil_l in Hev, Hnd, Hlen.
  specialize (Hlen ltac:(unfold len; simpl; lia)).
  assert (Hpicked : forall u, u ∈ map url picked -> u ∈ map url candidates).
  { intros u Hu. apply list_elem_of_In, in_map_iff in Hu as [p [<- Hp]].
    apply list_elem_of_In, in_map, list_elem_of_In.
    eapply elem_of_sublist; [apply list_elem_of_In, Hp | exact Hsub]. }
  assert (Hhead : head (map url picked) = url <$> head candidates).
  { destruct candidates as [|p rest0].
    - apply sublist_nil_r in Hsub. now subst.
    - rewrite <- Hev, evidence_by_domain_head.
      destruct (evidence_by_domain_spec 3 rest0 [url p] (∅ ∪ {[domain p]})
                  (NoDup_singleton _)) as [picked' [_ [-> _]]].
      reflexivity. }
  rewrite Hev.
  destruct (evidence_fill_complete 3 candidates (map url picked) Hnd)
    as [more [Hfill [Hnd' [Hlen' [Hin Hall]]]]].
  set (E := if len (map url picked) <? 3
            then evidence_fill 3 candidates (map url picked)
            else map url picked).
  assert (HE : NoDup E /\ len E <= 3
               /\ (forall u, u ∈ E -> u ∈ map url candidates)
               /\ (len E < 3 -> forall c, c ∈ candidates -> url c ∈ E)
               /\ head E = url <$> head candidates).
  { subst E. destruct (Z.ltb_spec (len (map url picked)) 3) as [Hlt | Hge].
    - rewrite Hfill. split; [exact Hnd'|]. split; [now apply Hlen'|].
      split.
      { intros u Hu. apply elem_of_app in Hu as [Hu | Hu];
          [now apply Hpicked | now apply Hin]. }
      split.
      { intros Hshort. destruct Hall as [Hfull | Hall]; [lia | exact Hall]. }
      rewrite <- Hhead. destruct (map url picked) as [|u0 us] eqn:Hmp.
      + destruct candidates as [|p rest0]; [|discriminate Hhead].
        apply sublist_nil_r in Hsub. subst picked.
        destruct more as [|m0 more']; [reflexivity|].
        exfalso. specialize (Hin m0 (list_elem_of_here _ _)).
        now apply elem_of_nil in Hin.
      + reflexivity.
    - split; [exact Hnd|]. split; [lia|]. split; [exact Hpicked|].
      split; [lia | exact Hhead]. }
  destruct HE as [HndE [HlenE [HinE [HallE HheadE]]]].
  rewrite (slice_to_short E 5) by lia.
  split; [exact HndE|]. split; [unfold len in HlenE; lia|].
  split; [exact HinE|]. split; [|exact HheadE].
  intros Hshort. apply HallE. unfold len. lia.
Qed.

Lemma select_empty (cid : Z) (items : list (gmap string value)) :
  collect_candidates rt items = [] ->
  primary_link (_select_cluster_links rt cid items) = EmptyString
  /\ evidence_links (_select_cluster_links rt cid items) = [].
Proof. intros H. unfold _select_cluster_links. rewrite H. now split. Qed.

(** X1. The selector returns the empty primary link and no evidence
    exactly when no item has a usable URL and domain; otherwise the primary
    link is the stripped, non-empty URL of one of the items and it is the
    first evidence link. *)
Theorem primary_link_empty_iff (cluster_id : Z)
    (items : list (gmap string value)) :
  let r := _select_cluster_links rt cluster_id items in
  (primary_link r = EmptyString <-> collect_candidates rt items = [])
  /\ (evidence_links r = [] <-> collect_candidates rt items = [])
  /\ (collect_candidates rt items = []
      \/ head (evidence_links r) = Some (primary_link r)
         /\ exists item, item ∈ items
              /\ primary_link r = str_strip rt (get_or_empty item "url")).
Proof.
  intros r. subst r.
  destruct (decide (collect_candidates rt items = [])) as [Hc | Hne].
  - destruct (select_empty cluster_id items Hc) as [-> ->].
    split; [easy|]. split; [easy|]. now left.
  - destruct (select_nonempty rt cluster_id items Hne) as [Hp He].
    pose proof (ordered_nonempty rt cluster_id _ Hne) as Hord.
    destruct (select_evidence_spec
                (ordered rt cluster_id (collect_candidates rt items)))
      as [_ [_ [_ [_ Hhead]]]].
    rewrite <- He in Hhead.
    destruct (ordered rt cluster_id (collect_candidates rt items))
      as [|p more] eqn:Hordeq; [contradiction|].
    assert (Hpin : p ∈ ordered rt cluster_id (collect_candidates rt items))
      by (rewrite Hordeq; apply list_elem_of_here).
    apply ordered_elem in Hpin as [k [Hk Hpk]].
    apply filtered_elem in Hk.
    pose proof (proj1 (Forall_forall _ _) (candidates_usable items) k Hk)
      as [Hu [_ [item [Hitem Hurl]]]].
    assert (Hpu : url p = url k) by (rewrite Hpk; reflexivity).
    rewrite Hp, Hpu. simpl in Hhead. rewrite Hpu in Hhead.
    split; [split; [intros H; now rewrite H in Hu | intros H; contradiction]|].
    split.
    { split; [|intros H; contradiction].
      intros H. rewrite H in Hhead. discriminate. }
    right. split; [exact Hhead|]. exists item. split; [exact Hitem | exact Hurl].
Qed.

(** X2. The primary link is of the highest tier found among the
    candidates kept after the arxiv.org exclusion, and among the kept
    candidates of that tier it has the least hash of cluster id and
    URL. *)
Theorem primary_link_best_tier (cluster_id : Z)
    (items : list (gmap string value)) :
  match ordered rt cluster_id (collect_candidates rt items) with
  | [] => collect_candidates rt items = []
  | p :: _ =>
      primary_link (_select_cluster_links rt cluster_id items) = url p
      /\ (exists k, k ∈ filtered (collect_candidates rt items)
                    /\ url k = url p /\ domain k = domain p)
      /\ forall c, c ∈ filtered (collect_candidates rt items) ->
           _link_priority (domain c) <= _link_priority (domain p)
           /\ (_link_priority (domain c) = _link_priority (domain p) ->
               _stable_hash rt (url p) (pretty cluster_id)
               <= _stable_hash rt (url c) (pretty cluster_id))
  end.
Proof.
  pose proof (sorted_ordered sort_key
                (map (annotate rt (pretty cluster_id))
                     (filtered (collect_candidates rt items)))) as Hsorted.
  fold (ordered rt cluster_id (collect_candidates rt items)) in Hsorted.
  destruct (ordered rt cluster_id (collect_candidates rt items))
    as [|p more] eqn:Hordeq.
  - destruct (decide (collect_candidates rt items = [])) as [Hc | Hne];
      [exact Hc|].
    now apply (ordered_nonempty rt cluster_id) in Hne.
  - assert (Hne : collect_candidates rt items <> []).
    { intros Hc. rewrite Hc in Hordeq. discriminate Hordeq. }
    destruct (select_nonempty rt cluster_id items Hne) as [Hp _].
    rewrite Hordeq in Hp. split; [exact Hp|].
    assert (Hpin : p ∈ ordered rt cluster_id (collect_candidates rt items))
      by (rewrite Hordeq; apply list_elem_of_here).
    apply ordered_elem in Hpin as [kp [Hkp Hpk]].
    split; [exists kp; subst p; now repeat split|].
    intros c Hc.
    assert (Hcin : annotate rt (pretty cluster_id) c
                   ∈ ordered rt cluster_id (collect_candidates rt items))
      by (apply ordered_elem; eauto).
    rewrite Hordeq in Hcin.
    assert (Hle : key_order sort_key p (annotate rt (pretty cluster_id) c)).
    { apply elem_of_cons in Hcin as [Heq | Hcin].
      - rewrite Heq. unfold key_order, key_le. destruct (sort_key p). simpl.
        rewrite Z.eqb_refl, Z.leb_refl. now rewrite orb_true_r.
      - apply StronglySorted_inv in Hsorted as [_ Hall].
        exact (proj1 (Forall_forall _ _) Hall _ Hcin). }
    unfold key_order, key_le, sort_key in Hle. rewrite Hpk in Hle |- *.
    simpl in Hle |- *. unfold _stable_hash in *. lia.
Qed.


Lemma filter_nil_all {B} (p : B -> bool) (l : list B) :
  List.filter p l = [] -> Forall (fun x => p x = false) l.
Proof.
  induction l as [|x l IH]; simpl; [constructor|].
  destruct (p x) eqn:Hp; [discriminate|]. intros H. constructor; auto.
Qed.

(** X3. Every evidence link is the URL of a candidate kept after the
    exclusion. When some candidate lies outside arxiv.org, no kept
    candidate is an arxiv.org link; when all candidates are arxiv.org
    links, all of them are kept. *)
Theorem arxiv_excluded_when_possible (cluster_id : Z)
    (items : list (gmap string value)) :
  let candidates := collect_candidates rt items in
  let r := _select_cluster_links rt cluster_id items in
  (forall u, u ∈ evidence_links r ->
     exists k, k ∈ filtered candidates /\ url k = u)
  /\ (if has_non_arxiv candidates
      then Forall (fun k => domain k <> "arxiv.org") (filtered candidates)
      else filtered candidates = candidates
           /\ Forall (fun k => domain k = "arxiv.org") candidates).
Proof.
  intros candidates r. subst r. split.
  - intros u Hu.
    destruct (decide (collect_candidates rt items = [])) as [Hc | Hne].
    + destruct (select_empty cluster_id items Hc) as [_ He].
      rewrite He in Hu. now apply elem_of_nil in Hu.
    + destruct (select_nonempty rt cluster_id items Hne) as [_ He].
      rewrite He in Hu.
      destruct (select_evidence_spec
                  (ordered rt cluster_id (collect_candidates rt items)))
        as [_ [_ [Hin _]]].
      apply Hin, list_elem_of_In, in_map_iff in Hu as [c [<- Hc]].
      apply list_elem_of_In, ordered_elem in Hc as [k [Hk ->]].
      exists k. now split.
  - rewrite <- has_non_arxiv_filter. unfold filtered, non_arxiv.
    destruct (List.filter _ candidates) as [|c l] eqn:Hf.
    + split; [reflexivity|]. apply filter_nil_all in Hf.
      eapply Forall_impl; [exact Hf|]. intros k Hk. simpl in Hk.
      apply negb_false_iff in Hk. now apply String.eqb_eq.
    + rewrite <- Hf. apply Forall_forall. intros k Hk.
      apply list_elem_of_In, filter_In in Hk as [_ Hk].
      apply negb_true_iff in Hk. now apply String.eqb_neq.
Qed.

Lemma ordered_urls (cid : Z) (candidates : list Candidate) :
  map url (ordered rt cid candidates) ≡ₚ map url (filtered candidates).
Proof. rewrite ordered_perm, map_map. simpl. reflexivity. Qed.

(** X4. The number of evidence links is the number of distinct URLs kept
    after the exclusion, up to three: the second loop fills up to three
    whatever the domains, and the cut at five never applies. *)
Theorem evidence_links_count (cluster_id : Z)
    (items : list (gmap string value)) :
  length (evidence_links (_select_cluster_links rt cluster_id items))
  = Nat.min 3 (length (remove_dups
                         (map url (filtered (collect_candidates rt items))))).
Proof.
  destruct (decide (collect_candidates rt items = [])) as [Hc | Hne].
  - destruct (select_empty cluster_id items Hc) as [_ ->]. now rewrite Hc.
  - destruct (select_nonempty rt cluster_id items Hne) as [_ ->].
    set (ord := ordered rt cluster_id (collect_candidates rt items)).
    set (D := remove_dups (map url (filtered (collect_candidates rt items)))).
    destruct (select_evidence_spec ord) as [Hnd [Hlen [Hin [Hall _]]]].
    set (E := _select_evidence_links ord 3 5) in *.
    assert (HED : E ⊆ D).
    { intros u Hu. unfold D. rewrite elem_of_remove_dups. apply list_elem_of_In.
      apply (Permutation_in _ (ordered_urls cluster_id _)).
      apply list_elem_of_In. now apply Hin. }
    pose proof (submseteq_length _ _ (NoDup_submseteq _ _ Hnd HED)) as Hle.
    destruct (decide (length E < 3)%nat) as [Hshort | Hfull]; [|lia].
    assert (HDE : D ⊆ E).
    { intros u Hu. unfold D in Hu. rewrite elem_of_remove_dups in Hu.
      apply list_elem_of_In in Hu.
      apply (Permutation_in _ (Permutation_sym (ordered_urls cluster_id _)))
        in Hu.
      apply in_map_iff in Hu as [c [<- Hc]].
      apply Hall; [exact Hshort | now apply list_elem_of_In]. }
    pose proof (submseteq_length _ _
                  (NoDup_submseteq _ _ (NoDup_remove_dups _) HDE)) as Hge.
    fold D in Hge. lia.
Qed.

Lemma lists_disjoint (l1 l2 : list string) (d : string) :
  forallb (fun x => negb (mem x l2)) l1 = true ->
  mem d l1 = true -> mem d l2 = false.
Proof.
  intros Hdis Hd. apply mem_elem_of, list_elem_of_In in Hd.
  rewrite forallb_forall in Hdis. specialize (Hdis d Hd).
  now apply negb_true_iff in Hdis.
Qed.

(** X5. The tier of a domain is 4 exactly for the official domains, 3
    exactly for the code and paper hosts, 2 exactly for the authority
    domains and 1 for every other domain, the community domains
    included: the lists do not overlap, and only an exact match of the
    whole domain counts. *)
Theorem link_priority_tiers (d : string) :
  (_link_priority d = 4 <-> d ∈ OFFICIAL_DOMAINS)
  /\ (_link_priority d = 3 <-> d ∈ CODE_DOMAINS \/ d ∈ PAPER_DOMAINS)
  /\ (_link_priority d = 2 <-> d ∈ AUTHORITY_DOMAINS)
  /\ (_link_priority d = 1
      <-> (d ∉ OFFICIAL_DOMAINS) /\ (d ∉ CODE_DOMAINS)
          /\ (d ∉ PAPER_DOMAINS) /\ (d ∉ AUTHORITY_DOMAINS))
  /\ 1 <= _link_priority d <= 4.
Proof.
  rewrite <- !mem_elem_of. unfold _link_priority.
  destruct (mem d OFFICIAL_DOMAINS) eqn:Ho.
  { rewrite (lists_disjoint OFFICIAL_DOMAINS CODE_DOMAINS d eq_refl Ho),
      (lists_disjoint OFFICIAL_DOMAINS PAPER_DOMAINS d eq_refl Ho),
      (lists_disjoint OFFICIAL_DOMAINS AUTHORITY_DOMAINS d eq_refl Ho).
    repeat split; try discriminate; try lia; intuition discriminate. }
  destruct (mem d CODE_DOMAINS) eqn:Hc.
  { rewrite (lists_disjoint CODE_DOMAINS AUTHORITY_DOMAINS d eq_refl Hc).
    cbn [orb]. repeat split; try discriminate; try lia; intuition discriminate. }
  destruct (mem d PAPER_DOMAINS) eqn:Hp.
  { rewrite (lists_disjoint PAPER_DOMAINS AUTHORITY_DOMAINS d eq_refl Hp).
    cbn [orb]. repeat split; try discriminate; try lia; intuition discriminate. }
  cbn [orb]. destruct (mem d AUTHORITY_DOMAINS) eqn:Ha.
  { repeat split; try discriminate; try lia; intuition discriminate. }
  destruct (mem d COMMUNITY_DOMAINS);
    repeat split; try discriminate; try lia; intuition discriminate.
Qed.

Lemma collect_candidates_hosted (items1 items2 : list (gmap string value)) :
  Forall (fun item =>
            str_strip rt (get_or_empty item "url") = EmptyString
            \/ _get_domain rt (str_strip rt (get_or_empty item "url"))
               <> EmptyString) items1 ->
  map (fun item : gmap string value => item !! "url") items1
  = map (fun item : gmap string value => item !! "url") items2 ->
  collect_candidates rt items1 = collect_candidates rt items2.
Proof.
  revert items2. induction items1 as [|i1 items1 IH]; intros [|i2 items2] Hh H;
    try discriminate; [reflexivity|].
  simpl in H. injection H as Hu H.
  apply Forall_cons in Hh as [Hi Hh]. simpl. unfold get_or_empty in *.
  rewrite <- Hu, (IH items2 Hh H).
  destruct Hi as [-> | Hi]; [reflexivity|].
  destruct (String.eqb_spec (_get_domain rt (str_strip rt
              match i1 !! "url" with Some (Str s) => s | _ => EmptyString end))
              EmptyString) as [He | _]; [contradiction | reflexivity].
Qed.

(** X6. The [domain] field of an item is a fallback only: when every
    usable URL has a host, two item lists with the same URLs give the same
    links, whatever their [domain] fields hold. *)
Theorem domain_field_is_fallback (cluster_id : Z)
    (items1 items2 : list (gmap string value)) :
  Forall (fun item =>
            str_strip rt (get_or_empty item "url") = EmptyString
            \/ _get_domain rt (str_strip rt (get_or_empty item "url"))
               <> EmptyString) items1 ->
  map (fun item : gmap string value => item !! "url") items1
  = map (fun item : gmap string value => item !! "url") items2 ->
  _select_cluster_links rt cluster_id items1
  = _select_cluster_links rt cluster_id items2.
Proof.
  intros Hh H. unfold _select_cluster_links.
  now rewrite (collect_candidates_hosted _ _ Hh H).
Qed.

(** The shape of what the selector returns, as its callers use it. *)
Lemma select_links_shape (cid : Z) (items : list (gmap string value)) :
  NoDup (evidence_links (_select_cluster_links rt cid items))
  /\ (length (evidence_links (_select_cluster_links rt cid items)) <= 3)%nat
  /\ (primary_link (_select_cluster_links rt cid items) = EmptyString
      /\ evidence_links (_select_cluster_links rt cid items) = []
      \/ primary_link (_select_cluster_links rt cid items) <> EmptyString
         /\ exists rest,
              evidence_links (_select_cluster_links rt cid items)
              = primary_link (_select_cluster_links rt cid items) :: rest)
  /\ (forall u,
        u = primary_link (_select_cluster_links rt cid items)
        /\ u <> EmptyString
        \/ u ∈ evidence_links (_select_cluster_links rt cid items) ->
        exists item, item ∈ items
                     /\ u = str_strip rt (get_or_empty item "url")).
Proof.
  destruct (decide (collect_candidates rt items = [])) as [Hc | Hne].
  - destruct (select_empty cid items Hc) as [-> ->].
    split; [constructor|]. split; [cbn; lia|]. split; [now left|].
    intros u [[-> Hu] | Hu]; [contradiction | inversion Hu].
  - destruct (select_nonempty rt cid items Hne) as [Hp He].
    pose proof (ordered_nonempty rt cid _ Hne) as Hord.
    destruct (select_evidence_spec
                (ordered rt cid (collect_candidates rt items)))
      as [Hnd [Hlen [Hsub [_ Hhead]]]].
    rewrite <- He in Hnd, Hlen, Hsub, Hhead.
    assert (Hfrom : forall u,
              u ∈ map url (ordered rt cid (collect_candidates rt items)) ->
              u <> EmptyString
              /\ exists item, item ∈ items
                   /\ u = str_strip rt (get_or_empty item "url")).
    { intros u Hu. apply list_elem_of_In, in_map_iff in Hu as [c [Hcu Hin]].
      apply list_elem_of_In, ordered_elem in Hin as [k [Hk Hck]].
      apply filtered_elem in Hk.
      pose proof (proj1 (Forall_forall _ _) (candidates_usable items) k Hk)
        as [Hu [_ [item [Hitem Hurl]]]].
      assert (E : u = url k) by (rewrite <- Hcu, Hck; reflexivity).
      rewrite E. split; [exact Hu | eauto]. }
    destruct (ordered rt cid (collect_candidates rt items))
      as [|p more] eqn:Hordeq; [contradiction|].
    cbn [head fmap option_fmap option_map] in Hhead.
    destruct (evidence_links (_select_cluster_links rt cid items))
      as [|e rest] eqn:Hev; [discriminate|].
    injection Hhead as ->.
    assert (Hpu : url p <> EmptyString).
    { apply Hfrom. cbn [map]. apply list_elem_of_here. }
    split; [exact Hnd|]. split; [exact Hlen|]. rewrite Hp. split.
    + right. split; [exact Hpu|]. now exists rest.
    + intros u [[-> _] | Hu].
      * apply Hfrom. cbn [map]. apply list_elem_of_here.
      * now apply Hfrom, Hsub.
Qed.

End LinkSelectorMore.

(** ** More on the value scorer *)

Section SignalScorerMore.
Import Py News Figures.
Context (rt : Runtime).

Lemma string_app_assoc (a b c : string) :
  ((a ++ b) ++ c)%string = (a ++ b ++ c)%string.
Proof.
  induction a as [|x a IH]; [reflexivity|].
  rewrite !append_cons. now rewrite IH.
Qed.

Lemma contains_trans (k s t : string) :
  contains k s = true -> contains s t = true -> contains k t = true.
Proof.
  rewrite !contains_app. intros [a [b ->]] [a' [b' ->]].
  exists (a' ++ a)%string, (b ++ b')%string.
  now rewrite !string_app_assoc.
Qed.

Lemma fires_mono (n1 n2 : string) (keywords : list string) :
  contains n1 n2 = true ->
  fires n1 keywords = true -> fires n2 keywords = true.
Proof.
  intros Hc. unfold fires. rewrite !existsb_exists.
  intros [k [Hk Hkn]]. exists k. split; [exact Hk|].
  now apply contains_trans with n1.
Qed.

Lemma weight_sum_shift (s : Q) (l : list (string * (Q * list string))) :
  (foldl (fun acc e => (acc + e.2.1)%Q) s l
   == s + foldl (fun acc e => (acc + e.2.1)%Q) 0%Q l)%Q.
Proof.
  revert s. induction l as [|e l IH]; intros s; cbn [foldl].
  - Lqa.lra.
  - rewrite (IH (s + e.2.1)%Q), (IH (0 + e.2.1)%Q). Lqa.lra.
Qed.

Lemma weight_sum_cons (e : string * (Q * list string)) l :
  (foldl (fun acc e => (acc + e.2.1)%Q) 0%Q (e :: l)
   == e.2.1 + foldl (fun acc e => (acc + e.2.1)%Q) 0%Q l)%Q.
Proof. cbn [foldl]. rewrite weight_sum_shift. Lqa.lra. Qed.

(** Over a table of positive weights, a selection that fires less often
    sums to less, and a selection sums to zero only when it is empty. *)
Lemma weight_sum_mono (f g : string * (Q * list string) -> bool) l :
  Forall (fun e => (0 < e.2.1)%Q) l ->
  (forall e, f e = true -> g e = true) ->
  (0 <= foldl (fun acc e => (acc + e.2.1)%Q) 0%Q (List.filter f l)
   /\ foldl (fun acc e => (acc + e.2.1)%Q) 0%Q (List.filter f l)
      <= foldl (fun acc e => (acc + e.2.1)%Q) 0%Q (List.filter g l))%Q.
Proof.
  intros Hpos Hfg. induction Hpos as [|e l He Hl IH]; simpl.
  - split; Lqa.lra.
  - destruct IH as [IH0 IH1].
    destruct (f e) eqn:Ef.
    + rewrite (Hfg e Ef), !weight_sum_cons. split; Lqa.lra.
    + destruct (g e); [rewrite weight_sum_cons|]; split; Lqa.lra.
Qed.

Lemma weight_sum_zero (f : string * (Q * list string) -> bool) l :
  Forall (fun e => (0 < e.2.1)%Q) l ->
  (foldl (fun acc e => (acc + e.2.1)%Q) 0%Q (List.filter f l) == 0)%Q ->
  List.filter f l = [].
Proof.
  intros Hpos. induction Hpos as [|e l He Hl IH]; simpl; [reflexivity|].
  destruct (f e); [|exact IH].
  rewrite weight_sum_cons. intros H. exfalso.
  destruct (weight_sum_mono f f l Hl (fun _ H => H)) as [H0 _]. Lqa.lra.
Qed.

Lemma table_weights_positive :
  Forall (fun e => (0 < e.2.1)%Q) VALUE_SIGNALS.
Proof. repeat constructor. Qed.

(** X7. The value score lies between 0 and 15.5, the sum of the six
    weights of the table, and it is 0 exactly when no signal is
    reported. *)
Theorem value_score_bounds (text : string) :
  (0 <= _value_score rt text)%Q
  /\ (_value_score rt text <= 15.5)%Q
  /\ ((_value_score rt text == 0)%Q <-> _value_signals rt text = []).
Proof.
  unfold _value_score, _value_signals.
  set (normalized := _normalize_text rt text).
  rewrite score_fold, signals_fold, app_nil_l.
  destruct (weight_sum_mono (fires_entry normalized) (fun _ => true)
              VALUE_SIGNALS table_weights_positive (fun _ _ => eq_refl))
    as [H0 H1].
  split; [exact H0|]. split.
  - eapply Qle_trans; [exact H1|]. vm_compute. discriminate.
  - split.
    + intros H. now rewrite (weight_sum_zero _ _ table_weights_positive H).
    + intros H. apply map_eq_nil in H. rewrite H. reflexivity.
Qed.

(** X8. A text whose normalised form occurs inside the normalised form
    of another reports no signal that the other does not report, and
    scores no more. *)
Theorem value_score_monotone (t1 t2 : string) :
  contains (_normalize_text rt t1) (_normalize_text rt t2) = true ->
  (forall key, key ∈ _value_signals rt t1 -> key ∈ _value_signals rt t2)
  /\ (_value_score rt t1 <= _value_score rt t2)%Q.
Proof.
  intros Hc. unfold _value_score, _value_signals.
  rewrite !score_fold, !signals_fold, !app_nil_l.
  assert (Hfg : forall e, fires_entry (_normalize_text rt t1) e = true ->
                          fires_entry (_normalize_text rt t2) e = true).
  { intros e. unfold fires_entry. now apply fires_mono. }
  split.
  - intros key. rewrite !list_elem_of_In, !in_map_iff.
    intros [e [He Hin]]. exists e. split; [exact He|].
    apply filter_In in Hin as [Hin Hf]. apply filter_In. auto.
  - apply (weight_sum_mono _ _ _ table_weights_positive Hfg).
Qed.

End SignalScorerMore.

(** ** More on freshness *)

Section FreshnessMore.
Import Py News Figures.

Lemma hours_between_antitone (now t : Z) (later : nat) :
  (hours_between now t <= hours_between (now + Z.of_nat later) t)%Q.
Proof.
  unfold hours_between.
  assert (H : (inject_Z (now - t) <= inject_Z (now + Z.of_nat later - t))%Q)
    by (rewrite <- Zle_Qle; lia).
  set (x := inject_Z (now - t)) in *.
  set (y := inject_Z (now + Z.of_nat later - t)) in *.
  assert (Ex : (x / 1000000 / 3600 == x * (1 / 3600000000))%Q) by field.
  assert (Ey : (y / 1000000 / 3600 == y * (1 / 3600000000))%Q) by field.
  rewrite Ex, Ey. apply Qmult_le_compat_r; [exact H | discriminate].
Qed.

Lemma hours_between_ahead (now : Z) (ahead : nat) :
  (hours_between now (now + Z.of_nat ahead) <= 0)%Q.
Proof.
  unfold hours_between.
  assert (H : (inject_Z (now - (now + Z.of_nat ahead)) <= 0)%Q).
  { change 0%Q with (inject_Z 0). rewrite <- Zle_Qle. lia. }
  set (x := inject_Z _) in *.
  assert (E : (x / 1000000 / 3600 == x * (1 / 3600000000))%Q) by field.
  rewrite E. rewrite <- (Qmult_0_l (1 / 3600000000)).
  apply Qmult_le_compat_r; [exact H | discriminate].
Qed.

Lemma freshness_of_hours (w : Z) (h : Q) :
  0 < w -> (0 <= h)%Q ->
  (0 <= Qmax 0 ((inject_Z w - h) / inject_Z w) <= 1)%Q.
Proof.
  intros Hw Hh.
  assert (Hwq : (0 < inject_Z w)%Q).
  { change 0%Q with (inject_Z 0). rewrite <- Zlt_Qlt. lia. }
  split; [apply Q.le_max_l|].
  apply Q.max_lub; [discriminate|].
  apply Qle_shift_div_r; [exact Hwq|]. Lqa.lra.
Qed.

(** X9. Over the window that the scorer uses, the freshness score lies
    in the interval from 0 to 1; it is 1 for a cluster last seen at or
    after the clock reading and for one with neither timestamp; the
    creation time stands in for a missing [last_seen_at]; and the score
    of a cluster never grows as the clock advances. *)
Theorem freshness_unit_interval (hours now t : Z) (last created : option Z)
    (ahead later : nat) :
  (0 <= freshness (_window_hours hours) now last created <= 1)%Q
  /\ (freshness (_window_hours hours) now (Some (now + Z.of_nat ahead)%Z) created
      == 1)%Q
  /\ (freshness (_window_hours hours) now None None == 1)%Q
  /\ freshness (_window_hours hours) now None (Some t)
     = freshness (_window_hours hours) now (Some t) None
  /\ (freshness (_window_hours hours) (now + Z.of_nat later) (Some t) created
      <= freshness (_window_hours hours) now (Some t) created)%Q.
Proof.
  pose proof (window_hours_ge_6 hours) as Hw.
  set (w := _window_hours hours) in *.
  assert (Hwq : (0 < inject_Z w)%Q).
  { change 0%Q with (inject_Z 0). rewrite <- Zlt_Qlt. lia. }
  assert (Hone : forall h, (h <= 0)%Q ->
            (Qmax 0 ((inject_Z w - Qmax 0 h) / inject_Z w) == 1)%Q).
  { intros h Hh. rewrite (Q.max_l 0 h) by exact Hh.
    assert (E1 : ((inject_Z w - 0) / inject_Z w == 1)%Q) by (field; Lqa.lra).
    rewrite E1. apply Q.max_r. discriminate. }
  split; [|split; [|split; [|split]]].
  - unfold freshness. apply freshness_of_hours; [lia|].
    unfold hours_since. apply Q.le_max_l.
  - rewrite freshness_some. unfold hours_since.
    apply Hone, hours_between_ahead.
  - unfold freshness, hours_since. cbn [coalesce].
    apply Hone. rewrite <- (Z.add_0_r now) at 2.
    apply (hours_between_ahead now 0).
  - reflexivity.
  - rewrite !freshness_some. unfold hours_since.
    apply Q.max_le_compat_l.
    pose proof (hours_between_antitone now t later) as Hm.
    assert (Hmm : (Qmax 0 (hours_between now t)
                   <= Qmax 0 (hours_between (now + Z.of_nat later) t))%Q)
      by (apply Q.max_le_compat_l; exact Hm).
    unfold Qdiv. apply Qmult_le_compat_r; [Lqa.lra|].
    apply Qinv_le_0_compat. Lqa.lra.
Qed.

End FreshnessMore.

(** ** More on the cluster scorer *)

Section ClusterScorerMore.
Import Py News Figures.
Context (rt : Runtime).

Lemma inject_Z_len_cons {A} (x : A) (l : list A) :
  (inject_Z (len (x :: l)) == inject_Z (len l) + 1)%Q.
Proof.
  unfold len. cbn [length]. rewrite Nat2Z.inj_succ, <- Z.add_1_r.
  now rewrite inject_Z_plus.
Qed.

(** The score computed from the grouped counts is the sum of the
    weights of the labels. *)
Lemma feedback_score_sum (labels : list string) :
  (feedback_score_of (group_count labels)
   == inject_Z (sum_Z (map feedback_weight labels)))%Q.
Proof.
  unfold feedback_score_of. rewrite !group_count_lookup.
  induction labels as [|l labels IH]; [reflexivity|].
  cbn [map sum_Z foldr List.filter]. fold (sum_Z (map feedback_weight labels)).
  rewrite inject_Z_plus, <- IH. unfold feedback_weight.
  destruct (String.eqb_spec l "useful") as [-> | H1].
  { cbn [String.eqb Ascii.eqb Bool.eqb]. rewrite inject_Z_len_cons.
    change (inject_Z 2) with 2%Q. Lqa.lra. }
  destruct (String.eqb_spec l "useless") as [-> | H2].
  { cbn [String.eqb Ascii.eqb Bool.eqb]. rewrite inject_Z_len_cons.
    change (inject_Z (-2)) with (-2)%Q. Lqa.lra. }
  destruct (String.eqb_spec l "skip") as [-> | H3].
  { cbn [String.eqb Ascii.eqb Bool.eqb]. rewrite inject_Z_len_cons.
    change (inject_Z (-5)) with (-5)%Q. Lqa.lra. }
  change (inject_Z 0) with 0%Q. Lqa.lra.
Qed.

Lemma sum_filter_weights (p : FeedbackRow -> bool) (fb : list FeedbackRow) :
  sum_Z (map feedback_weight (map f_label (List.filter p fb)))
  = sum_Z (map (fun r => if p r then feedback_weight (f_label r) else 0) fb).
Proof.
  induction fb as [|r fb IH]; [reflexivity|].
  cbn [List.filter map]. destruct (p r); cbn [map sum_Z foldr];
    fold (sum_Z (map feedback_weight (map f_label (List.filter p fb))));
    fold (sum_Z (map (fun r => if p r then feedback_weight (f_label r) else 0) fb));
    rewrite IH; reflexivity.
Qed.

(** X10. The feedback score of a cluster is additive over the feedback
    table: every row of kind [news] for the cluster from the trailing
    30 days adds 2 when labelled [useful], -2 when [useless], -5 when
    [skip] and nothing under any other label, and every other row adds
    nothing. *)
Theorem feedback_score_additive (db : DB) (db_now now w cid : Z)
    (created last : option Z) (rows : list ItemRow) :
  Qeq (m_feedback_score
         (score_cluster rt db db_now now w cid created last rows).2)
      (inject_Z
         (sum_Z (map (fun r => if feedback_counted_row "news" db_now cid r
                               then feedback_weight (f_label r) else 0)
                     (user_feedback db)))).
Proof.
  unfold score_cluster. cbn [snd m_feedback_score].
  rewrite feedback_score_sum. unfold feedback_rows.
  now rewrite sum_filter_weights.
Qed.

Lemma filter_length_all {A} (p : A -> bool) (l : list A) :
  length (List.filter p l) = length l <-> forall x, x ∈ l -> p x = true.
Proof.
  induction l as [|x l IH]; simpl.
  - split; [intros _ y Hy; inversion Hy | reflexivity].
  - pose proof (filter_length_le p l) as Hle.
    destruct (p x) eqn:Hp; simpl.
    + split.
      * intros H y Hy. apply elem_of_cons in Hy as [-> | Hy]; [exact Hp|].
        apply IH; [lia | exact Hy].
      * intros H. f_equal. apply IH. intros y Hy. apply H. now right.
    + split; [lia|]. intros H. rewrite H in Hp; [discriminate | now left].
Qed.

Lemma filter_length_pos {A} (p : A -> bool) (l : list A) :
  (0 < length (List.filter p l))%nat <-> exists x, x ∈ l /\ p x = true.
Proof.
  split.
  - intros H. destruct (List.filter p l) as [|x l'] eqn:E; [simpl in H; lia|].
    assert (Hin : In x (List.filter p l)) by (rewrite E; now left).
    apply filter_In in Hin as [Hin Hp]. exists x.
    split; [now apply list_elem_of_In | exact Hp].
  - intros [x [Hx Hp]].
    assert (Hin : In x (List.filter p l))
      by (apply filter_In; split; [now apply list_elem_of_In | exact Hp]).
    destruct (List.filter p l); [destruct Hin | simpl; lia].
Qed.

Lemma filter_length_lt {A} (p : A -> bool) (l : list A) :
  (length (List.filter p l) < length l)%nat ->
  exists x, x ∈ l /\ p x = false.
Proof.
  induction l as [|x l IH]; simpl; [lia|].
  destruct (p x) eqn:Hp; simpl.
  - intros H. destruct IH as [y [Hy Hpy]]; [lia|].
    exists y. split; [now right | exact Hpy].
  - intros _. exists x. split; [now left | exact Hp].
Qed.

(** X11. The source quality stored with a cluster is [official] when
    the cluster has a source and every one of its sources is an official
    domain, [mixed] when some source is official and some is not, and
    [community] when no source is official. *)
Theorem source_quality_cases (db : DB) (db_now now w cid : Z)
    (created last : option Z) (rows : list ItemRow) :
  let quality :=
    m_source_quality
      (score_cluster rt db db_now now w cid created last rows).2 in
  let official s := mem s OFFICIAL_DOMAINS in
  (quality = "official"
   <-> (exists s, s ∈ sources_of rows)
       /\ forall s, s ∈ sources_of rows -> official s = true)
  /\ (quality = "mixed"
      <-> (exists s, s ∈ sources_of rows /\ official s = true)
          /\ exists s, s ∈ sources_of rows /\ official s = false)
  /\ (quality = "community"
      <-> forall s, s ∈ sources_of rows -> official s = false).
Proof.
  cbv zeta. unfold score_cluster. cbn [snd m_source_quality].
  set (S := sources_of rows). unfold len, size, set_size. cbn [compose].
  set (p := fun s => mem s OFFICIAL_DOMAINS).
  pose proof (filter_length_le p (elements S)) as Hle.
  pose proof (filter_length_all p (elements S)) as Hall.
  pose proof (filter_length_pos p (elements S)) as Hpos.
  assert (He : forall s, s ∈ elements S <-> s ∈ S) by (intros s; apply elem_of_elements).
  assert (Hnone : length (List.filter p (elements S)) = 0%nat
                  <-> forall s, s ∈ S -> p s = false).
  { split.
    - intros H0 s Hs. destruct (p s) eqn:Hp; [|reflexivity].
      exfalso. assert (0 < length (List.filter p (elements S)))%nat; [|lia].
      apply Hpos. exists s. split; [now apply He | exact Hp].
    - intros H. destruct (Nat.eq_dec (length (List.filter p (elements S))) 0%nat)
        as [E | E]; [exact E|].
      exfalso. assert (Hp : (0 < length (List.filter p (elements S)))%nat) by lia.
      apply Hpos in Hp as [s [Hs Hp]]. rewrite (H s) in Hp; [discriminate|].
      now apply He. }
  destruct (Z.ltb_spec 0 (Z.of_nat (length (List.filter p (elements S)))))
    as [H0 | H0]; cbn [andb].
  - destruct (Z.ltb_spec (Z.of_nat (length (List.filter p (elements S))))
                (Z.of_nat (length (elements S)))) as [H1 | H1].
    + split; [|split].
      * split; [discriminate|]. intros [_ H]. exfalso.
        assert (length (List.filter p (elements S)) = length (elements S)); [|lia].
        apply Hall. intros x Hx. apply H. now apply He.
      * split; [|reflexivity]. intros _.
        assert (Hp : (0 < length (List.filter p (elements S)))%nat) by lia.
        apply Hpos in Hp as [s [Hs Hp]].
        split; [exists s; split; [now apply He | exact Hp]|].
        assert (Hlt : (length (List.filter p (elements S))
                       < length (elements S))%nat) by lia.
        apply filter_length_lt in Hlt as [s' [Hs' Hp']].
        exists s'. split; [now apply He | exact Hp'].
      * split; [discriminate|]. intros H. exfalso. apply Hnone in H. lia.
    + split; [|split].
      * split; [|reflexivity]. intros _.
        assert (Heq : length (List.filter p (elements S)) = length (elements S)) by lia.
        split.
        -- assert (Hp : (0 < length (List.filter p (elements S)))%nat) by lia.
           apply Hpos in Hp as [s [Hs _]]. exists s. now apply He.
        -- intros s Hs. apply (proj1 Hall Heq). now apply He.
      * split; [discriminate|]. intros [_ [s [Hs Hp]]]. exfalso.
        change (p s = false) in Hp.
        assert (Heq : length (List.filter p (elements S)) = length (elements S)) by lia.
        rewrite (proj1 Hall Heq s) in Hp; [discriminate | now apply He].
      * split; [discriminate|]. intros H. exfalso. apply Hnone in H. lia.
  - assert (Hz : length (List.filter p (elements S)) = 0%nat) by lia.
    split; [|split].
    + split; [discriminate|]. intros [[s Hs] H]. exfalso.
      specialize (H s Hs). change (p s = true) in H.
      rewrite (proj1 Hnone Hz s Hs) in H. discriminate.
    + split; [discriminate|]. intros [[s [Hs Hp]] _]. exfalso.
      change (p s = true) in Hp.
      rewrite (proj1 Hnone Hz s Hs) in Hp. discriminate.
    + split; [|reflexivity]. intros _. now apply Hnone.
Qed.

End ClusterScorerMore.

(** ** The scoring pass as a whole *)

Section ScoringPass.
Import Py News Figures.
Context (rt : Runtime).

Lemma len_zero_nil {A} (l : list A) : (len l =? 0) = true <-> l = [].
Proof.
  unfold len. destruct l; simpl; [now split|].
  split; discriminate.
Qed.

Lemma score_fold_items (db_now w : Z) (clock : nat -> Z)
    (l : list (Z * option Z * option Z)) :
  forall st,
    items (foldl (score_step rt db_now w clock) st l).1 = items st.1
    /\ user_feedback (foldl (score_step rt db_now w clock) st l).1
       = user_feedback st.1.
Proof.
  induction l as [|[[c cr] ls] l IH]; intros [db k]; cbn [foldl]; [now split|].
  destruct (IH (score_step rt db_now w clock (db, k) (c, cr, ls))) as [Hi Hf].
  rewrite Hi, Hf. unfold score_step.
  destruct (len (cluster_items db c) =? 0); [now split|].
  destruct (score_cluster _ _ _ _ _ _ _ _ _). now split.
Qed.

(** A cluster without items is never written. *)
Lemma score_fold_empty (db0 : DB) (db_now w : Z) (clock : nat -> Z)
    (l : list (Z * option Z * option Z)) (cid : Z) :
  cluster_items db0 cid = [] ->
  forall db k,
    items db = items db0 -> user_feedback db = user_feedback db0 ->
    clusters (foldl (score_step rt db_now w clock) (db, k) l).1 !! cid
    = clusters db !! cid.
Proof.
  intros Hempty. induction l as [|[[c cr] ls] l IH]; intros db k Hi Hf;
    cbn [foldl]; [reflexivity|].
  rewrite (score_step_scored rt db0 db) by assumption.
  destruct (Z.eqb_spec (len (cluster_items db0 c)) 0) as [H0 | H0].
  - now apply IH.
  - rewrite IH by assumption. cbn [clusters with_clusters].
    apply lookup_alter_ne. intros ->. apply H0.
    now rewrite Hempty.
Qed.

Lemma select_scored_ids (db_now w : Z) (db : DB) (cid : Z) :
  cid ∈ map (fun x : Z * option Z * option Z => x.1.1)
            (select_scored db_now w db)
  -> exists row, clusters db !! cid = Some row
                 /\ within_hours db_now w (c_last_seen_at row) = true.
Proof.
  unfold select_scored. rewrite map_map. cbn [fst].
  intros H. apply list_elem_of_In, in_map_iff in H as [[c row] [Hc Hin]].
  cbn [fst] in Hc. subst c. apply filter_In in Hin as [Hin Hw].
  exists row. split; [|exact Hw].
  now apply elem_of_map_to_list, list_elem_of_In.
Qed.

(** What the pass leaves in the table for any cluster id, when the clock
    reads [clock j] at the cluster's turn. *)
Lemma score_clusters_lookup (db_now : Z) (clock : nat -> Z) (hours : Z)
    (db : DB) (cid : Z) :
  exists j,
    clusters (score_clusters rt db_now clock hours db) !! cid
    = (fun row =>
         if within_hours db_now (_window_hours hours) (c_last_seen_at row)
            && negb (len (cluster_items db cid) =? 0)
         then scored_row rt db db_now (_window_hours hours) (clock j) cid
                         (c_first_seen_at row) (c_last_seen_at row) row
         else row) <$> clusters db !! cid.
Proof.
  unfold score_clusters. set (w := _window_hours hours).
  pose proof (score_fold_spec rt db db_now w clock (select_scored db_now w db)
                db O eq_refl eq_refl (select_scored_NoDup _ _ _) cid)
    as [Hout Hin].
  destruct (Z.eqb_spec (len (cluster_items db cid)) 0) as [H0 | H0].
  { exists O. rewrite score_fold_empty with (db0 := db);
      [|now apply len_zero_nil, Z.eqb_eq|reflexivity|reflexivity].
    destruct (clusters db !! cid) as [row|]; [|reflexivity].
    cbn [fmap option_fmap option_map]. now rewrite andb_false_r. }
  assert (Hne : cluster_items db cid <> []).
  { intros E. apply H0. now rewrite E. }
  destruct (clusters db !! cid) as [row|] eqn:Hrow.
  - destruct (within_hours db_now w (c_last_seen_at row)) eqn:Hw.
    + destruct (Hin _ _ (select_scored_elem _ _ _ _ _ Hrow Hw) Hne) as [j Hj].
      exists j. rewrite Hj. cbn [fmap option_fmap option_map andb negb].
      now rewrite Hw.
    + exists O. rewrite Hout.
      * cbn [fmap option_fmap option_map]. now rewrite Hw.
      * intros Hc. apply select_scored_ids in Hc as [row' [Hr' Hw']].
        rewrite Hrow in Hr'. injection Hr' as <-. congruence.
  - exists O. rewrite Hout; [reflexivity|].
    intros Hc. apply select_scored_ids in Hc as [row' [Hr' _]]. congruence.
Qed.

(** X12. A scoring pass writes nothing but scores: the items and the
    feedback rows are left as they were, no cluster is added or removed,
    every cluster keeps its title, its timestamps, its kind and its item
    count, and a cluster outside the window or without items keeps its
    whole row, the earlier score included. *)
Theorem score_clusters_frame (db_now : Z) (clock : nat -> Z) (hours : Z)
    (db : DB) (cid : Z) :
  let db' := score_clusters rt db_now clock hours db in
  items db' = items db
  /\ user_feedback db' = user_feedback db
  /\ match clusters db !! cid, clusters db' !! cid with
     | Some r, Some r' =>
         c_title r' = c_title r
         /\ c_first_seen_at r' = c_first_seen_at r
         /\ c_last_seen_at r' = c_last_seen_at r
         /\ c_kind r' = c_kind r
         /\ c_item_count r' = c_item_count r
         /\ (within_hours db_now (_window_hours hours) (c_last_seen_at r) = false
             \/ cluster_items db cid = [] -> r' = r)
     | None, None => True
     | _, _ => False
     end.
Proof.
  cbv zeta. split; [|split].
  - apply (score_fold_items db_now (_window_hours hours) clock _ (db, O)).
  - apply (score_fold_items db_now (_window_hours hours) clock _ (db, O)).
  - destruct (score_clusters_lookup db_now clock hours db cid) as [j ->].
    destruct (clusters db !! cid) as [r|]; cbn [fmap option_fmap option_map]; [|exact I].
    destruct (within_hours _ _ _) eqn:Hw; cbn [andb].
    + destruct (Z.eqb_spec (len (cluster_items db cid)) 0) as [H0 | H0];
        cbn [negb].
      * repeat split; reflexivity.
      * unfold scored_row, set_score. cbn.
        split; [reflexivity|]. split; [reflexivity|]. split; [reflexivity|].
        split; [reflexivity|]. split; [reflexivity|].
        intros [Hf | He]; [discriminate|]. exfalso. apply H0. now rewrite He.
    + repeat split; reflexivity.
Qed.

Lemma set_score_twice (s : Q) (m : Meta) (r : ClusterRow) :
  set_score s m (set_score s m r) = set_score s m r.
Proof. reflexivity. Qed.

(** X13. Scores do not accumulate: a second pass over the same store at
    the same clock reading leaves every row as the first pass wrote
    it. *)
Theorem score_clusters_idempotent (db_now now hours : Z) (db : DB) :
  score_clusters rt db_now (fun _ => now) hours
    (score_clusters rt db_now (fun _ => now) hours db)
  = score_clusters rt db_now (fun _ => now) hours db.
Proof.
  set (db1 := score_clusters rt db_now (fun _ => now) hours db).
  set (db2 := score_clusters rt db_now (fun _ => now) hours db1).
  assert (Hi1 : items db1 = items db)
    by apply (score_fold_items db_now (_window_hours hours) _ _ (db, O)).
  assert (Hf1 : user_feedback db1 = user_feedback db)
    by apply (score_fold_items db_now (_window_hours hours) _ _ (db, O)).
  assert (Hi2 : items db2 = items db1)
    by apply (score_fold_items db_now (_window_hours hours) _ _ (db1, O)).
  assert (Hf2 : user_feedback db2 = user_feedback db1)
    by apply (score_fold_items db_now (_window_hours hours) _ _ (db1, O)).
  assert (Hc : clusters db2 = clusters db1).
  { apply map_eq. intros cid.
    destruct (score_clusters_lookup db_now (fun _ => now) hours db1 cid)
      as [_ H2].
    destruct (score_clusters_lookup db_now (fun _ => now) hours db cid)
      as [_ H1].
    fold db2 in H2. fold db1 in H1, H2. rewrite H2, H1.
    destruct (clusters db !! cid) as [r|]; [|reflexivity].
    cbn [fmap option_fmap option_map]. f_equal.
    assert (Hci : cluster_items db1 cid = cluster_items db cid)
      by (unfold cluster_items; now rewrite Hi1).
    rewrite Hci.
    destruct (within_hours db_now (_window_hours hours) (c_last_seen_at r)
              && negb (len (cluster_items db cid) =? 0)) eqn:Hb.
    - assert (Hs : forall cr ls r0,
                scored_row rt db1 db_now (_window_hours hours) now cid cr ls r0
                = scored_row rt db db_now (_window_hours hours) now cid cr ls r0).
      { intros. unfold scored_row, score_cluster. now rewrite Hci, Hf1. }
      rewrite Hs. unfold scored_row at 1 2 3. cbn [c_last_seen_at c_first_seen_at set_score].
      rewrite Hb. unfold scored_row. apply set_score_twice.
    - now rewrite Hb. }
  destruct db2 as [c2 i2 f2], db1 as [c1 i1 f1]. cbn in *. congruence.
Qed.

End ScoringPass.

(** ** The clustering pass as a whole *)

Section ClusteringPass.
Import Py News Figures.
Context (rt : Runtime).

Lemma find_best_snoc (item : Unclustered) (active : list Active) (c : Active) :
  find_best rt item (active ++ [c])
  = best_step rt item (find_best rt item active) c.
Proof. unfold find_best. now rewrite foldl_app. Qed.

(** X14. The inner loop keeps the first of the most similar active
    clusters: every cluster before the match is strictly less similar to
    the item, none after it is more similar, and the match has a positive
    similarity; there is no match only when no active cluster has a
    positive similarity. *)
Theorem find_best_first (item : Unclustered) (active : list Active) :
  match (find_best rt item active).1 with
  | Some c =>
      exists before after,
        active = before ++ c :: after
        /\ (0 < similarity rt item c)%Q
        /\ (forall c', c' ∈ before ->
              (similarity rt item c' < similarity rt item c)%Q)
        /\ (forall c', c' ∈ after ->
              (similarity rt item c' <= similarity rt item c)%Q)
  | None => forall c, c ∈ active -> (similarity rt item c <= 0)%Q
  end.
Proof.
  induction active as [|x active IH] using rev_ind.
  - cbn. intros c Hc. inversion Hc.
  - rewrite find_best_snoc.
    destruct (find_best_spec rt item active) as [Hall Hbest].
    destruct (find_best rt item active) as [m s]. cbn [fst snd] in *.
    unfold best_step. cbn [snd]. fold (similarity rt item x).
    assert (Hs0 : (0 <= s)%Q).
    { destruct m as [c|]; [|subst s; apply Qle_refl].
      destruct Hbest as [_ [_ H]]. now apply Qlt_le_weak. }
    destruct (Qlt_bool s (similarity rt item x)) eqn:Hlt; cbn [fst].
    + apply Qlt_bool_iff in Hlt. exists active, []. split; [reflexivity|].
      split; [eapply Qle_lt_trans; eassumption|]. split.
      * intros c' Hc'. eapply Qle_lt_trans; [now apply Hall | exact Hlt].
      * intros c' Hc'. inversion Hc'.
    + apply not_true_iff_false in Hlt. rewrite Qlt_bool_iff in Hlt.
      apply Qnot_lt_le in Hlt.
      destruct m as [c|].
      * destruct IH as [before [after [-> [Hpos [Hb Ha]]]]].
        destruct Hbest as [_ [Hsim _]].
        exists before, (after ++ [x]).
        split; [now rewrite <- app_assoc|]. split; [exact Hpos|].
        split; [exact Hb|].
        intros c' Hc'. apply elem_of_app in Hc' as [Hc' | Hc'];
          [now apply Ha|].
        apply list_elem_of_singleton in Hc'. subst c'. now rewrite Hsim.
      * subst s. intros c Hc. apply elem_of_app in Hc as [Hc | Hc];
          [now apply IH|].
        apply list_elem_of_singleton in Hc. now subst c.
Qed.

Lemma same_item_refl (r : ItemRow) : same_item r r.
Proof. repeat split. Qed.

Lemma same_item_set (cid : Z) (r r' : ItemRow) :
  same_item r r' -> same_item r (set_cluster_id cid r').
Proof. intros H. exact H. Qed.

Lemma same_item_trans (r1 r2 r3 : ItemRow) :
  same_item r1 r2 -> same_item r2 r3 -> same_item r1 r3.
Proof.
  unfold same_item. intros H1 H2.
  destruct H1 as (?&?&?&?&?&?&?), H2 as (?&?&?&?&?&?&?).
  repeat split; congruence.
Qed.

Lemma same_cluster_refl (r : ClusterRow) : same_cluster r r.
Proof. repeat split. Qed.

Lemma same_cluster_trans (r1 r2 r3 : ClusterRow) :
  same_cluster r1 r2 -> same_cluster r2 r3 -> same_cluster r1 r3.
Proof.
  unfold same_cluster. intros H1 H2.
  destruct H1 as (?&?&?&?&?), H2 as (?&?&?&?&?).
  repeat split; congruence.
Qed.

Lemma seen_le_refl (a : option Z) : seen_le a a.
Proof. intros m ->. exists m. split; [reflexivity | lia]. Qed.

Lemma seen_le_trans (a b c : option Z) :
  seen_le a b -> seen_le b c -> seen_le a c.
Proof.
  intros H1 H2 m Hm. destruct (H1 m Hm) as [m1 [Hb Hle1]].
  destruct (H2 m1 Hb) as [m2 [Hc Hle2]]. exists m2. split; [exact Hc | lia].
Qed.

Lemma seen_le_greatest (a : option Z) (p : Z) : seen_le a (greatest a p).
Proof. intros m ->. exists (Z.max m p). split; [reflexivity | lia]. Qed.

Lemma greatest_ge (a : option Z) (p : Z) :
  exists m, greatest a p = Some m /\ p <= m.
Proof.
  destruct a as [x|]; [exists (Z.max x p) | exists p];
    (split; [reflexivity | lia]).
Qed.

Lemma clusters_kept_refl (db : DB) : clusters_kept db db.
Proof.
  intros cid r Hr. exists r. split; [exact Hr|].
  split; [apply same_cluster_refl|]. split; [reflexivity | apply seen_le_refl].
Qed.

Lemma clusters_kept_trans (db1 db2 db3 : DB) :
  clusters_kept db1 db2 -> clusters_kept db2 db3 -> clusters_kept db1 db3.
Proof.
  intros H1 H2 cid r Hr.
  destruct (H1 cid r Hr) as [r2 [Hr2 [Hs2 [Hc2 Hl2]]]].
  destruct (H2 cid r2 Hr2) as [r3 [Hr3 [Hs3 [Hc3 Hl3]]]].
  exists r3. split; [exact Hr3|].
  split; [eapply same_cluster_trans; eassumption|].
  split; [congruence | eapply seen_le_trans; eassumption].
Qed.

(** One turn of the loop over the items, on a store that holds every
    active cluster. *)
Lemma assign_item_step (thr : Q) (db : DB) (active : list Active)
    (item : Unclustered) :
  active_known db active ->
  active_known (assign_item rt thr (db, active) item).1
               (assign_item rt thr (db, active) item).2
  /\ user_feedback (assign_item rt thr (db, active) item).1 = user_feedback db
  /\ clusters_kept db (assign_item rt thr (db, active) item).1
  /\ exists cid row m,
       items (assign_item rt thr (db, active) item).1
       = alter (set_cluster_id cid) (u_id item) (items db)
       /\ clusters (assign_item rt thr (db, active) item).1 !! cid = Some row
       /\ c_last_seen_at row = Some m /\ u_published_at item <= m.
Proof.
  intros Hknown.
  assert (Hcreate :
    active_known (create_cluster (db, active) item).1
                 (create_cluster (db, active) item).2
    /\ user_feedback (create_cluster (db, active) item).1 = user_feedback db
    /\ clusters_kept db (create_cluster (db, active) item).1
    /\ exists cid row m,
         items (create_cluster (db, active) item).1
         = alter (set_cluster_id cid) (u_id item) (items db)
         /\ clusters (create_cluster (db, active) item).1 !! cid = Some row
         /\ c_last_seen_at row = Some m /\ u_published_at item <= m).
  { rewrite create_cluster_spec. unfold active_known, clusters_kept in *.
    cbn [fst snd items clusters user_feedback with_items with_clusters].
    pose proof (new_cluster_id_fresh db) as Hfresh.
    split; [|split; [reflexivity|split]].
    - intros c Hc. apply elem_of_app in Hc as [Hc | Hc].
      + destruct (decide (a_id c = new_cluster_id db)) as [-> | Hne].
        * rewrite lookup_insert_eq. eauto.
        * rewrite lookup_insert_ne by congruence. now apply Hknown.
      + apply list_elem_of_singleton in Hc. subst c. cbn [a_id].
        rewrite lookup_insert_eq. eauto.
    - intros cid r Hr. exists r.
      split; [|split; [apply same_cluster_refl|split;
                         [reflexivity | apply seen_le_refl]]].
      rewrite lookup_insert_ne; [exact Hr|]. intros E. rewrite E in Hfresh.
      congruence.
    - exists (new_cluster_id db), (new_row item), (u_published_at item).
      split; [reflexivity|]. split; [apply lookup_insert_eq|].
      split; [reflexivity | lia]. }
  unfold assign_item.
  destruct (find_best_spec rt item active) as [_ Hbest].
  destruct (find_best rt item active) as [[c|] bs]; [|exact Hcreate].
  destruct (Qle_bool thr bs); [|exact Hcreate].
  cbn [fst] in Hbest. destruct Hbest as [Hc _].
  destruct (Hknown c Hc) as [r0 Hr0]. unfold active_known, clusters_kept in *.
  cbn [fst snd items clusters user_feedback with_items with_clusters].
  split; [|split; [reflexivity|split]].
  - intros c' Hc'.
    destruct (decide (a_id c' = a_id c)) as [-> | Hne].
    + rewrite lookup_alter_eq, Hr0. cbn. eauto.
    + rewrite lookup_alter_ne by congruence. now apply Hknown.
  - intros cid r Hr.
    destruct (decide (cid = a_id c)) as [-> | Hne].
    + rewrite lookup_alter_eq, Hr. cbn. eexists. split; [reflexivity|].
      split; [repeat split|]. split; [reflexivity|].
      apply seen_le_greatest.
    + rewrite lookup_alter_ne by congruence. exists r.
      split; [exact Hr|]. split; [apply same_cluster_refl|].
      split; [reflexivity | apply seen_le_refl].
  - destruct (greatest_ge (c_last_seen_at r0) (u_published_at item))
      as [m [Hm Hle]].
    exists (a_id c), (set_last_seen_at
                        (greatest (c_last_seen_at r0) (u_published_at item)) r0), m.
    split; [reflexivity|]. split; [now rewrite lookup_alter_eq, Hr0|].
    split; [exact Hm | exact Hle].
Qed.

(** The loop over the items. *)
Lemma assign_items_pass (thr : Q) (l : list Unclustered) :
  forall db active,
    active_known db active ->
    user_feedback (foldl (assign_item rt thr) (db, active) l).1 = user_feedback db
    /\ clusters_kept db (foldl (assign_item rt thr) (db, active) l).1
    /\ (forall id,
          match items db !! id,
                items (foldl (assign_item rt thr) (db, active) l).1 !! id with
          | Some r, Some r' => same_item r r'
          | None, None => True
          | _, _ => False
          end)
    /\ (forall id, id ∉ map u_id l ->
          items (foldl (assign_item rt thr) (db, active) l).1 !! id
          = items db !! id)
    /\ (NoDup (map u_id l) ->
        forall u r, u ∈ l -> items db !! u_id u = Some r ->
          exists cid row m,
            items (foldl (assign_item rt thr) (db, active) l).1 !! u_id u
            = Some (set_cluster_id cid r)
            /\ clusters (foldl (assign_item rt thr) (db, active) l).1 !! cid
               = Some row
            /\ c_last_seen_at row = Some m /\ u_published_at u <= m).
Proof.
  induction l as [|item l IH]; intros db active Hknown; cbn [foldl fst].
  - split; [reflexivity|]. split; [apply clusters_kept_refl|].
    split; [|split; [reflexivity|]].
    + intros id. destruct (items db !! id); [apply same_item_refl | exact I].
    + intros _ u r Hu. inversion Hu.
  - destruct (assign_item_step thr db active item Hknown)
      as [Hk1 [Hf1 [Hc1 [cid [row [m [Hi1 [Hrow [Hm Hle]]]]]]]]].
    destruct (assign_item rt thr (db, active) item) as [db1 active1].
    cbn [fst snd] in *.
    destruct (IH db1 active1 Hk1) as [Hf [Hc [Hsame [Hout Hin]]]].
    split; [congruence|]. split; [eapply clusters_kept_trans; eassumption|].
    split; [|split].
    + intros id. specialize (Hsame id). rewrite Hi1 in Hsame.
      destruct (decide (id = u_id item)) as [-> | Hne].
      * rewrite lookup_alter_eq in Hsame.
        destruct (items db !! u_id item) as [r|]; cbn in Hsame; [|exact Hsame].
        destruct (items _ !! u_id item) as [r'|]; [|exact Hsame].
        eapply same_item_trans; [|exact Hsame]. apply same_item_set, same_item_refl.
      * rewrite lookup_alter_ne in Hsame by congruence. exact Hsame.
    + intros id Hid. cbn [map] in Hid. apply not_elem_of_cons in Hid as [Hne Hid].
      rewrite (Hout id Hid), Hi1. apply lookup_alter_ne. congruence.
    + intros Hnd u r Hu Hr. cbn [map] in Hnd. apply NoDup_cons in Hnd as [Hfirst Hnd].
      apply elem_of_cons in Hu as [Heq | Hu].
      * subst u. rewrite (Hout (u_id item) Hfirst), Hi1, lookup_alter_eq, Hr.
        destruct (Hc cid row Hrow) as [row' [Hrow' [_ [_ Hseen]]]].
        destruct (Hseen m Hm) as [m' [Hm' Hle']].
        exists cid, row', m'. split; [reflexivity|]. split; [exact Hrow'|].
        split; [exact Hm' | lia].
      * assert (Hne : u_id u <> u_id item).
        { intros E. apply Hfirst. rewrite <- E.
          apply list_elem_of_In, in_map, list_elem_of_In, Hu. }
        apply (Hin Hnd u r Hu). rewrite Hi1.
        rewrite lookup_alter_ne by congruence. exact Hr.
Qed.

Lemma select_unclustered_elem (now w : Z) (db : DB) (u : Unclustered) :
  u ∈ select_unclustered now w db ->
  exists r, items db !! u_id u = Some r /\ item_selected now w r = true
            /\ item_ts r = Some (u_published_at u).
Proof.
  unfold select_unclustered. rewrite sorted_perm, list_elem_of_omap.
  intros [[id r] [Hin Hg]]. apply elem_of_map_to_list in Hin.
  cbn [fst snd] in Hg. exists r. unfold item_selected.
  destruct (i_cluster_id r); [discriminate|].
  destruct (item_ts r) as [ts|]; [|discriminate].
  destruct (now - hours_us w <? ts); [|discriminate].
  injection Hg as <-. cbn. auto.
Qed.

Lemma select_unclustered_selected (now w : Z) (db : DB) (id : Z) (r : ItemRow) :
  items db !! id = Some r -> item_selected now w r = true ->
  exists u, u ∈ select_unclustered now w db /\ u_id u = id.
Proof.
  intros Hr Hs. unfold item_selected in Hs.
  destruct (i_cluster_id r) eqn:Hc; [discriminate|].
  destruct (item_ts r) as [ts|] eqn:Hts; [|discriminate].
  exists {| u_id := id; u_title := i_title r;
            u_source := coalesce (i_domain r) (i_source r);
            u_published_at := ts |}.
  split; [|reflexivity].
  unfold select_unclustered. rewrite sorted_perm. apply list_elem_of_omap.
  exists (id, r). split; [now apply elem_of_map_to_list|].
  cbn [fst snd]. now rewrite Hc, Hts, Hs.
Qed.

Lemma NoDup_omap_fst {A B} (g : Z * A -> option B) (k : B -> Z)
    (l : list (Z * A)) :
  (forall p u, g p = Some u -> k u = p.1) ->
  NoDup (map fst l) -> NoDup (map k (omap g l)).
Proof.
  intros Hg. induction l as [|a l IH]; cbn; intros Hnd; [constructor|].
  apply NoDup_cons in Hnd as [Ha Hnd].
  destruct (g a) as [u|] eqn:Hu; cbn; [|now apply IH].
  apply NoDup_cons. split; [|now apply IH].
  intros Hin. apply Ha.
  apply list_elem_of_In, in_map_iff in Hin as [u' [Hk Hin]].
  apply list_elem_of_In, list_elem_of_omap in Hin as [p [Hp Hgp]].
  apply list_elem_of_In, in_map_iff. exists p.
  split; [|now apply list_elem_of_In].
  rewrite <- (Hg p u' Hgp), Hk. now apply Hg.
Qed.

Lemma select_unclustered_NoDup (now w : Z) (db : DB) :
  NoDup (map u_id (select_unclustered now w db)).
Proof.
  unfold select_unclustered.
  rewrite (Permutation_map u_id (sorted_perm _ _)).
  apply NoDup_omap_fst; [|apply NoDup_fst_map_to_list].
  intros [id r] u. cbn [fst snd].
  destruct (i_cluster_id r); [discriminate|].
  destruct (item_ts r) as [ts|]; [|discriminate].
  destruct (now - hours_us w <? ts); [|discriminate].
  now intros [= <-].
Qed.

Lemma select_active_known (now w : Z) (db : DB) :
  active_known db (select_active now w db).
Proof.
  intros c Hc. unfold select_active in Hc.
  apply list_elem_of_In, in_map_iff in Hc as [[id row] [<- Hin]].
  apply filter_In in Hin as [Hin _].
  apply list_elem_of_In, elem_of_map_to_list in Hin. cbn. eauto.
Qed.

Lemma refresh_lookup (now w : Z) (db : DB) (cid : Z) :
  clusters (refresh_counts now w db) !! cid
  = (fun r => if within_hours now w (c_last_seen_at r)
              then match aggregate db cid with
                   | Some (n, ts) => set_aggregate n ts r
                   | None => r
                   end
              else r) <$> clusters db !! cid.
Proof.
  unfold refresh_counts. cbn [clusters with_clusters].
  rewrite map_lookup_imap. now destruct (clusters db !! cid).
Qed.

Lemma max_ts_ge (members : list ItemRow) (r : ItemRow) (ts : Z) :
  r ∈ members -> item_ts r = Some ts ->
  exists m,
    foldr (fun r acc =>
             match item_ts r, acc with
             | Some t, Some a => Some (Z.max t a)
             | Some t, None => Some t
             | None, _ => acc
             end) None members = Some m
    /\ ts <= m.
Proof.
  intros Hin Hts. induction members as [|a members IH]; [inversion Hin|].
  cbn [foldr]. apply elem_of_cons in Hin as [<- | Hin].
  - rewrite Hts. destruct (foldr _ None members) as [x|];
      eexists; (split; [reflexivity | lia]).
  - destruct (IH Hin) as [m [-> Hle]].
    destruct (item_ts a) as [t|]; eexists; (split; [reflexivity | lia]).
Qed.

Lemma cluster_items_member (db : DB) (cid id : Z) (r : ItemRow) :
  items db !! id = Some r -> i_cluster_id r = Some cid ->
  r ∈ cluster_items db cid.
Proof.
  intros Hr Hc. unfold cluster_items. apply list_elem_of_In, filter_In.
  split; [|now apply bool_decide_eq_true].
  apply in_map_iff. exists (id, r). split; [reflexivity|].
  now apply list_elem_of_In, elem_of_map_to_list.
Qed.

Lemma aggregate_member (db : DB) (cid id : Z) (r : ItemRow) (ts : Z) :
  items db !! id = Some r -> i_cluster_id r = Some cid ->
  item_ts r = Some ts ->
  exists m, aggregate db cid = Some (len (cluster_items db cid), Some m)
            /\ ts <= m /\ 1 <= len (cluster_items db cid).
Proof.
  intros Hr Hc Hts. pose proof (cluster_items_member db cid id r Hr Hc) as Hin.
  unfold aggregate. cbv zeta. fold (cluster_items db cid).
  destruct (max_ts_ge _ _ _ Hin Hts) as [m [Hm Hle]].
  exists m. rewrite Hm.
  destruct (cluster_items db cid) as [|x l]; [inversion Hin|].
  split; [reflexivity|]. split; [exact Hle|]. unfold len. cbn [length]. lia.
Qed.

Lemma cluster_news_eq (now hours : Z) (thr : Q) (db : DB) :
  cluster_news rt now hours thr db
  = refresh_counts now (_window_hours hours)
      (foldl (assign_item rt thr)
             (db, select_active now (_window_hours hours) db)
             (select_unclustered now (_window_hours hours) db)).1.
Proof. unfold cluster_news. cbv zeta. now destruct (foldl _ _ _). Qed.

(** What the pass does to a row of [items]. *)
Lemma cluster_news_item (now hours : Z) (thr : Q) (db : DB) (id : Z) :
  match items db !! id, items (cluster_news rt now hours thr db) !! id with
  | Some r, Some r' =>
      same_item r r'
      /\ (item_selected now (_window_hours hours) r = false -> r' = r)
      /\ (item_selected now (_window_hours hours) r = true ->
          exists cid, r' = set_cluster_id cid r)
  | None, None => True
  | _, _ => False
  end.
Proof.
  rewrite cluster_news_eq. set (w := _window_hours hours).
  destruct (assign_items_pass thr (select_unclustered now w db) db
              (select_active now w db) (select_active_known now w db))
    as [_ [_ [Hsame [Hout Hin]]]].
  set (db1 := (foldl _ _ _).1) in *.
  change (items (refresh_counts now w db1)) with (items db1).
  specialize (Hsame id).
  destruct (items db !! id) as [r|] eqn:Hr; [|exact Hsame].
  destruct (items db1 !! id) as [r'|] eqn:Hr'; [|exact Hsame].
  split; [exact Hsame|]. split.
  - intros Hsel.
    assert (E : items db1 !! id = items db !! id).
    { apply Hout. intros Hi.
      apply list_elem_of_In, in_map_iff in Hi as [u [Hu Hi]].
      apply list_elem_of_In, select_unclustered_elem in Hi
        as [r0 [Hr0 [Hs0 _]]].
      rewrite Hu, Hr in Hr0. injection Hr0 as <-. congruence. }
    congruence.
  - intros Hsel.
    destruct (select_unclustered_selected now w db id r Hr Hsel) as [u [Hu Hid]].
    rewrite <- Hid in Hr.
    destruct (Hin (select_unclustered_NoDup now w db) u r Hu Hr)
      as [cid [_ [_ [Hitem _]]]].
    rewrite Hid, Hr' in Hitem. injection Hitem as ->. now exists cid.
Qed.

(** X15. A clustering pass touches nothing but cluster membership: the
    feedback rows are left alone, no item is added or removed and an
    item keeps every column but [cluster_id], an item that already has a
    cluster or lies outside the window keeps its whole row, and every
    cluster that existed before is still there with its title, its
    [first_seen_at], its score, its kind and its [meta]. *)
Theorem cluster_news_frame (now hours : Z) (thr : Q) (db : DB)
    (id cid : Z) :
  let db' := cluster_news rt now hours thr db in
  user_feedback db' = user_feedback db
  /\ match items db !! id, items db' !! id with
     | Some r, Some r' =>
         same_item r r'
         /\ (item_selected now (_window_hours hours) r = false -> r' = r)
     | None, None => True
     | _, _ => False
     end
  /\ match clusters db !! cid with
     | Some r =>
         exists r', clusters db' !! cid = Some r' /\ same_cluster r r'
     | None => True
     end.
Proof.
  cbv zeta. pose proof (cluster_news_item now hours thr db id) as Hitem.
  rewrite cluster_news_eq in *. set (w := _window_hours hours) in *.
  destruct (assign_items_pass thr (select_unclustered now w db) db
              (select_active now w db) (select_active_known now w db))
    as [Hf [Hc _]].
  set (db1 := (foldl _ _ _).1) in *.
  split; [exact Hf|]. split.
  - destruct (items db !! id) as [r|]; [|exact Hitem].
    destruct (items _ !! id) as [r'|]; [|exact Hitem].
    split; apply Hitem.
  - destruct (clusters db !! cid) as [r|] eqn:Hr; [|exact I].
    destruct (Hc cid r Hr) as [r1 [Hr1 [Hs1 _]]].
    rewrite refresh_lookup, Hr1. cbn. eexists. split; [reflexivity|].
    eapply same_cluster_trans; [exact Hs1|].
    destruct (within_hours now w (c_last_seen_at r1));
      [|apply same_cluster_refl].
    destruct (aggregate db1 cid) as [[n ts]|]; [|apply same_cluster_refl].
    repeat split.
Qed.

(** X16. Every item that the pass selects leaves it with a cluster: the
    item row now names a cluster of the table, that cluster's item count
    is the number of items that name it, which is at least one, and its
    [last_seen_at] is not before the item's timestamp. *)
Theorem cluster_news_assigns (now hours : Z) (thr : Q) (db : DB) (id : Z)
    (r : ItemRow) :
  items db !! id = Some r ->
  item_selected now (_window_hours hours) r = true ->
  exists cid ts row m,
    item_ts r = Some ts
    /\ items (cluster_news rt now hours thr db) !! id
       = Some (set_cluster_id cid r)
    /\ clusters (cluster_news rt now hours thr db) !! cid = Some row
    /\ c_item_count row
       = Some (len (cluster_items (cluster_news rt now hours thr db) cid))
    /\ 1 <= len (cluster_items (cluster_news rt now hours thr db) cid)
    /\ c_last_seen_at row = Some m /\ ts <= m.
Proof.
  intros Hr Hsel. rewrite cluster_news_eq. set (w := _window_hours hours) in *.
  destruct (select_unclustered_selected now w db id r Hr Hsel) as [u [Hu Hid]].
  destruct (select_unclustered_elem now w db u Hu) as [r0 [Hr0 [_ Hts]]].
  rewrite Hid, Hr in Hr0. injection Hr0 as <-.
  destruct (assign_items_pass thr (select_unclustered now w db) db
              (select_active now w db) (select_active_known now w db))
    as [_ [_ [_ [_ Hin]]]].
  rewrite <- Hid in Hr.
  destruct (Hin (select_unclustered_NoDup now w db) u r Hu Hr)
    as [cid [row [m [Hitem [Hrow [Hm Hle]]]]]].
  set (db1 := (foldl _ _ _).1) in *. rewrite Hid in Hitem.
  destruct (aggregate_member db1 cid id (set_cluster_id cid r)
              (u_published_at u) Hitem eq_refl Hts)
    as [m' [Hagg [Hle' Hone]]].
  assert (Hwin : within_hours now w (c_last_seen_at row) = true).
  { rewrite Hm. cbn. unfold item_selected in Hsel.
    destruct (i_cluster_id r); [discriminate|]. rewrite Hts in Hsel.
    apply Z.ltb_lt in Hsel. apply Z.ltb_lt. lia. }
  exists cid, (u_published_at u), (set_aggregate (len (cluster_items db1 cid))
                                     (Some m') row), m'.
  split; [exact Hts|]. split; [exact Hitem|].
  split; [now rewrite refresh_lookup, Hrow; cbn; rewrite Hwin, Hagg|].
  split; [reflexivity|]. split; [exact Hone|]. split; [reflexivity | exact Hle'].
Qed.

Lemma omap_none {A B} (g : A -> option B) (l : list A) :
  (forall x, x ∈ l -> g x = None) -> omap g l = [].
Proof.
  induction l as [|x l IH]; intros H; [reflexivity|]. cbn.
  rewrite (H x) by now left. apply IH. intros y Hy. apply H. now right.
Qed.

Lemma refresh_twice (now w : Z) (db : DB) :
  refresh_counts now w (refresh_counts now w db) = refresh_counts now w db.
Proof.
  assert (Hc : clusters (refresh_counts now w (refresh_counts now w db))
               = clusters (refresh_counts now w db)).
  { apply map_eq. intros cid. rewrite refresh_lookup.
    change (aggregate (refresh_counts now w db) cid) with (aggregate db cid).
    rewrite refresh_lookup.
    destruct (clusters db !! cid) as [r|]; [|reflexivity]. cbn. f_equal.
    destruct (within_hours now w (c_last_seen_at r)) eqn:Hw.
    - destruct (aggregate db cid) as [[n ts]|].
      + cbn [c_last_seen_at set_aggregate].
        destruct (within_hours now w ts); reflexivity.
      + now rewrite Hw.
    - now rewrite Hw. }
  unfold refresh_counts at 1. unfold refresh_counts at 1 in Hc.
  cbn [clusters with_clusters] in Hc. rewrite Hc.
  now destruct (refresh_counts now w db).
Qed.

(** X17. A second pass at the same instant changes nothing: no item is
    left to select, and the counts and timestamps that the first pass
    wrote are the ones the second computes. *)
Theorem cluster_news_idempotent (now hours : Z) (thr : Q) (db : DB) :
  cluster_news rt now hours thr (cluster_news rt now hours thr db)
  = cluster_news rt now hours thr db.
Proof.
  set (w := _window_hours hours).
  assert (Hnone : select_unclustered now w (cluster_news rt now hours thr db)
                  = []).
  { unfold select_unclustered. rewrite omap_none; [reflexivity|].
    intros [id r'] Hin. apply elem_of_map_to_list in Hin. cbn [fst snd].
    pose proof (cluster_news_item now hours thr db id) as Hitem.
    rewrite Hin in Hitem.
    destruct (items db !! id) as [r|]; [|destruct Hitem].
    destruct Hitem as [_ [Hkeep Hset]]. fold w in Hkeep, Hset.
    destruct (item_selected now w r) eqn:Hsel.
    - destruct (Hset eq_refl) as [cid ->]. reflexivity.
    - rewrite (Hkeep eq_refl). unfold item_selected in Hsel.
      destruct (i_cluster_id r); [reflexivity|].
      destruct (item_ts r); [|reflexivity]. now rewrite Hsel. }
  rewrite (cluster_news_eq now hours thr (cluster_news rt now hours thr db)).
  fold w. rewrite Hnone. cbn [foldl fst].
  rewrite (cluster_news_eq now hours thr db). apply refresh_twice.
Qed.

End ClusteringPass.

(** ** The schedule of the backfill controller *)

Section BackfillSchedule.
Import Py News.
Context {World Cluster : Type}.
Context (cluster_news : Z -> Q -> World -> World).
Context (score_clusters : Z -> World -> World).
Context (get_top_clusters : Z -> Z -> World -> list Cluster * World).
Context (settings : Settings) (limit : Z).

(** The window of pass [k] is the base window times the [k]-th power of
    the multiplier, which counts as 1 when it is smaller. *)
Lemma window_at_pow (k : nat) :
  window_at settings k
  = news_window_hours settings
    * Z.max 1 (news_backfill_window_multiplier settings) ^ Z.of_nat k.
Proof.
  induction k as [|k IH]; [cbn [window_at]; lia|].
  cbn [window_at]. rewrite IH, Nat2Z.inj_succ, Z.pow_succ_r by lia. ring.
Qed.

(** With a step that is not negative the threshold of pass [k] is 70
    lowered [k] times by the step, and 30 from the pass at which that
    falls below 30. *)
Lemma threshold_at_closed (k : nat) :
  0 <= news_backfill_threshold_step settings ->
  (threshold_at settings k
   == Qmax 30 (70 - inject_Z (Z.of_nat k)
                    * inject_Z (news_backfill_threshold_step settings)))%Q.
Proof.
  intros Hstep.
  assert (Hs : (0 <= inject_Z (news_backfill_threshold_step settings))%Q).
  { change 0%Q with (inject_Z 0). now rewrite <- Zle_Qle. }
  set (s := inject_Z (news_backfill_threshold_step settings)) in *.
  induction k as [|k IH].
  - cbn [threshold_at]. unfold SIMILARITY_THRESHOLD.
    change (inject_Z (Z.of_nat 0)) with 0%Q.
    assert (E : (70 - 0 * s == 70)%Q) by ring. rewrite E.
    symmetry. apply Q.max_r. discriminate.
  - cbn [threshold_at]. fold s. rewrite IH.
    rewrite Nat2Z.inj_succ, <- Z.add_1_r, inject_Z_plus.
    change (inject_Z 1) with 1%Q.
    set (a := inject_Z (Z.of_nat k)) in *.
    assert (E : ((a + 1) * s == a * s + s)%Q) by ring. rewrite E.
    set (x := (a * s)%Q) in *.
    destruct (Q.max_spec 30 (70 - x)) as [[H1 H2] | [H1 H2]]; rewrite H2;
      destruct (Q.max_spec 30 (70 - (x + s))) as [[H3 H4] | [H3 H4]];
      rewrite H4;
      try (destruct (Q.max_spec 30 (70 - x - s)) as [[H5 H6] | [H5 H6]];
           rewrite H6; Lqa.lra);
      destruct (Q.max_spec 30 (30 - s)) as [[H5 H6] | [H5 H6]];
      rewrite H6; Lqa.lra.
Qed.

Lemma backfill_result (w : World) :
  exists n,
    get_top_clusters_with_backfill cluster_news score_clusters
      get_top_clusters settings limit w
    = ((pass_at cluster_news score_clusters get_top_clusters settings limit
                w n).1,
       (pass_at cluster_news score_clusters get_top_clusters settings limit
                w n).2,
       log_upto settings n)
    /\ (n <= Z.to_nat (news_backfill_max_steps settings))%nat.
Proof.
  unfold get_top_clusters_with_backfill.
  change (get_top_clusters limit (news_window_hours settings) w)
    with (pass_at cluster_news score_clusters get_top_clusters settings limit
                  w 0).
  destruct (pass_at _ _ _ settings limit w 0) as [results w1] eqn:Hpass.
  destruct (Z.leb_spec limit (len results)) as [Hdone | Hmore].
  - exists O. rewrite Hpass. split; [reflexivity | lia].
  - destruct (backfill_loop_spec cluster_news score_clusters get_top_clusters
                settings limit w
                (Z.to_nat (news_backfill_max_steps settings)) 0)
      as [n [Hn [Hjn _]]].
    + lia.
    + intros k Hk. replace k with O by lia. now rewrite Hpass.
    + rewrite Hpass in Hn. cbn [fst snd] in Hn.
      change (Z.of_nat 0) with 0 in Hn. exists n.
      change (news_window_hours settings) with (window_at settings 0).
      change SIMILARITY_THRESHOLD with (threshold_at settings 0).
      change (@nil LogLine) with (log_upto settings 0).
      rewrite Hn. split; [reflexivity | lia].
Qed.

(** X18. With a threshold step that is not negative, every widening pass
    that the controller logs has a step number between 1 and the step
    budget, the base window multiplied that many times by the
    multiplier (a multiplier below 1 counting as 1), and the threshold
    70 lowered that many times by the step, but not below 30. *)
Theorem backfill_schedule (w : World) (k wh : Z) (th : Q) :
  0 <= news_backfill_threshold_step settings ->
  (k, wh, th) ∈ (get_top_clusters_with_backfill cluster_news score_clusters
                   get_top_clusters settings limit w).2 ->
  1 <= k <= news_backfill_max_steps settings
  /\ wh = news_window_hours settings
          * Z.max 1 (news_backfill_window_multiplier settings) ^ k
  /\ (th == Qmax 30 (70 - inject_Z k
                          * inject_Z (news_backfill_threshold_step settings)))%Q.
Proof.
  intros Hstep Hin. destruct (backfill_result w) as [n [Hres Hn]].
  rewrite Hres in Hin. cbn [snd] in Hin. unfold log_upto in Hin.
  apply list_elem_of_In, in_map_iff in Hin as [j [Hj Hin]].
  apply in_seq in Hin. injection Hj as <- <- <-.
  split; [lia|]. split; [apply window_at_pow | now apply threshold_at_closed].
Qed.

End BackfillSchedule.

(** ** The repo ranking *)

Section RepoRanking.
Import Py Repo.
Local Open Scope R_scope.

Lemma insert_desc_perm (x : Scored) (l : list Scored) :
  insert_desc x l ≡ₚ x :: l.
Proof.
  induction l as [|y l IH]; simpl; [reflexivity|].
  destruct (Rle_dec (score y) (score x)); [reflexivity|].
  rewrite IH. apply Permutation_swap.
Qed.

Lemma sort_desc_perm (l : list Scored) : sort_desc l ≡ₚ l.
Proof.
  induction l as [|x l IH]; simpl; [reflexivity|].
  now rewrite insert_desc_perm, IH.
Qed.

Lemma insert_desc_sorted (x : Scored) (l : list Scored) :
  StronglySorted (fun a b => score b <= score a) l ->
  StronglySorted (fun a b => score b <= score a) (insert_desc x l).
Proof.
  induction l as [|y l IH]; intros Hs; simpl.
  - repeat constructor.
  - apply StronglySorted_inv in Hs as [Hl Hy].
    destruct (Rle_dec (score y) (score x)) as [Hle | Hgt].
    + constructor; [now constructor|]. constructor; [exact Hle|].
      eapply Forall_impl; [exact Hy|]. intros z Hz. cbn in *. lra.
    + constructor; [now apply IH|].
      rewrite insert_desc_perm. constructor; [lra | exact Hy].
Qed.

Lemma sort_desc_sorted (l : list Scored) :
  StronglySorted (fun a b => score b <= score a) (sort_desc l).
Proof.
  induction l as [|x l IH]; simpl; [constructor|].
  now apply insert_desc_sorted.
Qed.

Lemma StronglySorted_take {A} (R : A -> A -> Prop) (n : nat) (l : list A) :
  StronglySorted R l -> StronglySorted R (take n l).
Proof.
  revert n. induction l as [|x l IH]; intros n Hs; destruct n; cbn;
    try constructor.
  - apply IH. now apply StronglySorted_inv in Hs.
  - apply Forall_take. now apply StronglySorted_inv in Hs.
Qed.

Lemma slice_to_length {A} (l : list A) (n : Z) :
  len (slice_to l n)
  = (if (0 <=? n)%Z then Z.min n (len l) else Z.max 0 (len l + n))%Z.
Proof.
  unfold slice_to, len.
  destruct (Z.leb_spec 0 n); rewrite length_take; lia.
Qed.

(** X19. The repos returned are ranked by score, highest first; their
    number is the limit or, when fewer repos are left after the skipped
    ones are dropped, the number of those (a negative limit cuts that
    many from the end); each one is a row of [repos]; and none has a
    [skip] feedback row of kind [repo] from the trailing 30 days. *)
Theorem get_top_repos_ranked (db_now : Z) (clock : nat -> Z) (limit : Z)
    (db : DB) :
  StronglySorted (fun a b => score b <= score a)
                 (get_top_repos db_now clock limit db)
  /\ len (get_top_repos db_now clock limit db)
     = (let kept :=
          len (List.filter
                 (fun r => negb (bool_decide (Some (id r) ∈ skip_ids db_now db)))
                 (repos db)) in
        if (0 <=? limit)%Z then Z.min limit kept else Z.max 0 (kept + limit))%Z
  /\ forall e, e ∈ get_top_repos db_now clock limit db ->
       repo e ∈ repos db
       /\ forall f, f ∈ user_feedback db ->
            News.f_topic_kind f = Some "repo"%string ->
            News.f_label f = "skip"%string ->
            (db_now - News.days_us 30 < News.f_created_at f)%Z ->
            News.f_topic_ref_id f <> Some (id (repo e)).
Proof.
  split; [|split].
  - unfold get_top_repos, slice_to.
    destruct (0 <=? limit)%Z; apply StronglySorted_take, sort_desc_sorted.
  - unfold get_top_repos. rewrite slice_to_length. cbv zeta.
    unfold len. rewrite (Permutation_length (sort_desc_perm _)).
    unfold scored_repos. cbv zeta. now rewrite length_imap.
  - intros e He. apply get_top_repos_scored in He as [k Hk].
    unfold scored_repos in Hk. cbv zeta in Hk.
    rewrite list_lookup_imap in Hk.
    destruct (_ !! k) as [r|] eqn:Hr; [|discriminate].
    injection Hk as <-. cbn [repo score_repo].
    apply list_elem_of_lookup_2, list_elem_of_In, filter_In in Hr as [Hin Hskip].
    split; [now apply list_elem_of_In|].
    intros f Hf Hkind Hlabel Hrecent Href.
    apply negb_true_iff, bool_decide_eq_false in Hskip. apply Hskip.
    unfold skip_ids. apply list_elem_of_In, in_map_iff. exists f.
    split; [exact Href|]. apply filter_In.
    split; [now apply list_elem_of_In|].
    apply andb_true_iff. split; [apply andb_true_iff; split|].
    + now apply bool_decide_eq_true.
    + rewrite Hlabel. reflexivity.
    + apply Z.ltb_lt. exact Hrecent.
Qed.

Lemma latest_snapshot_snoc (db_now rid : Z) (snaps : list SnapshotRow)
    (s : SnapshotRow) :
  latest_snapshot db_now rid (snaps ++ [s])
  = if in_snapshot_window db_now rid s then
      match latest_snapshot db_now rid snaps with
      | None => Some s
      | Some b => if (s_captured_at b <? s_captured_at s)%Z
                  then Some s else Some b
      end
    else latest_snapshot db_now rid snaps.
Proof.
  unfold latest_snapshot. rewrite foldl_app. cbn [foldl].
  destruct (in_snapshot_window db_now rid s); [|reflexivity].
  now destruct (foldl _ None snaps).
Qed.

Lemma latest_snapshot_spec (db_now rid : Z) (snaps : list SnapshotRow) :
  match latest_snapshot db_now rid snaps with
  | Some s =>
      s ∈ snaps /\ in_snapshot_window db_now rid s = true
      /\ forall s', s' ∈ snaps -> in_snapshot_window db_now rid s' = true ->
                    (s_captured_at s' <= s_captured_at s)%Z
  | None => forall s, s ∈ snaps -> in_snapshot_window db_now rid s = false
  end.
Proof.
  induction snaps as [|x snaps IH] using rev_ind.
  - cbn. intros s Hs. inversion Hs.
  - rewrite latest_snapshot_snoc.
    destruct (in_snapshot_window db_now rid x) eqn:Hx.
    + destruct (latest_snapshot db_now rid snaps) as [b|].
      * destruct IH as [Hb [Hbw Hmax]].
        destruct (Z.ltb_spec (s_captured_at b) (s_captured_at x)) as [Hlt | Hge].
        -- split; [apply elem_of_app; right; apply list_elem_of_here|].
           split; [exact Hx|]. intros s' Hs' Hw'.
           apply elem_of_app in Hs' as [Hs' | Hs'].
           ++ specialize (Hmax s' Hs' Hw'). lia.
           ++ apply list_elem_of_singleton in Hs'. subst s'. lia.
        -- split; [apply elem_of_app; now left|].
           split; [exact Hbw|]. intros s' Hs' Hw'.
           apply elem_of_app in Hs' as [Hs' | Hs'].
           ++ now apply Hmax.
           ++ apply list_elem_of_singleton in Hs'. now subst s'.
      * split; [apply elem_of_app; right; apply list_elem_of_here|].
        split; [exact Hx|]. intros s' Hs' Hw'.
        apply elem_of_app in Hs' as [Hs' | Hs'].
        -- rewrite (IH s' Hs') in Hw'. discriminate.
        -- apply list_elem_of_singleton in Hs'. subst s'. lia.
    + destruct (latest_snapshot db_now rid snaps) as [b|].
      * destruct IH as [Hb [Hbw Hmax]].
        split; [apply elem_of_app; now left|]. split; [exact Hbw|].
        intros s' Hs' Hw'. apply elem_of_app in Hs' as [Hs' | Hs'].
        -- now apply Hmax.
        -- apply list_elem_of_singleton in Hs'. subst s'. congruence.
      * intros s Hs. apply elem_of_app in Hs as [Hs | Hs]; [now apply IH|].
        apply list_elem_of_singleton in Hs. now subst s.
Qed.

(** X20. The 24-hour delta of a repo is measured against the newest
    snapshot of that repo taken between 30 and 20 hours before the
    query: when there is such a snapshot the lookup finds the newest
    one, the delta is the current star count less that snapshot's, and
    the score is computed from that snapshot; only when the repo has no
    snapshot in that window is the delta 0 and the score computed
    against the current star count. *)
Theorem repo_delta_from_latest_snapshot (db_now now : Z) (db : DB)
    (r : RepoRow) :
  match latest_snapshot db_now (id r) (repo_snapshots db) with
  | Some s =>
      s ∈ repo_snapshots db
      /\ s_repo_id s = id r
      /\ (db_now - News.hours_us 30 <= s_captured_at s
          <= db_now - News.hours_us 20)%Z
      /\ (forall s', s' ∈ repo_snapshots db -> s_repo_id s' = id r ->
            (db_now - News.hours_us 30 <= s_captured_at s'
             <= db_now - News.hours_us 20)%Z ->
            (s_captured_at s' <= s_captured_at s)%Z)
      /\ delta_24h (score_repo db_now now db r) = (stars r - s_stars s)%Z
      /\ score (score_repo db_now now db r)
         = calculate_repo_score now r
             (Some {| snap_stars := s_stars s; snap_forks := Some (s_forks s);
                      snap_open_issues := Some (s_open_issues s) |})
           + feedback_score (score_repo db_now now db r)
  | None =>
      (forall s', s' ∈ repo_snapshots db -> s_repo_id s' = id r ->
         ~ (db_now - News.hours_us 30 <= s_captured_at s'
            <= db_now - News.hours_us 20)%Z)
      /\ delta_24h (score_repo db_now now db r) = 0%Z
      /\ score (score_repo db_now now db r)
         = calculate_repo_score now r
             (Some {| snap_stars := stars r; snap_forks := None;
                      snap_open_issues := None |})
           + feedback_score (score_repo db_now now db r)
  end.
Proof.
  pose proof (latest_snapshot_spec db_now (id r) (repo_snapshots db)) as H.
  unfold score_repo. cbv zeta.
  destruct (latest_snapshot db_now (id r) (repo_snapshots db)) as [s|].
  - destruct H as [Hin [Hw Hmax]].
    cbn [delta_24h score feedback_score snap_stars].
    unfold in_snapshot_window in Hw.
    apply andb_true_iff in Hw as [Hw H3]. apply andb_true_iff in Hw as [H1 H2].
    apply Z.eqb_eq in H1. apply Z.leb_le in H2, H3.
    split; [exact Hin|]. split; [exact H1|]. split; [lia|].
    split; [|split; reflexivity].
    intros s' Hs' Hid [Hlo Hhi]. apply Hmax; [exact Hs'|].
    unfold in_snapshot_window.
    apply Z.eqb_eq in Hid. apply Z.leb_le in Hlo, Hhi.
    now rewrite Hid, Hlo, Hhi.
  - cbn [delta_24h score feedback_score snap_stars].
    split; [|split; [lia | reflexivity]].
    intros s' Hs' Hid [Hlo Hhi]. specialize (H s' Hs').
    unfold in_snapshot_window in H.
    apply Z.eqb_eq in Hid. apply Z.leb_le in Hlo, Hhi.
    rewrite Hid, Hlo, Hhi in H. discriminate.
Qed.

Lemma freshness_factor_range (n : Z) :
  0 < 1 / Rpower (IZR (Z.max n 1)) (5 / 10) <= 1.
Proof.
  rewrite pow_half_sqrt.
  assert (H1 : 1 <= IZR (Z.max n 1)) by (apply IZR_le; lia).
  assert (Hs : 1 <= sqrt (IZR (Z.max n 1))).
  { rewrite <- sqrt_1. apply sqrt_le_1; lra. }
  split.
  - apply Rdiv_lt_0_compat; lra.
  - apply (Rmult_le_reg_r (sqrt (IZR (Z.max n 1)))); [lra|].
    unfold Rdiv. rewrite Rmult_assoc, Rinv_l by lra. lra.
Qed.

(** X28. For a repo whose star count is not negative and not below
    the snapshot's, the score before feedback lies between the issue
    term alone and the undamped sum [delta * 2 + stars * 0.01] plus the
    issue term; the issue term is at most 5, whatever the number of open
    issues. *)
Theorem repo_score_bounds (now : Z) (r : RepoRow) (s : Snapshot) :
  (0 <= stars r)%Z -> (snap_stars s <= stars r)%Z ->
  IZR (Z.min (open_issues r) 50) * (1 / 10)
  <= calculate_repo_score now r (Some s)
  <= IZR (stars r - snap_stars s) * 2 + IZR (stars r) * (1 / 100)
     + IZR (Z.min (open_issues r) 50) * (1 / 10)
  /\ IZR (Z.min (open_issues r) 50) * (1 / 10) <= 5.
Proof.
  intros Hstars Hdelta. unfold calculate_repo_score. cbv zeta.
  pose proof (freshness_factor_range (days_between now (last_pushed_at r)))
    as [Hf0 Hf1].
  set (f := 1 / Rpower _ _) in *.
  assert (Hd : 0 <= IZR (stars r - snap_stars s)) by (apply IZR_le; lia).
  assert (Hs : 0 <= IZR (stars r)) by (apply IZR_le; lia).
  set (d := IZR (stars r - snap_stars s)) in *.
  set (n := IZR (stars r)) in *.
  assert (Hi : IZR (Z.min (open_issues r) 50) <= 50) by (apply IZR_le; lia).
  assert (Hbase : 0 <= d * 2 + n * (1 / 100)) by lra.
  split; [split|]; [| |lra].
  - assert (0 <= (d * 2 + n * (1 / 100)) * f)
      by (apply Rmult_le_pos; lra).
    lra.
  - assert ((d * 2 + n * (1 / 100)) * f <= (d * 2 + n * (1 / 100)) * 1)
      by (apply Rmult_le_compat_l; lra).
    lra.
Qed.

End RepoRanking.

(** ** The bookmark lists *)

Section Bookmarks.
Import Py News Outputs.

Lemma mem_false (x : string) (l : list string) : mem x l = false <-> x ∉ l.
Proof. rewrite <- mem_elem_of. now destruct (mem x l). Qed.

Lemma len_snoc {A} (l : list A) (x : A) : len (l ++ [x]) = len l + 1.
Proof. unfold len. rewrite length_app. cbn. lia. Qed.

Lemma bookmarks_loop_spec (max_items : Z) (evidence : list string) :
  forall bookmarks,
    NoDup bookmarks ->
    exists more,
      bookmarks_loop evidence bookmarks max_items = bookmarks ++ more
      /\ NoDup (bookmarks ++ more)
      /\ (forall x, x ∈ more -> x ∈ evidence)
      /\ (more = [] \/ len (bookmarks ++ more) <= Z.max max_items (len bookmarks + 1))
      /\ (max_items <= len (bookmarks ++ more)
          \/ forall x, x ∈ evidence -> x ∈ bookmarks ++ more).
Proof.
  induction evidence as [|link rest IH]; intros bookmarks Hnd; cbn [bookmarks_loop].
  - exists []. rewrite app_nil_r. split; [reflexivity|]. split; [exact Hnd|].
    split; [intros x Hx; inversion Hx|]. split; [now left|].
    right. intros x Hx. inversion Hx.
  - destruct (mem link bookmarks) eqn:Hmem.
    + apply mem_elem_of in Hmem.
      destruct (IH bookmarks Hnd) as [more [Heq [Hnd' [Hsub [Hlen Hall]]]]].
      exists more. split; [exact Heq|]. split; [exact Hnd'|].
      split; [intros x Hx; right; now apply Hsub|]. split; [exact Hlen|].
      destruct Hall as [Hall | Hall]; [now left|]. right.
      intros x Hx. apply elem_of_cons in Hx as [-> | Hx]; [|now apply Hall].
      apply elem_of_app. now left.
    + apply mem_false in Hmem.
      assert (Hnd1 : NoDup (bookmarks ++ [link])).
      { apply NoDup_app. split; [exact Hnd|]. split; [|apply NoDup_singleton].
        intros x Hx Hx'. apply list_elem_of_singleton in Hx'. now subst x. }
      cbv zeta.
      destruct (Z.leb_spec max_items (len (bookmarks ++ [link]))) as [Hfull | Hroom].
      * exists [link]. split; [reflexivity|]. split; [exact Hnd1|].
        split; [intros x Hx; apply list_elem_of_singleton in Hx; subst x; now left|].
        split; [right; rewrite len_snoc; lia | now left].
      * destruct (IH (bookmarks ++ [link]) Hnd1)
          as [more [Heq [Hnd' [Hsub [Hlen Hall]]]]].
        exists (link :: more). rewrite Heq, <- app_assoc. cbn [app].
        rewrite <- app_assoc in Hnd', Hlen, Hall. cbn [app] in Hnd', Hlen, Hall.
        split; [reflexivity|]. split; [exact Hnd'|]. split.
        { intros x Hx. apply elem_of_cons in Hx as [-> | Hx];
            [now left | right; now apply Hsub]. }
        split.
        { right. destruct Hlen as [-> | Hlen].
          - change (bookmarks ++ [link]) with (bookmarks ++ [link]).
            rewrite len_snoc in *. lia.
          - rewrite len_snoc in *. lia. }
        destruct Hall as [Hall | Hall]; [now left|]. right.
        intros x Hx. apply elem_of_cons in Hx as [-> | Hx]; [|now apply Hall].
        apply elem_of_app. right. now left.
Qed.

(** X22. The bookmark list of [_build_branch1_bookmarks] has no
    duplicate; it starts with the primary link when there is one; every
    other entry is an evidence link; it is at most [max_items] long, or
    one entry longer than the primary link alone when [max_items] is
    smaller than that, since the bound is tested only after a link has
    been added; and it leaves out an evidence link only when the bound
    has been reached. *)
Theorem build_bookmarks_spec (primary : string) (evidence : list string)
    (max_items : Z) :
  let initial := if String.eqb primary EmptyString then [] else [primary] in
  exists more,
    _build_branch1_bookmarks primary evidence max_items = initial ++ more
    /\ NoDup (initial ++ more)
    /\ (forall x, x ∈ more -> x ∈ evidence)
    /\ len (initial ++ more) <= Z.max max_items (len initial + 1)
    /\ (max_items <= len (initial ++ more)
        \/ forall x, x ∈ evidence -> x ∈ initial ++ more).
Proof.
  cbv zeta. unfold _build_branch1_bookmarks. cbv zeta.
  set (initial := if String.eqb primary EmptyString then [] else [primary]).
  assert (Hnd : NoDup initial).
  { subst initial. destruct (String.eqb primary EmptyString);
      [constructor | apply NoDup_singleton]. }
  destruct (bookmarks_loop_spec max_items evidence initial Hnd)
    as [more [Heq [Hnd' [Hsub [Hlen Hall]]]]].
  exists more. split; [exact Heq|]. split; [exact Hnd'|].
  split; [exact Hsub|]. split; [|exact Hall].
  destruct Hlen as [-> | Hlen]; [rewrite app_nil_r; lia | exact Hlen].
Qed.

Lemma bookmarks_loop_take (max_items : Z) (rest : list string) :
  forall bookmarks,
    NoDup (bookmarks ++ rest) -> len bookmarks < max_items ->
    bookmarks_loop rest bookmarks max_items
    = take (Z.to_nat max_items) (bookmarks ++ rest).
Proof.
  induction rest as [|x rest IH]; intros bookmarks Hnd Hlen;
    cbn [bookmarks_loop].
  - rewrite app_nil_r. symmetry. apply take_ge. unfold len in Hlen. lia.
  - assert (Hx : mem x bookmarks = false).
    { apply mem_false. intros Hx. apply NoDup_app in Hnd as [_ [Hd _]].
      apply (Hd x Hx). now left. }
    rewrite Hx. cbv zeta.
    replace (bookmarks ++ x :: rest) with ((bookmarks ++ [x]) ++ rest)
      in * by now rewrite <- app_assoc.
    destruct (Z.leb_spec max_items (len (bookmarks ++ [x]))) as [Hfull | Hroom].
    + rewrite len_snoc in Hfull. symmetry. apply take_app_length'.
      rewrite length_app. cbn. unfold len in *. lia.
    + apply IH; [exact Hnd | exact Hroom].
Qed.

(** X23. On the links that the selector returns, and for a bound of at
    least 2, the bookmark list of outputs.py and the one of
    output_builder.py are the same list: the evidence links, cut at the
    bound. *)
Theorem bookmarks_of_selected_links (rt : Runtime) (cluster_id : Z)
    (items : list (gmap string value)) (max_items : Z) :
  2 <= max_items ->
  _build_branch1_bookmarks
    (primary_link (_select_cluster_links rt cluster_id items))
    (evidence_links (_select_cluster_links rt cluster_id items)) max_items
  = slice_to (evidence_links (_select_cluster_links rt cluster_id items))
             max_items
  /\ builder_bookmarks
       (primary_link (_select_cluster_links rt cluster_id items))
       (evidence_links (_select_cluster_links rt cluster_id items)) max_items
     = slice_to (evidence_links (_select_cluster_links rt cluster_id items))
                max_items.
Proof.
  intros Hmax.
  destruct (select_links_shape rt cluster_id items)
    as [Hnd [_ [[[Hp He] | [Hp [rest He]]] _]]];
    set (p := primary_link (_select_cluster_links rt cluster_id items)) in *;
    set (ev := evidence_links (_select_cluster_links rt cluster_id items)) in *.
  - rewrite Hp, He.
    unfold builder_bookmarks, _build_branch1_bookmarks, slice_to.
    replace (0 <=? max_items) with true by (symmetry; apply Z.leb_le; lia).
    cbn. rewrite ?take_nil. cbn. rewrite ?take_nil. now split.
  - apply String.eqb_neq in Hp.
    unfold _build_branch1_bookmarks, builder_bookmarks, slice_to. cbv zeta.
    rewrite Hp. replace (0 <=? max_items) with true by (symmetry; apply Z.leb_le; lia).
    rewrite He in *. split.
    + cbn [bookmarks_loop]. unfold mem at 1. cbn [existsb].
      rewrite String.eqb_refl. cbn [orb].
      apply (bookmarks_loop_take max_items rest [p]); [exact Hnd|].
      unfold len. cbn. lia.
    + assert (Hin : mem p (take (Z.to_nat max_items) (p :: rest)) = true).
      { apply mem_elem_of. destruct (Z.to_nat max_items) eqn:E; [lia|].
        cbn. now left. }
      rewrite Hin. cbn [negb andb]. apply take_idemp.
Qed.

Lemma attribution_loop_spec (evidence : list string) :
  forall acc,
    NoDup acc ->
    NoDup (attribution_loop evidence acc)
    /\ (forall x, x ∈ attribution_loop evidence acc <-> x ∈ acc \/ x ∈ evidence)
    /\ (NoDup (acc ++ evidence) -> attribution_loop evidence acc = acc ++ evidence).
Proof.
  induction evidence as [|link rest IH]; intros acc Hnd; cbn [attribution_loop].
  - split; [exact Hnd|]. split; [|now rewrite app_nil_r].
    intros x. split; [now left|]. intros [H | H]; [exact H | inversion H].
  - destruct (mem link acc) eqn:Hmem.
    + apply mem_elem_of in Hmem. destruct (IH acc Hnd) as [H1 [H2 H3]].
      split; [exact H1|]. split.
      * intros x. rewrite H2, elem_of_cons. split; [tauto|].
        intros [H | [-> | H]]; tauto.
      * intros Hall. exfalso. apply NoDup_app in Hall as [_ [Hd _]].
        apply (Hd link Hmem). now left.
    + apply mem_false in Hmem.
      assert (Hnd1 : NoDup (acc ++ [link])).
      { apply NoDup_app. split; [exact Hnd|]. split; [|apply NoDup_singleton].
        intros x Hx Hx'. apply list_elem_of_singleton in Hx'. now subst x. }
      destruct (IH (acc ++ [link]) Hnd1) as [H1 [H2 H3]].
      split; [exact H1|]. split.
      * intros x. rewrite H2, elem_of_app, list_elem_of_singleton, elem_of_cons.
        tauto.
      * intros Hall. rewrite H3; rewrite <- app_assoc; [reflexivity | exact Hall].
Qed.

Lemma filter_absent (p : string) (l : list string) :
  p ∉ l -> List.filter (fun link => negb (String.eqb link p)) l = l.
Proof.
  induction l as [|x l IH]; intros Hp; cbn; [reflexivity|].
  apply not_elem_of_cons in Hp as [Hne Hp].
  destruct (String.eqb_spec x p) as [-> | _]; [contradiction|].
  cbn. now rewrite IH.
Qed.

(** X29. The attribution list of [build_branch2_output] has no
    duplicate and holds exactly the primary link, when it is not empty,
    and the evidence links; on the links that the selector returns, the
    attribution list and the links listed under the sources heading are
    both the evidence links as they stand. *)
Theorem attribution_spec (primary : string) (evidence : list string)
    (rt : Runtime) (cluster_id : Z) (items : list (gmap string value)) :
  NoDup (attribution primary evidence)
  /\ (forall x, x ∈ attribution primary evidence
                <-> x = primary /\ primary <> EmptyString \/ x ∈ evidence)
  /\ attribution (primary_link (_select_cluster_links rt cluster_id items))
                 (evidence_links (_select_cluster_links rt cluster_id items))
     = evidence_links (_select_cluster_links rt cluster_id items)
  /\ source_links (primary_link (_select_cluster_links rt cluster_id items))
                  (evidence_links (_select_cluster_links rt cluster_id items))
     = evidence_links (_select_cluster_links rt cluster_id items).
Proof.
  split; [|split].
  - unfold attribution. cbv zeta. apply attribution_loop_spec.
    destruct (String.eqb primary EmptyString);
      [constructor | apply NoDup_singleton].
  - intros x. unfold attribution. cbv zeta.
    assert (Hnd : NoDup (if String.eqb primary EmptyString
                         then [] else [primary])).
    { destruct (String.eqb primary EmptyString);
        [constructor | apply NoDup_singleton]. }
    destruct (attribution_loop_spec evidence _ Hnd) as [_ [H _]].
    rewrite H. destruct (String.eqb_spec primary EmptyString) as [He | Hne].
    + split.
      * intros [Hx | Hx]; [inversion Hx | now right].
      * intros [[_ Hp] | Hx]; [contradiction | now right].
    + rewrite list_elem_of_singleton. split.
      * intros [-> | Hx]; [now left | now right].
      * intros [[-> _] | Hx]; [now left | now right].
  - destruct (select_links_shape rt cluster_id items)
      as [Hnd [_ [[[Hp He] | [Hp [rest He]]] _]]];
      set (p := primary_link (_select_cluster_links rt cluster_id items)) in *;
      set (ev := evidence_links (_select_cluster_links rt cluster_id items)) in *.
    + rewrite Hp, He. now split.
    + apply String.eqb_neq in Hp. unfold attribution, source_links. cbv zeta.
      rewrite Hp, He in *. split.
      * cbn [attribution_loop]. unfold mem at 1. cbn [existsb].
        rewrite String.eqb_refl. cbn [orb].
        destruct (attribution_loop_spec rest [p] (NoDup_singleton p))
          as [_ [_ H]].
        now apply H.
      * cbn [List.filter]. rewrite String.eqb_refl. cbn [negb app].
        f_equal. apply filter_absent.
        apply NoDup_cons in Hnd as [Hnotin _]. exact Hnotin.
Qed.

End Bookmarks.

(** ** The dedup of the candidates *)

Section Candidates.
Import Py Dedup Pipeline.

Lemma recent_ids_spec (briefs : list BriefRow) (now : Z)
    (evaluates : Z -> bool) (kind : string) (refIds : list Z) (hours : Z) :
  refIds = [] \/ hours <= 0 \/ evaluates hours = true ->
  exists ids,
    getRecentBriefRefIds (Some (briefs, now, evaluates)) kind refIds hours
    = Returns ids
    /\ forall i,
         i ∈ ids
         <-> 0 < hours /\ i ∈ refIds
             /\ exists b, b ∈ briefs /\ b_kind b = Some kind
                          /\ b_ref_id b = Some i
                          /\ now - News.hours_us hours < b_created_at b.
Proof.
  intros Hcase. unfold getRecentBriefRefIds. cbv zeta.
  destruct (bool_decide (refIds = [])) eqn:Hnil; cbn [orb].
  { apply bool_decide_eq_true in Hnil. subst refIds.
    exists ∅. split; [reflexivity|]. intros i. split; [set_solver|].
    intros [_ [Hi _]]. inversion Hi. }
  apply bool_decide_eq_false in Hnil.
  destruct (Z.leb_spec hours 0) as [Hle | Hlt].
  { exists ∅. split; [reflexivity|]. intros i. split; [set_solver | lia]. }
  destruct Hcase as [Hc | [Hc | Hc]]; [contradiction | lia |].
  rewrite Hc. cbv zeta.
  eexists. split; [reflexivity|]. intros i.
  rewrite elem_of_list_to_set, list_elem_of_omap. split.
  - intros [b [Hb Hid]]. apply list_elem_of_In, filter_In in Hb as [Hb Hf].
    apply andb_true_iff in Hf as [Hf H3]. apply andb_true_iff in Hf as [H1 H2].
    rewrite Hid in H2. apply bool_decide_eq_true in H1, H2.
    apply Z.ltb_lt in H3.
    split; [exact Hlt|]. split; [exact H2|]. exists b.
    split; [now apply list_elem_of_In|]. auto.
  - intros [_ [Hi [b [Hb [Hk [Hid Hrecent]]]]]]. exists b.
    split; [|exact Hid]. apply list_elem_of_In, filter_In.
    split; [now apply list_elem_of_In|].
    apply andb_true_iff. split; [apply andb_true_iff; split|].
    + now apply bool_decide_eq_true.
    + rewrite Hid. now apply bool_decide_eq_true.
    + now apply Z.ltb_lt.
Qed.

(** The gate raises when it has to ask a server that refuses the
    window. *)
Lemma refused_window_raises (briefs : list BriefRow) (now : Z)
    (evaluates : Z -> bool) (kind : string) (refIds : list Z) (hours : Z) :
  refIds <> [] -> 0 < hours -> evaluates hours = false ->
  getRecentBriefRefIds (Some (briefs, now, evaluates)) kind refIds hours
  = Raises.
Proof.
  intros Hne Hpos Hev. unfold getRecentBriefRefIds. cbv zeta.
  rewrite (bool_decide_eq_false_2 _ Hne). cbn [orb].
  destruct (Z.leb_spec hours 0); [lia|]. now rewrite Hev.
Qed.


(** X24. On a store that can be reached, the dedup of the candidates
    fails exactly when there are ranked entries, the number of hours is
    positive and the server refuses the window. Otherwise the candidates
    handed to the brief generator are the ranked entries in their order,
    less those whose id has a brief of the kind created within the
    trailing hours; with a non-positive number of hours nothing is
    dropped. *)
Theorem dedup_candidates_spec {A} (id_of : A -> Z) (briefs : list BriefRow)
    (now : Z) (evaluates : Z -> bool) (kind : string) (top : list A)
    (hours : Z) :
  match dedup_candidates id_of (Some (briefs, now, evaluates)) kind top hours
  with
  | None => top <> [] /\ 0 < hours /\ evaluates hours = false
  | Some candidates =>
      (top = [] \/ hours <= 0 \/ evaluates hours = true)
      /\ candidates `sublist_of` top
      /\ (forall c,
            c ∈ candidates
            <-> c ∈ top
                /\ ~ (0 < hours
                      /\ exists b, b ∈ briefs /\ b_kind b = Some kind
                                   /\ b_ref_id b = Some (id_of c)
                                   /\ now - News.hours_us hours
                                      < b_created_at b))
      /\ (hours <= 0 -> candidates = top)
  end.
Proof.
  unfold dedup_candidates. cbv zeta.
  destruct (decide (top <> [] /\ 0 < hours /\ evaluates hours = false))
    as [[Hne [Hpos Hev]] | Hok].
  { rewrite refused_window_raises; [now repeat split | | exact Hpos | exact Hev].
    destruct top; [contradiction | discriminate]. }
  assert (Hcase : top = [] \/ hours <= 0 \/ evaluates hours = true).
  { destruct top as [|x top]; [now left|]. right.
    destruct (Z.leb_spec hours 0) as [Hle | Hlt]; [now left|]. right.
    destruct (evaluates hours) eqn:Hev; [reflexivity|].
    exfalso. apply Hok. split; [discriminate|]. now split. }
  destruct (recent_ids_spec briefs now evaluates kind (map id_of top) hours)
    as [ids [-> H]].
  { destruct Hcase as [-> | [Hc | Hc]]; [now left | right; now left |].
    right. now right. }
  split; [exact Hcase|]. split; [|split].
  - generalize (fun c => negb (bool_decide (id_of c ∈ ids))). intros p.
    clear H Hok Hcase. induction top as [|x l IHl]; cbn; [constructor|].
    destruct (p x); [now apply sublist_skip | now apply sublist_cons].
  - intros c. rewrite list_elem_of_In, filter_In, <- list_elem_of_In.
    rewrite negb_true_iff, bool_decide_eq_false, H. split.
    + intros [Hc Hn]. split; [exact Hc|]. intros [Hh Hb]. apply Hn.
      split; [exact Hh|]. split; [|exact Hb].
      apply list_elem_of_In, in_map, list_elem_of_In, Hc.
    + intros [Hc Hn]. split; [exact Hc|]. intros [Hh [_ Hb]]. apply Hn.
      now split.
  - intros Hle.
    assert (Hall : forall l : list A,
              List.filter (fun c => negb (bool_decide (id_of c ∈ ids))) l = l).
    { intros l. induction l as [|x l IHl]; cbn; [reflexivity|].
      destruct (bool_decide (id_of x ∈ ids)) eqn:Hx.
      - apply bool_decide_eq_true in Hx. apply H in Hx. lia.
      - cbn. now rewrite IHl. }
    apply Hall.
Qed.

End Candidates.

(** ** The selection of the top clusters *)

Section TopClusters.
Import Py News Selection.
Context (rt : Runtime).

Lemma insert_by_score_perm (x : Z * ClusterRow) (l : list (Z * ClusterRow)) :
  insert_by_score x l ≡ₚ x :: l.
Proof.
  induction l as [|y l IH]; simpl; [reflexivity|].
  destruct (Qle_bool (c_score y.2) (c_score x.2)); [reflexivity|].
  rewrite IH. apply Permutation_swap.
Qed.

Lemma by_score_perm (l : list (Z * ClusterRow)) : by_score l ≡ₚ l.
Proof.
  induction l as [|x l IH]; simpl; [reflexivity|].
  now rewrite insert_by_score_perm, IH.
Qed.

Lemma insert_by_score_sorted (x : Z * ClusterRow) (l : list (Z * ClusterRow)) :
  StronglySorted (fun a b => (c_score b.2 <= c_score a.2)%Q) l ->
  StronglySorted (fun a b => (c_score b.2 <= c_score a.2)%Q)
                 (insert_by_score x l).
Proof.
  induction l as [|y l IH]; intros Hs; simpl.
  - repeat constructor.
  - apply StronglySorted_inv in Hs as [Hl Hy].
    destruct (Qle_bool (c_score y.2) (c_score x.2)) eqn:Hle.
    + apply Qle_bool_iff in Hle.
      constructor; [now constructor|]. constructor; [exact Hle|].
      eapply Forall_impl; [exact Hy|]. intros z Hz. cbn in *.
      eapply Qle_trans; eassumption.
    + assert (Hxy : (c_score x.2 <= c_score y.2)%Q).
      { apply Qlt_le_weak, Qnot_le_lt. intros H.
        apply Qle_bool_iff in H. congruence. }
      constructor; [now apply IH|].
      rewrite insert_by_score_perm. constructor; [exact Hxy | exact Hy].
Qed.

Lemma by_score_sorted (l : list (Z * ClusterRow)) :
  StronglySorted (fun a b => (c_score b.2 <= c_score a.2)%Q) (by_score l).
Proof.
  induction l as [|x l IH]; simpl; [constructor|].
  now apply insert_by_score_sorted.
Qed.

Lemma top_step_eq (s : Store) (results : list Cluster)
    (row : Z * ClusterRow) :
  top_step rt (s, results) row
  = (set_links row.1 (links_of rt (db s) row.1) s,
     results ++ [cluster_of rt (db s) row]).
Proof. reflexivity. Qed.

(** The loop over the rows of the main query. *)
Lemma top_fold (rows : list (Z * ClusterRow)) :
  forall s results,
    db (foldl (top_step rt) (s, results) rows).1 = db s
    /\ briefs (foldl (top_step rt) (s, results) rows).1 = briefs s
    /\ (foldl (top_step rt) (s, results) rows).2
       = results ++ map (cluster_of rt (db s)) rows
    /\ forall cid,
         links (foldl (top_step rt) (s, results) rows).1 !! cid
         = if bool_decide (cid ∈ map fst rows)
           then Some (links_of rt (db s) cid)
           else links s !! cid.
Proof.
  induction rows as [|row rows IH]; intros s results; cbn [foldl].
  - cbn. rewrite app_nil_r. repeat split.
  - rewrite top_step_eq.
    destruct (IH (set_links row.1 (links_of rt (db s) row.1) s)
                 (results ++ [cluster_of rt (db s) row]))
      as [Hd [Hb [Hr Hl]]].
    cbn [db briefs links set_links] in Hd, Hb, Hr, Hl.
    split; [exact Hd|]. split; [exact Hb|]. split.
    + rewrite Hr, <- app_assoc. reflexivity.
    + intros cid. rewrite Hl. cbn [map].
      destruct (decide (cid ∈ map fst rows)) as [Hin | Hout].
      * rewrite !bool_decide_eq_true_2; [reflexivity | now right | exact Hin].
      * rewrite (bool_decide_eq_false_2 _ Hout).
        destruct (decide (cid = row.1)) as [-> | Hne].
        -- rewrite lookup_insert_eq, bool_decide_eq_true_2 by now left.
           reflexivity.
        -- rewrite lookup_insert_ne by congruence.
           rewrite bool_decide_eq_false_2; [reflexivity|].
           intros H. apply elem_of_cons in H as [H | H]; [congruence | contradiction].
Qed.

Lemma get_top_clusters_eq (db_now limit hours : Z) (s : Store) :
  get_top_clusters rt db_now limit hours s
  = if limit <? 0 then None
    else Some (map (cluster_of rt (db s))
                   (select_top db_now (_window_hours hours) limit s),
               (foldl (top_step rt) (s, [])
                      (select_top db_now (_window_hours hours) limit s)).1).
Proof.
  unfold get_top_clusters. cbv zeta. destruct (limit <? 0); [reflexivity|].
  pose proof (top_fold (select_top db_now (_window_hours hours) limit s) s [])
    as [_ [_ [Hr _]]].
  destruct (foldl _ _ _) as [s' results]. cbn [snd fst] in *. now rewrite Hr.
Qed.

Lemma select_top_rows (db_now w limit : Z) (s : Store) :
  StronglySorted (fun a b => (c_score b.2 <= c_score a.2)%Q)
                 (select_top db_now w limit s)
  /\ NoDup (map fst (select_top db_now w limit s))
  /\ (length (select_top db_now w limit s) <= Z.to_nat limit)%nat
  /\ (forall row, row ∈ select_top db_now w limit s ->
        clusters (db s) !! row.1 = Some row.2
        /\ within_hours db_now w (c_last_seen_at row.2) = true
        /\ passes row.1 (sent_ids db_now (briefs s)) = true
        /\ passes row.1 (skip_ids db_now (user_feedback (db s))) = true)
  /\ ((length (map_to_list (clusters (db s))) <= Z.to_nat limit)%nat ->
      forall cid r,
        clusters (db s) !! cid = Some r ->
        within_hours db_now w (c_last_seen_at r) = true ->
        passes cid (sent_ids db_now (briefs s)) = true ->
        passes cid (skip_ids db_now (user_feedback (db s))) = true ->
        (cid, r) ∈ select_top db_now w limit s).
Proof.
  unfold select_top. cbv zeta.
  set (p := fun q : Z * ClusterRow =>
              within_hours db_now w (c_last_seen_at q.2)
              && passes q.1 (sent_ids db_now (briefs s))
              && passes q.1 (skip_ids db_now (user_feedback (db s)))).
  set (l := List.filter p (map_to_list (clusters (db s)))).
  assert (Hnd : NoDup (map fst (by_score l))).
  { rewrite (Permutation_map fst (by_score_perm l)).
    apply (NoDup_map_filter fst), NoDup_fst_map_to_list. }
  split; [apply StronglySorted_take, by_score_sorted|].
  split.
  { eapply sublist_NoDup; [exact Hnd|].
    apply (fmap_sublist fst), sublist_take. }
  split; [rewrite length_take; lia|]. split.
  - intros row Hrow.
    assert (Hin : row ∈ l).
    { rewrite <- (by_score_perm l). eapply elem_of_sublist; [exact Hrow|].
      apply sublist_take. }
    apply list_elem_of_In, filter_In in Hin as [Hin Hp].
    apply list_elem_of_In in Hin. destruct row as [cid r].
    apply elem_of_map_to_list in Hin. subst p. cbn [fst snd] in *.
    apply andb_true_iff in Hp as [Hp H3]. apply andb_true_iff in Hp as [H1 H2].
    auto.
  - intros Hlen cid r Hr Hw Hsent Hskip.
    rewrite take_ge.
    + rewrite by_score_perm. apply list_elem_of_In, filter_In.
      split; [now apply list_elem_of_In, elem_of_map_to_list|].
      subst p. cbn [fst snd]. now rewrite Hw, Hsent, Hskip.
    + rewrite (Permutation_length (by_score_perm l)).
      pose proof (filter_length_le p (map_to_list (clusters (db s)))).
      subst l. lia.
Qed.

(** A row passes the clause [id != ANY(ids)] when the list is empty,
    so that the clause is not added, or holds an id other than the
    row's. *)
Lemma passes_spec (i : Z) (ids : list (option Z)) :
  passes i ids = true <-> ids = [] \/ exists j, Some j ∈ ids /\ j <> i.
Proof.
  unfold passes, ne_any. destruct ids as [|x ids]; [split; auto|].
  set (l := x :: ids).
  destruct (existsb _ l) eqn:He.
  - split; [|reflexivity]. intros _. right.
    apply existsb_exists in He as [[j|] [Hin Hj]]; [|discriminate].
    exists j. split; [now apply list_elem_of_In|].
    apply negb_true_iff, Z.eqb_neq in Hj. congruence.
  - assert (Hno : ~ exists j, Some j ∈ l /\ j <> i).
    { intros [j [Hin Hj]]. apply not_true_iff_false in He. apply He.
      apply existsb_exists. exists (Some j).
      split; [now apply list_elem_of_In|].
      apply negb_true_iff, Z.eqb_neq. congruence. }
    clear He.
    destruct (existsb (fun x0 : option Z =>
                         match x0 with Some _ => false | None => true end) l);
      (split; [discriminate|]);
      (intros [H | H]; [subst l; discriminate | contradiction]).
Qed.

(** X25. [get_top_clusters] fails only for a negative limit. Otherwise
    it returns at most [limit] clusters, each one once, ranked by score
    with the highest first; every one is a row of [clusters] last seen
    inside the window, returned with its title, its score and its
    [first_seen_at]. *)
Theorem get_top_clusters_ranked (db_now limit hours : Z) (s : Store) :
  match get_top_clusters rt db_now limit hours s with
  | None => limit < 0
  | Some (results, _) =>
      0 <= limit
      /\ len results <= limit
      /\ StronglySorted (fun a b => (t_score b <= t_score a)%Q) results
      /\ NoDup (map t_id results)
      /\ forall c, c ∈ results ->
           exists row,
             clusters (db s) !! t_id c = Some row
             /\ t_title c = c_title row /\ t_score c = c_score row
             /\ t_created_at c = c_first_seen_at row
             /\ within_hours db_now (_window_hours hours)
                             (c_last_seen_at row) = true
  end.
Proof.
  rewrite get_top_clusters_eq.
  destruct (Z.ltb_spec limit 0) as [Hneg | Hpos]; [exact Hneg|].
  destruct (select_top_rows db_now (_window_hours hours) limit s)
    as [Hsorted [Hnd [Hlen [Hrows _]]]].
  set (rows := select_top db_now (_window_hours hours) limit s) in *.
  split; [exact Hpos|]. split; [unfold len; rewrite length_map; lia|].
  split; [|split].
  - clear Hnd Hlen Hrows.
    induction Hsorted as [|row rows' Hs IH Hall]; cbn [map]; constructor;
      [exact IH|].
    apply Forall_forall. intros c Hc.
    apply list_elem_of_In, in_map_iff in Hc as [row' [<- Hin]].
    apply list_elem_of_In in Hin.
    exact (proj1 (Forall_forall _ _) Hall row' Hin).
  - rewrite map_map. exact Hnd.
  - intros c Hc. apply list_elem_of_In, in_map_iff in Hc as [row [<- Hin]].
    apply list_elem_of_In, Hrows in Hin as [Hr [Hw _]].
    exists row.2. cbn [cluster_of t_id t_title t_score t_created_at].
    auto.
Qed.

(** X26. Which clusters the two exclusion clauses let through, as
    PostgreSQL evaluates [id != ANY(ids)]: with a limit that does not
    cut the ranking, a cluster of the window is returned exactly when
    the list of sent ids is empty or holds an id other than its own, and
    likewise for the list of skipped ids. A cluster that was sent or
    skipped is therefore dropped only when no other id is in the list. *)
Theorem get_top_clusters_exclusion (db_now limit hours : Z) (s : Store) :
  0 <= limit ->
  len (map_to_list (clusters (db s))) <= limit ->
  exists results s',
    get_top_clusters rt db_now limit hours s = Some (results, s')
    /\ forall cid,
         cid ∈ map t_id results
         <-> exists row,
               clusters (db s) !! cid = Some row
               /\ within_hours db_now (_window_hours hours)
                               (c_last_seen_at row) = true
               /\ (sent_ids db_now (briefs s) = []
                   \/ exists j, Some j ∈ sent_ids db_now (briefs s) /\ j <> cid)
               /\ (skip_ids db_now (user_feedback (db s)) = []
                   \/ exists j, Some j ∈ skip_ids db_now (user_feedback (db s))
                                /\ j <> cid).
Proof.
  intros Hpos Hlimit. rewrite get_top_clusters_eq.
  replace (limit <? 0) with false by (symmetry; apply Z.ltb_ge; lia).
  eexists. eexists. split; [reflexivity|].
  destruct (select_top_rows db_now (_window_hours hours) limit s)
    as [_ [_ [_ [Hrows Hall]]]].
  intros cid. rewrite map_map. cbn [cluster_of t_id]. split.
  - intros Hin. apply list_elem_of_In, in_map_iff in Hin as [row [<- Hin]].
    apply list_elem_of_In, Hrows in Hin as [Hr [Hw [H1 H2]]].
    exists row.2. apply passes_spec in H1, H2. auto.
  - intros [row [Hr [Hw [H1 H2]]]]. apply passes_spec in H1, H2.
    apply list_elem_of_In, in_map_iff. exists (cid, row).
    split; [reflexivity|]. apply list_elem_of_In, Hall; auto.
    unfold len in Hlimit. lia.
Qed.

Lemma newest_items_members (d : DB) (cid : Z) (n : nat) (r : ItemRow) :
  r ∈ newest_items d cid n -> r ∈ cluster_items d cid.
Proof.
  unfold newest_items. intros H.
  eapply elem_of_sublist in H; [|apply sublist_take].
  now rewrite sorted_perm in H.
Qed.

(** X27. The links returned with a cluster are the links written to
    its row, and they come from the cluster's own items: the store is
    otherwise unchanged, a cluster that is not returned keeps its link
    columns, the items listed with a cluster are at most five of its
    members, and the primary link, when there is one, and every evidence
    link are the stripped URL of a member item. *)
Theorem get_top_clusters_links (db_now limit hours : Z) (s : Store) :
  match get_top_clusters rt db_now limit hours s with
  | None => True
  | Some (results, s') =>
      db s' = db s /\ briefs s' = briefs s
      /\ (forall cid, cid ∉ map t_id results -> links s' !! cid = links s !! cid)
      /\ forall c, c ∈ results ->
           (exists l, links s' !! t_id c = Some l
                      /\ t_primary_link c = primary_link l
                      /\ t_evidence_links c = evidence_links l)
           /\ (length (t_items c) <= 5)%nat
           /\ (forall r, r ∈ t_items c -> i_cluster_id r = Some (t_id c))
           /\ forall u,
                u = t_primary_link c /\ u <> EmptyString
                \/ u ∈ t_evidence_links c ->
                exists r, r ∈ cluster_items (db s) (t_id c)
                          /\ u = str_strip rt (default EmptyString (i_url r))
  end.
Proof.
  rewrite get_top_clusters_eq. destruct (limit <? 0); [exact I|].
  set (rows := select_top db_now (_window_hours hours) limit s).
  destruct (top_fold rows s []) as [Hd [Hb [_ Hl]]].
  split; [exact Hd|]. split; [exact Hb|]. rewrite map_map. cbn [cluster_of t_id].
  split.
  - intros cid Hout. rewrite Hl. now rewrite bool_decide_eq_false_2.
  - intros c Hc. apply list_elem_of_In, in_map_iff in Hc as [row [<- Hin]].
    cbn [cluster_of t_id t_items t_primary_link t_evidence_links].
    split; [|split; [|split]].
    + exists (links_of rt (db s) row.1). rewrite Hl.
      rewrite bool_decide_eq_true_2; [auto|].
      apply list_elem_of_In, in_map, Hin.
    + unfold newest_items. rewrite length_take. lia.
    + intros r Hr. apply newest_items_members in Hr.
      unfold cluster_items in Hr.
      apply list_elem_of_In, filter_In in Hr as [_ Hr].
      now apply bool_decide_eq_true in Hr.
    + intros u Hu. unfold links_of in Hu.
      destruct (select_links_shape rt row.1
                  (map link_item (newest_items (db s) row.1 20)))
        as [_ [_ [_ Hfrom]]].
      destruct (Hfrom u Hu) as [item [Hitem ->]].
      apply list_elem_of_In, in_map_iff in Hitem as [r [<- Hr]].
      exists r. split; [eapply newest_items_members, list_elem_of_In, Hr|].
      f_equal. unfold link_item, get_or_empty.
      rewrite lookup_insert_eq. now destruct (i_url r).
Qed.

End TopClusters.

(** ** The further properties on the examples *)

Section MoreOnExamples.
Import Py News Figures Examples MoreExamples.

(** The [domain] fields of the two lists differ, the links do not. *)
Lemma domain_field_is_fallback_witness :
  Forall (fun item =>
            str_strip rt (get_or_empty item "url") = EmptyString
            \/ _get_domain rt (str_strip rt (get_or_empty item "url"))
               <> EmptyString) hosted_links
  /\ map (fun item : gmap string value => item !! "url") hosted_links
     = map (fun item : gmap string value => item !! "url") mislabelled_links
  /\ _select_cluster_links rt 1 hosted_links
     = _select_cluster_links rt 1 mislabelled_links.
Proof.
  assert (H1 : Forall (fun item =>
            str_strip rt (get_or_empty item "url") = EmptyString
            \/ _get_domain rt (str_strip rt (get_or_empty item "url"))
               <> EmptyString) hosted_links).
  { constructor; [right; vm_compute; discriminate|].
    constructor; [right; vm_compute; discriminate|]. constructor. }
  assert (H2 : map (fun item : gmap string value => item !! "url") hosted_links
               = map (fun item : gmap string value => item !! "url")
                     mislabelled_links)
    by (vm_compute; reflexivity).
  split; [exact H1|]. split; [exact H2|].
  exact (domain_field_is_fallback rt 1 hosted_links mislabelled_links H1 H2).
Defined.

(** A headline inside a longer headline. *)
Lemma value_score_monotone_witness :
  contains (_normalize_text rt " Pricing ")
           (_normalize_text rt "New PRICING guide for agents") = true
  /\ (forall key, key ∈ _value_signals rt " Pricing " ->
                  key ∈ _value_signals rt "New PRICING guide for agents")
  /\ (_value_score rt " Pricing "
      <= _value_score rt "New PRICING guide for agents")%Q.
Proof.
  assert (H : contains (_normalize_text rt " Pricing ")
                       (_normalize_text rt "New PRICING guide for agents")
              = true) by (vm_compute; reflexivity).
  split; [exact H|].
  exact (value_score_monotone rt " Pricing " "New PRICING guide for agents" H).
Defined.

(** Item 12 of the example store is picked up by a pass over the last 24
    hours. *)
Lemma cluster_news_assigns_witness :
  items news_db !! 12 = Some item_12
  /\ item_selected now (_window_hours 24) item_12 = true
  /\ exists cid ts row m,
       item_ts item_12 = Some ts
       /\ items (cluster_news rt now 24 70 news_db) !! 12
          = Some (set_cluster_id cid item_12)
       /\ clusters (cluster_news rt now 24 70 news_db) !! cid = Some row
       /\ c_item_count row
          = Some (len (cluster_items (cluster_news rt now 24 70 news_db) cid))
       /\ 1 <= len (cluster_items (cluster_news rt now 24 70 news_db) cid)
       /\ c_last_seen_at row = Some m /\ ts <= m.
Proof.
  assert (H1 : items news_db !! 12 = Some item_12) by (vm_compute; reflexivity).
  assert (H2 : item_selected now (_window_hours 24) item_12 = true)
    by (vm_compute; reflexivity).
  split; [exact H1|]. split; [exact H2|].
  exact (cluster_news_assigns rt now 24 70 news_db 12 item_12 H1 H2).
Defined.

(** The first widening pass of the toy run. *)
Lemma backfill_schedule_witness :
  0 <= news_backfill_threshold_step toy_settings
  /\ (1, 144, 45%Q)
     ∈ (get_top_clusters_with_backfill toy_cluster_news toy_score_clusters
          toy_get_top_clusters toy_settings 5 O).2
  /\ 1 <= 1 <= news_backfill_max_steps toy_settings
  /\ 144 = news_window_hours toy_settings
           * Z.max 1 (news_backfill_window_multiplier toy_settings) ^ 1
  /\ (45 == Qmax 30 (70 - inject_Z 1
                          * inject_Z (news_backfill_threshold_step toy_settings)))%Q.
Proof.
  assert (H1 : 0 <= news_backfill_threshold_step toy_settings)
    by (vm_compute; discriminate).
  assert (E : (get_top_clusters_with_backfill toy_cluster_news
                 toy_score_clusters toy_get_top_clusters toy_settings 5 O).2
              = [(1, 144, 45%Q); (2, 288, 30%Q)]) by (vm_compute; reflexivity).
  assert (H2 : (1, 144, 45%Q)
               ∈ (get_top_clusters_with_backfill toy_cluster_news
                    toy_score_clusters toy_get_top_clusters toy_settings 5 O).2)
    by (rewrite E; apply list_elem_of_here).
  split; [exact H1|]. split; [exact H2|].
  exact (backfill_schedule toy_cluster_news toy_score_clusters
           toy_get_top_clusters toy_settings 5 O 1 144 45%Q H1 H2).
Defined.

(** The example repo against a snapshot of 900 stars. *)
Lemma repo_score_bounds_witness :
  0 <= Repo.stars repo_row
  /\ Repo.snap_stars repo_snapshot <= Repo.stars repo_row
  /\ (IZR (Z.min (Repo.open_issues repo_row) 50) * (1 / 10)
      <= Repo.calculate_repo_score now repo_row (Some repo_snapshot)
      <= IZR (Repo.stars repo_row - Repo.snap_stars repo_snapshot) * 2
         + IZR (Repo.stars repo_row) * (1 / 100)
         + IZR (Z.min (Repo.open_issues repo_row) 50) * (1 / 10)
      /\ IZR (Z.min (Repo.open_issues repo_row) 50) * (1 / 10) <= 5)%R.
Proof.
  assert (H1 : 0 <= Repo.stars repo_row) by (cbn; lia).
  assert (H2 : Repo.snap_stars repo_snapshot <= Repo.stars repo_row)
    by (cbn; lia).
  split; [exact H1|]. split; [exact H2|].
  exact (repo_score_bounds now repo_row repo_snapshot H1 H2).
Defined.

(** The bookmarks of the four example links, with the default bound. *)
Lemma bookmarks_of_selected_links_witness :
  2 <= 5
  /\ Outputs._build_branch1_bookmarks
       (primary_link (_select_cluster_links rt 1 four_links))
       (evidence_links (_select_cluster_links rt 1 four_links)) 5
     = slice_to (evidence_links (_select_cluster_links rt 1 four_links)) 5
  /\ Outputs.builder_bookmarks
       (primary_link (_select_cluster_links rt 1 four_links))
       (evidence_links (_select_cluster_links rt 1 four_links)) 5
     = slice_to (evidence_links (_select_cluster_links rt 1 four_links)) 5.
Proof.
  assert (H : 2 <= 5) by lia.
  split; [exact H|].
  exact (bookmarks_of_selected_links rt 1 four_links 5 H).
Defined.

(** With a bound of 1 the bookmark list of outputs.py has two entries,
    the one of output_builder.py has one. *)
Example bookmarks_bound_of_one :
  Outputs._build_branch1_bookmarks "p" ["p"; "a"; "b"] 1 = ["p"; "a"]
  /\ Outputs.builder_bookmarks "p" ["p"; "a"; "b"] 1 = ["p"].
Proof. split; vm_compute; reflexivity. Qed.

(** The store in which both clusters have been sent. *)
Lemma get_top_clusters_exclusion_witness :
  0 <= 10
  /\ len (map_to_list (clusters (Selection.db both_sent))) <= 10
  /\ exists results s',
       Selection.get_top_clusters rt now 10 72 both_sent = Some (results, s')
       /\ forall cid,
            cid ∈ map Selection.t_id results
            <-> exists row,
                  clusters (Selection.db both_sent) !! cid = Some row
                  /\ within_hours now (_window_hours 72) (c_last_seen_at row)
                     = true
                  /\ (Selection.sent_ids now (Selection.briefs both_sent) = []
                      \/ exists j,
                           Some j ∈ Selection.sent_ids now
                                      (Selection.briefs both_sent)
                           /\ j <> cid)
                  /\ (Selection.skip_ids now
                        (user_feedback (Selection.db both_sent)) = []
                      \/ exists j,
                           Some j ∈ Selection.skip_ids now
                                      (user_feedback (Selection.db both_sent))
                           /\ j <> cid).
Proof.
  assert (H1 : 0 <= 10) by lia.
  assert (E : len (map_to_list (clusters (Selection.db both_sent))) = 2)
    by (vm_compute; reflexivity).
  assert (H2 : len (map_to_list (clusters (Selection.db both_sent))) <= 10)
    by (rewrite E; lia).
  split; [exact H1|]. split; [exact H2|].
  exact (get_top_clusters_exclusion rt now 10 72 both_sent H1 H2).
Defined.

(** When one cluster has been sent it is dropped; when both have been
    sent, both are returned, the higher score first. *)
Example sent_clusters :
  (map Selection.t_id <$> (fst <$> Selection.get_top_clusters rt now 10 72 one_sent))
  = Some [2]
  /\ (map Selection.t_id
        <$> (fst <$> Selection.get_top_clusters rt now 10 72 both_sent))
     = Some [2; 1]
  /\ (map Selection.t_primary_link
        <$> (fst <$> Selection.get_top_clusters rt now 10 72 both_sent))
     = Some ["https://github.com/x/y"; "https://openai.com/blog/a"]
  /\ Selection.get_top_clusters rt now (-1) 72 both_sent = None.
Proof. repeat split; vm_compute; reflexivity. Qed.

(** Of the two clusters under the item's title the first one, cluster
    2, gets the item; cluster 3 is left as it was. *)
Example assign_item_tie :
  i_cluster_id
  <$> items (assign_item rt 70 (tie_db, active_tie) item_gpt).1 !! 12
  = Some (Some 2)
  /\ c_last_seen_at
     <$> clusters (assign_item rt 70 (tie_db, active_tie) item_gpt).1 !! 2
     = Some (Some (now - 2 * hour))
  /\ clusters (assign_item rt 70 (tie_db, active_tie) item_gpt).1 !! 3
     = clusters tie_db !! 3.
Proof. repeat split; vm_compute; reflexivity. Qed.

(** A window of 2^31 hours starts before the lowest timestamp: the
    server of the example store refuses it, the gate raises, and so does
    the dedup of the candidates. *)
Example dedup_refused_window :
  Dedup.getRecentBriefRefIds dedup_store "news" [7; 8] 2147483648
  = Dedup.Raises
  /\ Pipeline.dedup_candidates (fun c : Z => c) dedup_store "news" [7; 8]
                               2147483648
     = None
  /\ Pipeline.dedup_candidates (fun c : Z => c) dedup_store "news" [7; 8] 24
     = Some [8]
  /\ Pipeline.dedup_candidates (fun c : Z => c) dedup_store "news" [7; 8] 0
     = Some [7; 8].
Proof. repeat split; vm_compute; reflexivity. Qed.

End MoreOnExamples.
